(** * The transform-and-validate engine of the analytics pipeline

    A shallow embedding of [transforms.py] (class [DataTransformer]) and
    [validation.py] (class [DataValidator]) together with the table
    declarations of [schema.py] and the thresholds of [config.py].

    The SQL statements held by the Python methods are embedded as list
    programs over typed rows: a column of a row is an [option] (SQL NULL is
    [None]), predicates are three-valued, [DISTINCT ON ... ORDER BY] is a
    sort followed by "first row of every key", and an [INSERT] checks the
    constraints declared by the DDL and fails as a whole when one of them is
    violated.  Python's [try / except] appears as a match on the result of
    the guarded queries. *)

From Stdlib Require Import List String Ascii ZArith QArith Bool Lia DecimalString.
From Stdlib Require Import Sorting.Sorted Sorting.Permutation.
From Stdlib Require Import Structures.OrdersEx.
From Stdlib Require Import Floats.PrimFloat Numbers.Cyclic.Int63.Uint63.
Import ListNotations.

Local Open Scope string_scope.
Local Open Scope list_scope.
Local Open Scope Z_scope.

(* ===================================================================== *)
(** * SQL values and three-valued logic                                   *)
(* ===================================================================== *)

Module SQL.

(** A truth value of a [WHERE] clause: [None] is UNKNOWN. *)
Definition tv := option bool.

Definition sql_and (a b : tv) : tv :=
  match a, b with
  | Some false, _ | _, Some false => Some false
  | Some true, Some true => Some true
  | _, _ => None
  end.

Definition sql_or (a b : tv) : tv :=
  match a, b with
  | Some true, _ | _, Some true => Some true
  | Some false, Some false => Some false
  | _, _ => None
  end.

Definition sql_not (a : tv) : tv := option_map negb a.

(** A row passes a [WHERE] clause only when the clause is TRUE. *)
Definition holds (a : tv) : bool :=
  match a with Some true => true | _ => false end.

Definition is_null {A} (x : option A) : bool :=
  match x with None => true | Some _ => false end.

Definition is_not_null {A} (x : option A) : tv := Some (negb (is_null x)).

Definition eq_text (x y : option string) : tv :=
  match x, y with
  | Some a, Some b => Some (String.eqb a b)
  | _, _ => None
  end.

Definition gt_num (x : option Z) (k : Z) : tv := option_map (fun v => k <? v) x.
Definition lt_num (x : option Z) (k : Z) : tv := option_map (fun v => v <? k) x.

(** [x IN (subquery)]: FALSE on an empty subquery, TRUE on a match,
    UNKNOWN when there is no match and either [x] or a member is NULL. *)
Fixpoint sql_in (x : option string) (l : list (option string)) : tv :=
  match l with
  | [] => Some false
  | y :: rest => sql_or (eq_text x y) (sql_in x rest)
  end.

Definition sql_not_in (x : option string) (l : list (option string)) : tv :=
  sql_not (sql_in x l).

Definition coalesce {A} (x : option A) (d : A) : A :=
  match x with Some v => v | None => d end.

(** [NULLIF(n, k)]. *)
Definition nullif (n k : Z) : option Z := if n =? k then None else Some n.

End SQL.
Import SQL.

(* ===================================================================== *)
(** * String built-ins: REPLACE, LIKE '%..%'                              *)
(* ===================================================================== *)

Module Text.

Definition chars (s : string) : list ascii := list_ascii_of_string s.
Definition text (l : list ascii) : string := string_of_list_ascii l.

(** [REPLACE], [LIKE] and [=] work on the bytes of a text and are embedded
    as such.  [LOWER] and [TRIM] depend on the character tables of the
    engine and are taken from the [Engine] below; [ascii_lower] and
    [trim_spaces] are their restrictions to ASCII, which the engine of the
    fixtures uses. *)
Definition ascii_lower_char (c : ascii) : ascii :=
  let n := nat_of_ascii c in
  if ((65 <=? n) && (n <=? 90))%nat then ascii_of_nat (n + 32) else c.

Definition ascii_lower (s : string) : string := text (map ascii_lower_char (chars s)).

Definition is_blank (c : ascii) : bool := Ascii.eqb c " ".

Fixpoint drop_while (p : ascii -> bool) (l : list ascii) : list ascii :=
  match l with
  | [] => []
  | c :: rest => if p c then drop_while p rest else l
  end.

Definition trim_spaces (s : string) : string :=
  text (rev (drop_while is_blank (rev (drop_while is_blank (chars s))))).

(** [REPLACE(s, from, to)] for one-character patterns. *)
Definition replace (s : string) (from to : ascii) : string :=
  text (map (fun c => if Ascii.eqb c from then to else c) (chars s)).

Fixpoint has_prefix (p s : list ascii) : bool :=
  match p, s with
  | [], _ => true
  | _ :: _, [] => false
  | a :: p', b :: s' => Ascii.eqb a b && has_prefix p' s'
  end.

Fixpoint contains_chars (p s : list ascii) : bool :=
  has_prefix p s ||
  match s with
  | [] => false
  | _ :: s' => contains_chars p s'
  end.

(** [s LIKE '%p%'] for a pattern [p] without wildcards. *)
Definition contains (p s : string) : bool := contains_chars (chars p) (chars s).

End Text.

(* ===================================================================== *)
(** * Plain numerals                                                      *)
(* ===================================================================== *)

(** [TRY_CAST] of a text to INTEGER and to DECIMAL belongs to the engine,
    see [Engine].  This module reads the plain numerals (a sign, digits, a
    decimal point); it is the cast of the engine of the fixtures. *)
Module Cast.
Import Text.

Definition is_space (c : ascii) : bool :=
  let n := nat_of_ascii c in
  ((n =? 32) || ((9 <=? n) && (n <=? 13)))%nat.

Definition is_digit (c : ascii) : bool :=
  let n := nat_of_ascii c in ((48 <=? n) && (n <=? 57))%nat.

Definition digit_value (c : ascii) : Z := Z.of_nat (nat_of_ascii c) - 48.

(** The leading digits of [l] and what follows them. *)
Fixpoint span_digits (l : list ascii) : list ascii * list ascii :=
  match l with
  | c :: rest =>
      if is_digit c
      then let (d, r) := span_digits rest in (c :: d, r)
      else ([], l)
  | [] => ([], [])
  end.

(** A scanned numeral: sign, digits before and digits after the point. *)
Record numeral := {
  negative : bool;
  int_digits : list ascii;
  frac_digits : list ascii
}.

(** An optional sign in front of a numeral. *)
Definition strip_sign (l : list ascii) : bool * list ascii :=
  match l with
  | c :: r =>
      if Ascii.eqb c "-" then (true, r)
      else if Ascii.eqb c "+" then (false, r)
      else (false, l)
  | [] => (false, [])
  end.

(** A decimal point and the digits after it, when there is one. *)
Definition fraction (l : list ascii) : list ascii * list ascii :=
  match l with
  | c :: r => if Ascii.eqb c "." then span_digits r else ([], l)
  | [] => ([], [])
  end.

(** A plain numeral: blanks, an optional sign, digits with an optional
    decimal point (at least one digit on one side of it), and blanks. *)
Definition scan (s : string) : option numeral :=
  let (neg, unsigned) := strip_sign (drop_while is_space (chars s)) in
  let (ip, after_int) := span_digits unsigned in
  let (fp, after_frac) := fraction after_int in
  match ip, fp with
  | [], [] => None
  | _, _ =>
      if forallb is_space after_frac
      then Some {| negative := neg; int_digits := ip; frac_digits := fp |}
      else None
  end.

Definition digits_value (l : list ascii) : Z :=
  fold_left (fun acc c => acc * 10 + digit_value c) l 0.

(** The first [n] digits of a fraction, padded with zeros on the right. *)
Fixpoint take_scale (n : nat) (l : list ascii) : list ascii :=
  match n with
  | O => []
  | S n' =>
      match l with
      | [] => "0"%char :: take_scale n' []
      | c :: rest => c :: take_scale n' rest
      end
  end.

(** Rounding half away from zero looks at the first dropped digit. *)
Definition round_up (dropped : list ascii) : Z :=
  match dropped with
  | c :: _ => if 5 <=? digit_value c then 1 else 0
  | [] => 0
  end.

Definition signed (neg : bool) (v : Z) : Z := if neg then - v else v.

(** A plain numeral as a DECIMAL(width, scale): the value in units of
    [10^-scale], nothing when it does not fit the width. *)
Definition plain_decimal (width scale : nat) (s : string) : option Z :=
  match scan s with
  | None => None
  | Some n =>
      let magnitude :=
        digits_value (int_digits n ++ take_scale scale (frac_digits n))
        + round_up (skipn scale (frac_digits n)) in
      if magnitude <? 10 ^ Z.of_nat width
      then Some (signed (negative n) magnitude)
      else None
  end.

(** A plain numeral as a 32-bit integer, fractions are rounded. *)
Definition plain_integer (s : string) : option Z :=
  match scan s with
  | None => None
  | Some n =>
      let v := signed (negative n)
                 (digits_value (int_digits n) + round_up (frac_digits n)) in
      if (- 2 ^ 31 <=? v) && (v <=? 2 ^ 31 - 1) then Some v else None
  end.

End Cast.


(* ===================================================================== *)
(** * Dates and timestamps                                                *)
(* ===================================================================== *)

(** The scalar functions that the statements call and the statement clock
    belong to the query engine: which texts [TRY_CAST] reads as a number, a
    date or a timestamp, and what [LOWER] and [TRIM] do to a character, is
    decided there and not in [transforms.py].  The embedding takes them as
    an [Engine]; every result below holds for every engine, and
    [Calendar.iso] is the one used to evaluate fixtures.

    A DATE is a day number, a TIMESTAMP a number of microseconds, both
    counted from 1970-01-01; [try_cast_decimal w s] gives a DECIMAL(w, s) in
    units of [10^-s].  One fact about the casts is used: the decimal
    separator of a text is the point, so that a text with a comma does not
    cast to a DECIMAL. *)
Record Engine := {
  try_cast_timestamp : string -> option Z;
  try_cast_date : string -> option Z;
  current_timestamp : Z;
  try_cast_integer : string -> option Z;
  try_cast_decimal : nat -> nat -> string -> option Z;
  lower : string -> string;
  trim : string -> string;
  decimal_point_only :
    forall (width scale : nat) (s : string),
      In ","%char (Text.chars s) -> try_cast_decimal width scale s = None
}.

(** Two engines that read the same numbers, whatever their clocks, their
    date casts and their text functions. *)
Definition same_numbers (E1 E2 : Engine) : Prop :=
  (forall s, try_cast_integer E2 s = try_cast_integer E1 s)
  /\ (forall w p s, try_cast_decimal E2 w p s = try_cast_decimal E1 w p s).

Module Calendar.
Import Text Cast.

Definition micros_per_day : Z := 86400000000.

(** [DATE(ts)]: the day a timestamp falls on. *)
Definition date_of_timestamp (ts : Z) : Z := ts / micros_per_day.

Definition leap (y : Z) : bool :=
  ((y mod 4 =? 0) && negb (y mod 100 =? 0)) || (y mod 400 =? 0).

Definition days_in_month (y m : Z) : Z :=
  if m =? 2 then (if leap y then 29 else 28)
  else if (m =? 4) || (m =? 6) || (m =? 9) || (m =? 11) then 30 else 31.

Definition days_from_civil (y m d : Z) : Z :=
  let y' := if m <=? 2 then y - 1 else y in
  let era := y' / 400 in
  let yoe := y' - era * 400 in
  let mp := (m + 9) mod 12 in
  let doy := (153 * mp + 2) / 5 + d - 1 in
  let doe := yoe * 365 + yoe / 4 - yoe / 100 + doy in
  era * 146097 + doe - 719468.

Definition all_digits (l : list ascii) : bool := forallb is_digit l.

(** [YYYY-MM-DD]. *)
Definition iso_date_chars (l : list ascii) : option Z :=
  match l with
  | [y1; y2; y3; y4; "-"%char; m1; m2; "-"%char; d1; d2] =>
      if all_digits [y1; y2; y3; y4; m1; m2; d1; d2] then
        let y := digits_value [y1; y2; y3; y4] in
        let m := digits_value [m1; m2] in
        let d := digits_value [d1; d2] in
        if (1 <=? m) && (m <=? 12) && (1 <=? d) && (d <=? days_in_month y m)
        then Some (days_from_civil y m d) else None
      else None
  | _ => None
  end.

(** [HH:MM:SS], in microseconds. *)
Definition iso_time_chars (l : list ascii) : option Z :=
  match l with
  | [h1; h2; ":"%char; m1; m2; ":"%char; s1; s2] =>
      if all_digits [h1; h2; m1; m2; s1; s2] then
        let h := digits_value [h1; h2] in
        let m := digits_value [m1; m2] in
        let s := digits_value [s1; s2] in
        if (h <=? 23) && (m <=? 59) && (s <=? 59)
        then Some (((h * 60 + m) * 60 + s) * 1000000) else None
      else None
  | _ => None
  end.

Definition iso_date (s : string) : option Z := iso_date_chars (chars s).

(** [YYYY-MM-DD], optionally followed by a blank or a [T] and [HH:MM:SS]. *)
Definition iso_timestamp (s : string) : option Z :=
  let l := chars s in
  match iso_date_chars (firstn 10 l), skipn 10 l with
  | Some d, [] => Some (d * micros_per_day)
  | Some d, sep :: t =>
      if Ascii.eqb sep " " || Ascii.eqb sep "T" then
        option_map (fun us => d * micros_per_day + us) (iso_time_chars t)
      else None
  | None, _ => None
  end.

Definition has_comma (s : string) : bool := existsb (Ascii.eqb ",") (chars s).

(** The engine of the fixtures at the time [now]: ISO dates, plain
    numerals and ASCII letters. *)
Definition iso (now : Z) : Engine.
Proof.
  refine {| try_cast_timestamp := iso_timestamp;
            try_cast_date := iso_date;
            current_timestamp := now;
            try_cast_integer := plain_integer;
            try_cast_decimal :=
              fun w p s => if has_comma s then None else plain_decimal w p s;
            lower := ascii_lower;
            trim := trim_spaces |}.
  intros w p s Hin.
  assert (H : has_comma s = true).
  { apply existsb_exists. exists ","%char. split; [exact Hin | reflexivity]. }
  now rewrite H.
Defined.

End Calendar.

(* ===================================================================== *)
(** * The tables of [schema.py]                                           *)
(* ===================================================================== *)

(** Staging table [raw_customers]: every source column is text. *)
Module RawCustomers.
Record row := {
  _row_id : Z;
  customer_id : option string;
  name : option string;
  email : option string;
  age : option string;
  city : option string;
  country : option string;
  signup_date : option string;
  favorite_team : option string;
  membership_tier : option string;
  gender : option string;
  _load_timestamp : option Z
}.
End RawCustomers.

(** Staging table [raw_transactions]. *)
Module RawTransactions.
Record row := {
  _row_id : Z;
  transaction_id : option string;
  customer_id : option string;
  timestamp : option string;
  amount : option string;
  currency : option string;
  category : option string;
  merchant : option string;
  description : option string;
  _load_timestamp : option Z
}.
End RawTransactions.

(** Staging table [raw_sentiment]. *)
Module RawSentiment.
Record row := {
  _row_id : Z;
  id : option string;
  user : option string;
  source : option string;
  text : option string;
  published_at : option string;
  topic : option string;
  tags : option string;
  sentiment_score : option string;
  engagement : option string;
  _load_timestamp : option Z
}.
End RawSentiment.

(** Target table [dim_customers].  The constraints of the DDL (PRIMARY KEY,
    NOT NULL, CHECK) are checked by the insert, see [Insert]. *)
Module DimCustomers.
Record row := {
  customer_id : option string;
  name : option string;
  email : option string;
  age : option Z;
  city : option string;
  country : option string;
  favorite_team : option string;
  membership_tier : option string;
  signup_date : option Z;
  _loaded_at : option Z
}.
End DimCustomers.

(** Target table [fact_transactions]; [amount_eur] is in cents. *)
Module FactTransactions.
Record row := {
  transaction_id : option string;
  customer_id : option string;
  transaction_date : option Z;
  amount_eur : option Z;
  category : option string;
  merchant : option string;
  _source_row_id : option Z;
  _loaded_at : option Z
}.
End FactTransactions.

(** Target table [fact_sentiment]; [sentiment_score] is in hundredths. *)
Module FactSentiment.
Record row := {
  post_id : option string;
  user_name : option string;
  topic : option string;
  sentiment_score : option Z;
  engagement : option Z;
  published_at : option Z;
  _source_row_id : option Z;
  _loaded_at : option Z
}.
End FactSentiment.

(** The outcome of [ROUND(CAST(n AS DECIMAL) / d, s)]. *)
Inductive quotient :=
  | QNull
  | QValue (scaled : Z)
  | QDivisionByZero.

(** Target table [customer_profile]; money is in cents, the ratio in
    hundredths and the interval in tenths of a day. *)
Module CustomerProfile.
Record row := {
  customer_id : option string;
  txn_count : option Z;
  total_spend : option Z;
  avg_txn : option Z;
  last_txn_date : option Z;
  match_ticket_count : option Z;
  sports_affinity_ratio : quotient;
  avg_days_between_txns : quotient;
  _loaded_at : option Z
}.
End CustomerProfile.

(** The store behind a connection: a table that was never created is
    [None]. *)
Record Store := {
  raw_customers : option (list RawCustomers.row);
  raw_transactions : option (list RawTransactions.row);
  raw_sentiment : option (list RawSentiment.row);
  dim_customers : option (list DimCustomers.row);
  fact_transactions : option (list FactTransactions.row);
  fact_sentiment : option (list FactSentiment.row);
  customer_profile : option (list CustomerProfile.row)
}.

(** What [conn.execute] raises: the kind of the error and what it is
    about.  The text of [str(e)] is the engine's; where the code records
    [str(e)], the embedding records [e]. *)
Inductive error :=
  | CatalogError (table : string)
  | ConstraintError (table what : string)
  | ConversionError (table what : string).

(** A Python call either returns or raises. *)
Inductive result (A : Type) :=
  | Ok (a : A)
  | Raise (e : error).
Arguments Ok {A} a.
Arguments Raise {A} e.

Definition bind {A B} (m : result A) (k : A -> result B) : result B :=
  match m with
  | Ok a => k a
  | Raise e => Raise e
  end.

Notation "x <- m ;; k" := (bind m (fun x => k))
  (at level 61, m at next level, right associativity).

(** [SELECT ... FROM t]: a scan of a table that does not exist raises. *)
Definition scan_table {A} (t : string) (tbl : option (list A)) : result (list A) :=
  match tbl with
  | Some rows => Ok rows
  | None => Raise (CatalogError t)
  end.

(* ===================================================================== *)
(** * DISTINCT ON (key) ... WHERE key IS NOT NULL ORDER BY key, tie       *)
(* ===================================================================== *)

Module Dedup.

(** Keys are compared bytewise; NULL sorts after every text. *)
Definition key_ltb (a b : option string) : bool :=
  match a, b with
  | Some x, Some y =>
      match String_as_OT.compare x y with Lt => true | _ => false end
  | Some _, None => true
  | None, _ => false
  end.

Definition key_eqb (a b : option string) : bool :=
  match a, b with
  | Some x, Some y => String.eqb x y
  | None, None => true
  | _, _ => false
  end.

Fixpoint mem (k : option string) (l : list (option string)) : bool :=
  match l with
  | [] => false
  | k' :: rest => key_eqb k k' || mem k rest
  end.

(** Ascending order of a nullable number, NULL last. *)
Definition nulls_last_leb (a b : option Z) : bool :=
  match a, b with
  | Some x, Some y => x <=? y
  | _, None => true
  | None, Some _ => false
  end.

Section DistinctOn.

Variable R : Type.
Variable key : R -> option string.
(** [tie_leb r1 r2]: [r1] is not after [r2] in the second sort column. *)
Variable tie_leb : R -> R -> bool.

(** The order of [ORDER BY key, tie]. *)
Definition row_leb (r1 r2 : R) : bool :=
  key_ltb (key r1) (key r2) || (key_eqb (key r1) (key r2) && tie_leb r1 r2).

Definition row_le (r1 r2 : R) : Prop := row_leb r1 r2 = true.

Fixpoint insert_sorted (r : R) (l : list R) : list R :=
  match l with
  | [] => [r]
  | r' :: rest => if row_leb r r' then r :: l else r' :: insert_sorted r rest
  end.

(** [ORDER BY]: an insertion sort.  Rows that tie on both columns keep
    their table order; the engine leaves their order open. *)
Definition order_by (l : list R) : list R := fold_right insert_sorted [] l.

(** The first row of every key, in the order of the input. *)
Fixpoint distinct_on_from (seen : list (option string)) (l : list R) : list R :=
  match l with
  | [] => []
  | r :: rest =>
      if mem (key r) seen then distinct_on_from seen rest
      else r :: distinct_on_from (key r :: seen) rest
  end.

Definition distinct_on (l : list R) : list R := distinct_on_from [] l.

Definition key_not_null (r : R) : bool := negb (is_null (key r)).

(** The common table expression [deduped]. *)
Definition deduped (l : list R) : list R :=
  distinct_on (order_by (filter key_not_null l)).

End DistinctOn.

Arguments row_leb {R} key tie_leb r1 r2.
Arguments row_le {R} key tie_leb r1 r2.
Arguments insert_sorted {R} key tie_leb r l.
Arguments order_by {R} key tie_leb l.
Arguments distinct_on_from {R} key seen l.
Arguments distinct_on {R} key l.
Arguments key_not_null {R} key r.
Arguments deduped {R} key tie_leb l.

End Dedup.

(* ===================================================================== *)
(** * INSERT: the constraints declared by the DDL                         *)
(* ===================================================================== *)

Module Insert.
Import Dedup.

Fixpoint unique_keys (ks : list (option string)) : bool :=
  match ks with
  | [] => true
  | k :: rest => negb (mem k rest) && unique_keys rest
  end.

Definition not_null {R A} (col : R -> option A) (rows : list R) : bool :=
  forallb (fun r => negb (is_null (col r))) rows.

(** [CHECK (age >= 0 AND age <= 150)]; a NULL age passes the check. *)
Definition age_check (r : DimCustomers.row) : bool :=
  match DimCustomers.age r with
  | Some a => (0 <=? a) && (a <=? 150)
  | None => true
  end.

Definition dim_customers (existing new : list DimCustomers.row)
  : result (list DimCustomers.row) :=
  if negb (not_null DimCustomers.customer_id new) then
    Raise (ConstraintError "dim_customers" "NOT NULL constraint failed: customer_id")
  else if negb (not_null DimCustomers.name new) then
    Raise (ConstraintError "dim_customers" "NOT NULL constraint failed: name")
  else if negb (forallb age_check new) then
    Raise (ConstraintError "dim_customers" "CHECK constraint failed: age")
  else if negb (unique_keys (map DimCustomers.customer_id (existing ++ new))) then
    Raise (ConstraintError "dim_customers" "Duplicate key violates primary key")
  else Ok (existing ++ new).

(** [FOREIGN KEY (customer_id) REFERENCES dim_customers(customer_id)]. *)
Definition references (dim : list DimCustomers.row) (r : FactTransactions.row) : bool :=
  mem (FactTransactions.customer_id r) (map DimCustomers.customer_id dim).

Definition fact_transactions (dim : list DimCustomers.row)
  (existing new : list FactTransactions.row) : result (list FactTransactions.row) :=
  if negb (not_null FactTransactions.transaction_id new) then
    Raise (ConstraintError "fact_transactions" "NOT NULL constraint failed: transaction_id")
  else if negb (not_null FactTransactions.customer_id new) then
    Raise (ConstraintError "fact_transactions" "NOT NULL constraint failed: customer_id")
  else if negb (not_null FactTransactions.transaction_date new) then
    Raise (ConstraintError "fact_transactions" "NOT NULL constraint failed: transaction_date")
  else if negb (not_null FactTransactions.amount_eur new) then
    Raise (ConstraintError "fact_transactions" "NOT NULL constraint failed: amount_eur")
  else if negb (not_null FactTransactions.category new) then
    Raise (ConstraintError "fact_transactions" "NOT NULL constraint failed: category")
  else if negb (unique_keys (map FactTransactions.transaction_id (existing ++ new))) then
    Raise (ConstraintError "fact_transactions" "Duplicate key violates primary key")
  else if negb (forallb (references dim) new) then
    Raise (ConstraintError "fact_transactions" "Violates foreign key constraint")
  else Ok (existing ++ new).

Definition fact_sentiment (existing new : list FactSentiment.row)
  : result (list FactSentiment.row) :=
  if negb (not_null FactSentiment.post_id new) then
    Raise (ConstraintError "fact_sentiment" "NOT NULL constraint failed: post_id")
  else if negb (unique_keys (map FactSentiment.post_id (existing ++ new))) then
    Raise (ConstraintError "fact_sentiment" "Duplicate key violates primary key")
  else Ok (existing ++ new).

(** A value fits DECIMAL(w, s) when its scaled magnitude is below 10^w. *)
Definition fits (width : nat) (v : option Z) : bool :=
  match v with
  | Some x => Z.abs x <? 10 ^ Z.of_nat width
  | None => true
  end.

Definition quotient_fits (width : nat) (q : quotient) : bool :=
  match q with
  | QNull => true
  | QValue x => Z.abs x <? 10 ^ Z.of_nat width
  | QDivisionByZero => false
  end.

Definition profile_fits (r : CustomerProfile.row) : bool :=
  fits 10 (CustomerProfile.total_spend r)
  && fits 10 (CustomerProfile.avg_txn r)
  && quotient_fits 3 (CustomerProfile.sports_affinity_ratio r)
  && quotient_fits 5 (CustomerProfile.avg_days_between_txns r).

Definition customer_profile (existing new : list CustomerProfile.row)
  : result (list CustomerProfile.row) :=
  if negb (forallb profile_fits new) then
    Raise (ConversionError "customer_profile" "value is out of range for the DECIMAL column")
  else if negb (not_null CustomerProfile.customer_id new) then
    Raise (ConstraintError "customer_profile" "NOT NULL constraint failed: customer_id")
  else if negb (unique_keys (map CustomerProfile.customer_id (existing ++ new))) then
    Raise (ConstraintError "customer_profile" "Duplicate key violates primary key")
  else Ok (existing ++ new).

End Insert.

(* ===================================================================== *)
(** * [transforms.py]: class [DataTransformer]                            *)
(* ===================================================================== *)

(** An entry of [report["steps"]]: ["Tables created"],
    [f"{table}: {row_count} rows"] or [f"ERROR in {table}: {str(e)}"]. *)
Inductive entry :=
  | TablesCreated
  | Loaded (table : string) (row_count : nat)
  | Failed (table : string) (e : error).

(** A transformer holds its connection and the report it appends to. *)
Record Transformer := {
  conn : Store;
  report : list entry
}.

Definition set_dim_customers (s : Store) (t : list DimCustomers.row) : Store :=
  {| raw_customers := raw_customers s; raw_transactions := raw_transactions s;
     raw_sentiment := raw_sentiment s; dim_customers := Some t;
     fact_transactions := fact_transactions s; fact_sentiment := fact_sentiment s;
     customer_profile := customer_profile s |}.

Definition set_fact_transactions (s : Store) (t : list FactTransactions.row) : Store :=
  {| raw_customers := raw_customers s; raw_transactions := raw_transactions s;
     raw_sentiment := raw_sentiment s; dim_customers := dim_customers s;
     fact_transactions := Some t; fact_sentiment := fact_sentiment s;
     customer_profile := customer_profile s |}.

Definition set_fact_sentiment (s : Store) (t : list FactSentiment.row) : Store :=
  {| raw_customers := raw_customers s; raw_transactions := raw_transactions s;
     raw_sentiment := raw_sentiment s; dim_customers := dim_customers s;
     fact_transactions := fact_transactions s; fact_sentiment := Some t;
     customer_profile := customer_profile s |}.

Definition set_customer_profile (s : Store) (t : list CustomerProfile.row) : Store :=
  {| raw_customers := raw_customers s; raw_transactions := raw_transactions s;
     raw_sentiment := raw_sentiment s; dim_customers := dim_customers s;
     fact_transactions := fact_transactions s; fact_sentiment := fact_sentiment s;
     customer_profile := Some t |}.

(** The entry of a step whose table holds [rows] after the insert. *)
Definition loaded {A} (table : string) (rows : list A) : entry :=
  Loaded table (List.length rows).

(** [TRY_CAST(x AS ...)] of a nullable text. *)
Definition try_cast {A} (cast : string -> option A) (x : option string) : option A :=
  match x with
  | Some s => cast s
  | None => None
  end.

(** Nearest integer to [a / b] for [b <> 0], halves away from zero. *)
Definition round_half_away (a b : Z) : Z :=
  let a' := if b <? 0 then - a else a in
  let b' := Z.abs b in
  if 0 <=? a' then (2 * a' + b') / (2 * b')
  else - ((2 * (- a') + b') / (2 * b')).

(** [ROUND(CAST(n AS DECIMAL) / d, scale)], the result in units of
    [10^-scale].  NULL operands give NULL, and a divisor that reaches the
    division as zero is reported as such.  The engine divides in binary64;
    here the quotient is taken exactly, so that a [QValue] may differ from
    the engine's by one unit where the exact quotient lies within a
    rounding error of a half.  What is proved of a quotient below is when
    it is NULL, that it is no division by zero, and its bounds; the digit
    in question is used nowhere. *)
Definition divide_round (scale : nat) (n d : option Z) : quotient :=
  match n, d with
  | Some a, Some b =>
      if b =? 0 then QDivisionByZero
      else QValue (round_half_away (a * 10 ^ Z.of_nat scale) b)
  | _, _ => QNull
  end.

Module Transform.
Import Text Dedup.

Section WithEngine.

Variable E : Engine.

(** [LOWER(TRIM(x))], NULL on NULL. *)
Definition lower_trim (x : option string) : option string :=
  option_map (fun s => lower E (trim E s)) x.

(** ** [create_tables] *)

(** [CREATE TABLE IF NOT EXISTS]. *)
Definition create_if_not_exists {A} (t : option (list A)) : option (list A) :=
  match t with
  | Some rows => Some rows
  | None => Some []
  end.

Definition create_tables (t : Transformer) : Transformer :=
  let s := conn t in
  {| conn :=
       {| raw_customers := raw_customers s;
          raw_transactions := raw_transactions s;
          raw_sentiment := raw_sentiment s;
          dim_customers := create_if_not_exists (dim_customers s);
          fact_transactions := create_if_not_exists (fact_transactions s);
          fact_sentiment := create_if_not_exists (fact_sentiment s);
          customer_profile := create_if_not_exists (customer_profile s) |};
     report := report t ++ [TablesCreated] |}.

(** ** [load_dim_customers] *)

(** [ORDER BY customer_id, _load_timestamp]. *)
Definition customers_tie (a b : RawCustomers.row) : bool :=
  nulls_last_leb (RawCustomers._load_timestamp a) (RawCustomers._load_timestamp b).

Definition deduped_customers (l : list RawCustomers.row) : list RawCustomers.row :=
  deduped RawCustomers.customer_id customers_tie l.

(** The select list over [deduped]. *)
Definition select_customer (r : RawCustomers.row) : DimCustomers.row :=
  {| DimCustomers.customer_id := RawCustomers.customer_id r;
     DimCustomers.name :=
       Some (lower E (trim E (coalesce (RawCustomers.name r) "Unknown")));
     DimCustomers.email := lower_trim (RawCustomers.email r);
     DimCustomers.age := try_cast (try_cast_integer E) (RawCustomers.age r);
     DimCustomers.city := lower_trim (RawCustomers.city r);
     DimCustomers.country := RawCustomers.country r;
     DimCustomers.favorite_team := lower_trim (RawCustomers.favorite_team r);
     DimCustomers.membership_tier := lower_trim (RawCustomers.membership_tier r);
     DimCustomers.signup_date :=
       try_cast (try_cast_date E) (RawCustomers.signup_date r);
     DimCustomers._loaded_at := Some (current_timestamp E) |}.

(** The statement [INSERT INTO dim_customers ...]. *)
Definition insert_dim_customers (s : Store) : result Store :=
  staged <- scan_table "raw_customers" (raw_customers s) ;;
  target <- scan_table "dim_customers" (dim_customers s) ;;
  rows <- Insert.dim_customers target (map select_customer (deduped_customers staged)) ;;
  Ok (set_dim_customers s rows).

(** Runs a statement and the row count after it inside [try]; the
    [except] branch records the error and leaves the store as it was. *)
Definition step {A} (table : string) (statement : Store -> result Store)
  (target : Store -> option (list A)) (t : Transformer) : Transformer :=
  match (s' <- statement (conn t) ;;
         rows <- scan_table table (target s') ;;
         Ok (s', loaded table rows)) with
  | Ok (s', line) => {| conn := s'; report := report t ++ [line] |}
  | Raise e => {| conn := conn t; report := report t ++ [Failed table e] |}
  end.

Definition load_dim_customers : Transformer -> Transformer :=
  step "dim_customers" insert_dim_customers dim_customers.

(** ** [load_fact_transactions] *)

(** [ORDER BY transaction_id, _row_id]. *)
Definition transactions_tie (a b : RawTransactions.row) : bool :=
  RawTransactions._row_id a <=? RawTransactions._row_id b.

Definition deduped_transactions (l : list RawTransactions.row)
  : list RawTransactions.row :=
  deduped RawTransactions.transaction_id transactions_tie l.

(** [TRY_CAST(amount AS DECIMAL(10, 2))], in cents. *)
Definition amount_cast (x : option string) : option Z :=
  try_cast (try_cast_decimal E 10 2) x.

(** The [WHERE] clause; [dim_ids] is [SELECT customer_id FROM dim_customers]. *)
Definition transaction_where (dim_ids : list (option string))
  (r : RawTransactions.row) : tv :=
  sql_and (sql_and (sql_and (sql_and
    (is_not_null (RawTransactions.customer_id r))
    (sql_in (RawTransactions.customer_id r) dim_ids))
    (is_not_null (amount_cast (RawTransactions.amount r))))
    (gt_num (amount_cast (RawTransactions.amount r)) (-1000 * 100)))
    (lt_num (amount_cast (RawTransactions.amount r)) (50000 * 100)).

Definition select_transaction (r : RawTransactions.row) : FactTransactions.row :=
  {| FactTransactions.transaction_id := RawTransactions.transaction_id r;
     FactTransactions.customer_id := RawTransactions.customer_id r;
     FactTransactions.transaction_date :=
       Some (coalesce (try_cast (try_cast_timestamp E) (RawTransactions.timestamp r))
                      (current_timestamp E));
     FactTransactions.amount_eur :=
       amount_cast (option_map (fun s => replace s "," ".") (RawTransactions.amount r));
     FactTransactions.category := lower_trim (RawTransactions.category r);
     FactTransactions.merchant := RawTransactions.merchant r;
     FactTransactions._source_row_id := Some (RawTransactions._row_id r);
     FactTransactions._loaded_at := Some (current_timestamp E) |}.

(** The rows the statement selects for insertion. *)
Definition selected_transactions (dim : list DimCustomers.row)
  (staged : list RawTransactions.row) : list FactTransactions.row :=
  map select_transaction
    (filter (fun r => holds (transaction_where (map DimCustomers.customer_id dim) r))
            (deduped_transactions staged)).

Definition insert_fact_transactions (s : Store) : result Store :=
  staged <- scan_table "raw_transactions" (raw_transactions s) ;;
  dim <- scan_table "dim_customers" (dim_customers s) ;;
  target <- scan_table "fact_transactions" (fact_transactions s) ;;
  rows <- Insert.fact_transactions dim target (selected_transactions dim staged) ;;
  Ok (set_fact_transactions s rows).

Definition load_fact_transactions : Transformer -> Transformer :=
  step "fact_transactions" insert_fact_transactions fact_transactions.

(** ** [load_fact_sentiment] *)

(** [ORDER BY id, _load_timestamp]. *)
Definition sentiment_tie (a b : RawSentiment.row) : bool :=
  nulls_last_leb (RawSentiment._load_timestamp a) (RawSentiment._load_timestamp b).

Definition deduped_sentiment (l : list RawSentiment.row) : list RawSentiment.row :=
  deduped RawSentiment.id sentiment_tie l.

Definition select_sentiment (r : RawSentiment.row) : FactSentiment.row :=
  {| FactSentiment.post_id := RawSentiment.id r;
     FactSentiment.user_name := lower_trim (RawSentiment.user r);
     FactSentiment.topic := lower_trim (RawSentiment.topic r);
     FactSentiment.sentiment_score :=
       try_cast (try_cast_decimal E 3 2) (RawSentiment.sentiment_score r);
     FactSentiment.engagement :=
       try_cast (try_cast_integer E) (RawSentiment.engagement r);
     FactSentiment.published_at :=
       try_cast (try_cast_timestamp E) (RawSentiment.published_at r);
     FactSentiment._source_row_id := Some (RawSentiment._row_id r);
     FactSentiment._loaded_at := Some (current_timestamp E) |}.

Definition insert_fact_sentiment (s : Store) : result Store :=
  staged <- scan_table "raw_sentiment" (raw_sentiment s) ;;
  target <- scan_table "fact_sentiment" (fact_sentiment s) ;;
  rows <- Insert.fact_sentiment target
            (map select_sentiment
               (filter (fun r => holds (is_not_null (RawSentiment.id r)))
                       (deduped_sentiment staged))) ;;
  Ok (set_fact_sentiment s rows).

Definition load_fact_sentiment : Transformer -> Transformer :=
  step "fact_sentiment" insert_fact_sentiment fact_sentiment.

(** ** [load_customer_profile] *)

(** A row of [dim_customers c LEFT JOIN fact_transactions t]: the columns
    of [t] are all NULL when [c] has no transaction. *)
Definition joined := option FactTransactions.row.

Definition column {A} (col : FactTransactions.row -> option A) (j : joined) : option A :=
  match j with
  | Some t => col t
  | None => None
  end.

(** [c LEFT JOIN t ON c.customer_id = t.customer_id], for one [c]. *)
Definition left_join (fact : list FactTransactions.row) (c : DimCustomers.row)
  : list joined :=
  match filter (fun t => holds (eq_text (DimCustomers.customer_id c)
                                        (FactTransactions.customer_id t))) fact with
  | [] => [None]
  | matches => map Some matches
  end.

(** The values of a grouping column, each once. *)
Fixpoint distinct_keys (ks : list (option string)) : list (option string) :=
  match ks with
  | [] => []
  | k :: rest => if mem k rest then distinct_keys rest else k :: distinct_keys rest
  end.

(** The groups of [GROUP BY c.customer_id]: one per value of the column. *)
Definition group_keys (dim : list DimCustomers.row) : list (option string) :=
  distinct_keys (map DimCustomers.customer_id dim).

Definition group_rows (dim : list DimCustomers.row)
  (fact : list FactTransactions.row) (k : option string) : list joined :=
  flat_map (left_join fact)
    (filter (fun c => key_eqb (DimCustomers.customer_id c) k) dim).

Fixpoint non_null {A} (l : list (option A)) : list A :=
  match l with
  | [] => []
  | Some v :: rest => v :: non_null rest
  | None :: rest => non_null rest
  end.

(** [COUNT(DISTINCT x)]: NULLs are not counted. *)
Definition count_distinct (xs : list (option string)) : Z :=
  Z.of_nat (List.length (distinct_keys (map Some (non_null xs)))).

(** [SUM(x)]: NULL over no value. *)
Definition sum (xs : list (option Z)) : option Z :=
  match non_null xs with
  | [] => None
  | v :: vs => Some (fold_left Z.add vs v)
  end.

(** [ROUND(AVG(x), 2)] of amounts in cents.  As for [divide_round], the
    mean is taken exactly where the engine computes it in binary64; only
    that it is NULL over no value is used below. *)
Definition avg (xs : list (option Z)) : option Z :=
  match non_null xs with
  | [] => None
  | v :: vs => Some (round_half_away (fold_left Z.add vs v)
                                     (Z.of_nat (List.length (v :: vs))))
  end.

Definition maximum (xs : list (option Z)) : option Z :=
  match non_null xs with
  | [] => None
  | v :: vs => Some (fold_left Z.max vs v)
  end.

Definition minimum (xs : list (option Z)) : option Z :=
  match non_null xs with
  | [] => None
  | v :: vs => Some (fold_left Z.min vs v)
  end.

(** [DATE(t.transaction_date)]. *)
Definition txn_day (j : joined) : option Z :=
  option_map Calendar.date_of_timestamp (column FactTransactions.transaction_date j).

(** [CASE WHEN t.category = 'match_tickets' THEN t.transaction_id END]. *)
Definition match_ticket_id (j : joined) : option string :=
  if holds (eq_text (column FactTransactions.category j) (Some "match_tickets"))
  then column FactTransactions.transaction_id j else None.

(** [CASE WHEN t.category LIKE '%sports%' OR t.category = 'match_tickets'
     THEN t.transaction_id END]. *)
Definition sports_id (j : joined) : option string :=
  if holds (sql_or (option_map (contains "sports") (column FactTransactions.category j))
                   (eq_text (column FactTransactions.category j) (Some "match_tickets")))
  then column FactTransactions.transaction_id j else None.

Definition date_span (g : list joined) : option Z :=
  match maximum (map txn_day g), minimum (map txn_day g) with
  | Some hi, Some lo => Some (hi - lo)
  | _, _ => None
  end.

(** The select list over one group. *)
Definition profile_of (k : option string) (g : list joined) : CustomerProfile.row :=
  let txn_count := count_distinct (map (column FactTransactions.transaction_id) g) in
  {| CustomerProfile.customer_id := k;
     CustomerProfile.txn_count := Some txn_count;
     CustomerProfile.total_spend := sum (map (column FactTransactions.amount_eur) g);
     CustomerProfile.avg_txn := avg (map (column FactTransactions.amount_eur) g);
     CustomerProfile.last_txn_date := maximum (map txn_day g);
     CustomerProfile.match_ticket_count := Some (count_distinct (map match_ticket_id g));
     CustomerProfile.sports_affinity_ratio :=
       divide_round 2 (Some (count_distinct (map sports_id g))) (nullif txn_count 0);
     CustomerProfile.avg_days_between_txns :=
       divide_round 1 (date_span g) (nullif (txn_count - 1) 0);
     CustomerProfile._loaded_at := Some (current_timestamp E) |}.

(** The aggregation query: one row per group. *)
Definition customer_profile_query (dim : list DimCustomers.row)
  (fact : list FactTransactions.row) : list CustomerProfile.row :=
  map (fun k => profile_of k (group_rows dim fact k)) (group_keys dim).

Definition insert_customer_profile (s : Store) : result Store :=
  dim <- scan_table "dim_customers" (dim_customers s) ;;
  fact <- scan_table "fact_transactions" (fact_transactions s) ;;
  target <- scan_table "customer_profile" (customer_profile s) ;;
  rows <- Insert.customer_profile target (customer_profile_query dim fact) ;;
  Ok (set_customer_profile s rows).

Definition load_customer_profile : Transformer -> Transformer :=
  step "customer_profile" insert_customer_profile customer_profile.

(** ** [transform_all] *)

(** The five steps in order; the report is what the method returns. *)
Definition transform_all (t : Transformer) : Transformer :=
  load_customer_profile
    (load_fact_sentiment
       (load_fact_transactions
          (load_dim_customers
             (create_tables t)))).

End WithEngine.

End Transform.

(* ===================================================================== *)
(** * [validation.py]: class [DataValidator]                              *)
(* ===================================================================== *)

Module Validation.
Import Dedup.

(** ** What a table looks like to [_validate_table] *)

(** The column names of a table and, row by row, which cells are NULL. *)
Record relation := {
  columns : list string;
  null_cells : list (list bool)
}.

Definition raw_customers_nulls (r : RawCustomers.row) : list bool :=
  [ false; is_null (RawCustomers.customer_id r); is_null (RawCustomers.name r);
    is_null (RawCustomers.email r); is_null (RawCustomers.age r);
    is_null (RawCustomers.city r); is_null (RawCustomers.country r);
    is_null (RawCustomers.signup_date r); is_null (RawCustomers.favorite_team r);
    is_null (RawCustomers.membership_tier r); is_null (RawCustomers.gender r);
    is_null (RawCustomers._load_timestamp r) ].

Definition raw_transactions_nulls (r : RawTransactions.row) : list bool :=
  [ false; is_null (RawTransactions.transaction_id r);
    is_null (RawTransactions.customer_id r); is_null (RawTransactions.timestamp r);
    is_null (RawTransactions.amount r); is_null (RawTransactions.currency r);
    is_null (RawTransactions.category r); is_null (RawTransactions.merchant r);
    is_null (RawTransactions.description r);
    is_null (RawTransactions._load_timestamp r) ].

Definition raw_sentiment_nulls (r : RawSentiment.row) : list bool :=
  [ false; is_null (RawSentiment.id r); is_null (RawSentiment.user r);
    is_null (RawSentiment.source r); is_null (RawSentiment.text r);
    is_null (RawSentiment.published_at r); is_null (RawSentiment.topic r);
    is_null (RawSentiment.tags r); is_null (RawSentiment.sentiment_score r);
    is_null (RawSentiment.engagement r); is_null (RawSentiment._load_timestamp r) ].

Definition dim_customers_nulls (r : DimCustomers.row) : list bool :=
  [ is_null (DimCustomers.customer_id r); is_null (DimCustomers.name r);
    is_null (DimCustomers.email r); is_null (DimCustomers.age r);
    is_null (DimCustomers.city r); is_null (DimCustomers.country r);
    is_null (DimCustomers.favorite_team r); is_null (DimCustomers.membership_tier r);
    is_null (DimCustomers.signup_date r); is_null (DimCustomers._loaded_at r) ].

Definition fact_transactions_nulls (r : FactTransactions.row) : list bool :=
  [ is_null (FactTransactions.transaction_id r);
    is_null (FactTransactions.customer_id r);
    is_null (FactTransactions.transaction_date r);
    is_null (FactTransactions.amount_eur r); is_null (FactTransactions.category r);
    is_null (FactTransactions.merchant r);
    is_null (FactTransactions._source_row_id r);
    is_null (FactTransactions._loaded_at r) ].

Definition fact_sentiment_nulls (r : FactSentiment.row) : list bool :=
  [ is_null (FactSentiment.post_id r); is_null (FactSentiment.user_name r);
    is_null (FactSentiment.topic r); is_null (FactSentiment.sentiment_score r);
    is_null (FactSentiment.engagement r); is_null (FactSentiment.published_at r);
    is_null (FactSentiment._source_row_id r); is_null (FactSentiment._loaded_at r) ].

Definition quotient_is_null (q : quotient) : bool :=
  match q with QNull => true | _ => false end.

Definition customer_profile_nulls (r : CustomerProfile.row) : list bool :=
  [ is_null (CustomerProfile.customer_id r); is_null (CustomerProfile.txn_count r);
    is_null (CustomerProfile.total_spend r); is_null (CustomerProfile.avg_txn r);
    is_null (CustomerProfile.last_txn_date r);
    is_null (CustomerProfile.match_ticket_count r);
    quotient_is_null (CustomerProfile.sports_affinity_ratio r);
    quotient_is_null (CustomerProfile.avg_days_between_txns r);
    is_null (CustomerProfile._loaded_at r) ].

Definition view {A} (cols : list string) (nulls : A -> list bool)
  (t : option (list A)) : option relation :=
  option_map (fun rows => {| columns := cols; null_cells := map nulls rows |}) t.

(** The table a name stands for; [None] when the store has no such table. *)
Definition describe (s : Store) (table_name : string) : option relation :=
  if String.eqb table_name "raw_customers" then
    view ["_row_id"; "customer_id"; "name"; "email"; "age"; "city"; "country";
          "signup_date"; "favorite_team"; "membership_tier"; "gender";
          "_load_timestamp"] raw_customers_nulls (raw_customers s)
  else if String.eqb table_name "raw_transactions" then
    view ["_row_id"; "transaction_id"; "customer_id"; "timestamp"; "amount";
          "currency"; "category"; "merchant"; "description"; "_load_timestamp"]
         raw_transactions_nulls (raw_transactions s)
  else if String.eqb table_name "raw_sentiment" then
    view ["_row_id"; "id"; "user"; "source"; "text"; "published_at"; "topic";
          "tags"; "sentiment_score"; "engagement"; "_load_timestamp"]
         raw_sentiment_nulls (raw_sentiment s)
  else if String.eqb table_name "dim_customers" then
    view ["customer_id"; "name"; "email"; "age"; "city"; "country";
          "favorite_team"; "membership_tier"; "signup_date"; "_loaded_at"]
         dim_customers_nulls (dim_customers s)
  else if String.eqb table_name "fact_transactions" then
    view ["transaction_id"; "customer_id"; "transaction_date"; "amount_eur";
          "category"; "merchant"; "_source_row_id"; "_loaded_at"]
         fact_transactions_nulls (fact_transactions s)
  else if String.eqb table_name "fact_sentiment" then
    view ["post_id"; "user_name"; "topic"; "sentiment_score"; "engagement";
          "published_at"; "_source_row_id"; "_loaded_at"]
         fact_sentiment_nulls (fact_sentiment s)
  else if String.eqb table_name "customer_profile" then
    view ["customer_id"; "txn_count"; "total_spend"; "avg_txn"; "last_txn_date";
          "match_ticket_count"; "sports_affinity_ratio"; "avg_days_between_txns";
          "_loaded_at"] customer_profile_nulls (customer_profile s)
  else None.

(** ** [_validate_table] *)

(** [config.NULL_RATE_WARNING]. *)
Definition NULL_RATE_WARNING : Q := 3 # 10.

(** [col.startswith("_")]. *)
Definition is_internal (col : string) : bool :=
  match col with
  | String "_" _ => true
  | _ => false
  end.

(** [SELECT COUNT( * ) FROM t WHERE col IS NULL], [col] being column [i]. *)
Definition null_count (rel : relation) (i : nat) : nat :=
  List.length (filter (fun cells => nth i cells false) (null_cells rel)).

(** [null_count / row_count if row_count > 0 else 0], the quotient taken
    exactly. *)
Definition null_pct (null_count row_count : nat) : Q :=
  if (0 <? row_count)%nat
  then Z.of_nat null_count # Pos.of_nat row_count
  else 0%Q.

(** [a > b] on rationals. *)
Definition Qgt_bool (a b : Q) : bool := negb (Qle_bool a b).

Definition exceeds_threshold (null_count row_count : nat) : bool :=
  Qgt_bool (null_pct null_count row_count) NULL_RATE_WARNING.

(** The same two lines on binary64 numbers, the way Python evaluates them. *)
Definition null_pct_binary64 (null_count row_count : nat) : float :=
  if (0 <? row_count)%nat
  then PrimFloat.div (PrimFloat.of_uint63 (Uint63.of_Z (Z.of_nat null_count)))
                     (PrimFloat.of_uint63 (Uint63.of_Z (Z.of_nat row_count)))
  else PrimFloat.zero.

Definition exceeds_threshold_binary64 (null_count row_count : nat) : bool :=
  PrimFloat.ltb 0x1.3333333333333p-2%float (null_pct_binary64 null_count row_count).

(** An entry of [high_null_columns]; the warning text is a rendering of
    [null_rate] and is left out. *)
Record high_null := {
  hn_null_count : nat;
  hn_null_rate : Q
}.

(** The loop over the columns; [i] is the position of the first of [cols]. *)
Fixpoint null_rates (rel : relation) (row_count : nat) (i : nat)
  (cols : list string) : list (string * high_null) :=
  match cols with
  | [] => []
  | col :: rest =>
      if is_internal col then null_rates rel row_count (S i) rest
      else
        let n := null_count rel i in
        if exceeds_threshold n row_count
        then (col, {| hn_null_count := n; hn_null_rate := null_pct n row_count |})
               :: null_rates rel row_count (S i) rest
        else null_rates rel row_count (S i) rest
  end.

Inductive table_profile :=
  | ProfileError (e : error)
  | Profile (row_count : nat) (cols : list string)
            (high_null_columns : list (string * high_null)).

Definition profile_relation (rel : relation) : table_profile :=
  let row_count := List.length (null_cells rel) in
  Profile row_count (columns rel) (null_rates rel row_count 0 (columns rel)).

Definition _validate_table (s : Store) (table_name : string) : table_profile :=
  match describe s table_name with
  | Some rel => profile_relation rel
  | None => ProfileError (CatalogError table_name)
  end.

(** ** [_find_duplicates] *)

Inductive duplicates :=
  | DuplicatesError (e : error)
  | Duplicates (found : bool) (count : nat) (groups : list (option string * nat)).

Definition occurrences (k : option string) (ks : list (option string)) : nat :=
  List.length (filter (key_eqb k) ks).

Fixpoint insert_by_count (g : option string * nat) (l : list (option string * nat))
  : list (option string * nat) :=
  match l with
  | [] => [g]
  | g' :: rest =>
      if (snd g' <=? snd g)%nat then g :: l else g' :: insert_by_count g rest
  end.

(** [GROUP BY key HAVING COUNT( * ) > 1 ORDER BY cnt DESC] over the non-NULL
    keys [ks]. *)
Definition duplicate_groups (ks : list (option string)) : list (option string * nat) :=
  let present := filter (fun k => negb (is_null k)) ks in
  fold_right insert_by_count []
    (filter (fun g => (1 <? snd g)%nat)
       (map (fun k => (k, occurrences k present))
            (Transform.distinct_keys present))).

(** The key column of a table for [_find_duplicates]. *)
Definition key_column (s : Store) (table_name key_col : string)
  : result (list (option string)) :=
  if String.eqb table_name "raw_customers" && String.eqb key_col "customer_id" then
    rows <- scan_table table_name (raw_customers s) ;;
    Ok (map RawCustomers.customer_id rows)
  else if String.eqb table_name "raw_transactions" && String.eqb key_col "transaction_id" then
    rows <- scan_table table_name (raw_transactions s) ;;
    Ok (map RawTransactions.transaction_id rows)
  else if String.eqb table_name "raw_sentiment" && String.eqb key_col "id" then
    rows <- scan_table table_name (raw_sentiment s) ;;
    Ok (map RawSentiment.id rows)
  else Raise (CatalogError table_name).

Definition _find_duplicates (s : Store) (table_name key_col : string) : duplicates :=
  match key_column s table_name key_col with
  | Ok ks =>
      match duplicate_groups ks with
      | [] => Duplicates false 0 []
      | groups => Duplicates true (List.length groups) groups
      end
  | Raise e => DuplicatesError e
  end.

(** ** [_find_orphan_keys] *)

Inductive orphan_keys :=
  | OrphanError (e : error)
  | Orphans (found : bool) (count : nat) (note : string).

(** The [WHERE] clause of the raw orphan query. *)
Definition orphan_where (customer_ids : list (option string))
  (t : RawTransactions.row) : tv :=
  sql_and (is_not_null (RawTransactions.customer_id t))
          (sql_not_in (RawTransactions.customer_id t) customer_ids).

Definition orphan_count (s : Store) : result nat :=
  txns <- scan_table "raw_transactions" (raw_transactions s) ;;
  customers <- scan_table "raw_customers" (raw_customers s) ;;
  Ok (List.length
        (filter (fun t => holds (orphan_where (map RawCustomers.customer_id customers) t))
                txns)).

Definition _find_orphan_keys (s : Store) : orphan_keys :=
  match orphan_count s with
  | Ok orphans =>
      Orphans (0 <? orphans)%nat orphans
        (if (0 <? orphans)%nat
         then "Transactions with non-existent customer_id" else "None")
  | Raise e => OrphanError e
  end.

(** ** [_check_foreign_keys] *)

Inductive referential_integrity :=
  | IntegrityError (e : error)
  | Integrity (valid : bool) (orphan_count : nat).

Definition foreign_key_orphans (s : Store) : result nat :=
  facts <- scan_table "fact_transactions" (fact_transactions s) ;;
  dim <- scan_table "dim_customers" (dim_customers s) ;;
  Ok (List.length
        (filter (fun t => holds (sql_not_in (FactTransactions.customer_id t)
                                            (map DimCustomers.customer_id dim)))
                facts)).

Definition _check_foreign_keys (s : Store) : referential_integrity :=
  match foreign_key_orphans s with
  | Ok orphans => Integrity (orphans =? 0)%nat orphans
  | Raise e => IntegrityError e
  end.

(** ** [validate_raw_data] *)

Record raw_validation := {
  customers : table_profile;
  customers_duplicates : duplicates;
  transactions : table_profile;
  transactions_duplicates : duplicates;
  transactions_orphan_keys : orphan_keys;
  sentiment : table_profile;
  sentiment_duplicates : duplicates
}.

(** Every query of this method sits inside the [try] of a helper.  The
    method also files its result under [self.report]; what it returns is
    what is modelled. *)
Definition validate_raw_data (s : Store) : result raw_validation :=
  Ok {| customers := _validate_table s "raw_customers";
        transactions := _validate_table s "raw_transactions";
        sentiment := _validate_table s "raw_sentiment";
        customers_duplicates := _find_duplicates s "raw_customers" "customer_id";
        transactions_duplicates := _find_duplicates s "raw_transactions" "transaction_id";
        sentiment_duplicates := _find_duplicates s "raw_sentiment" "id";
        transactions_orphan_keys := _find_orphan_keys s |}.

(** ** [validate_transformed_data] *)

Record transformed_validation := {
  tv_dim_customers : table_profile;
  tv_customer_id_unique : bool;
  tv_fact_transactions : table_profile;
  tv_referential_integrity : referential_integrity;
  tv_customer_profile : table_profile
}.

(** The two counts of the uniqueness check are queried by the method
    itself, outside any [try]. *)
Definition validate_transformed_data (s : Store) : result transformed_validation :=
  let dim := _validate_table s "dim_customers" in
  let fact := _validate_table s "fact_transactions" in
  let profile := _validate_table s "customer_profile" in
  let integrity := _check_foreign_keys s in
  total <- scan_table "dim_customers" (dim_customers s) ;;
  keyed <- scan_table "dim_customers" (dim_customers s) ;;
  Ok {| tv_dim_customers := dim;
        tv_fact_transactions := fact;
        tv_customer_profile := profile;
        tv_referential_integrity := integrity;
        tv_customer_id_unique :=
          Z.of_nat (List.length total)
          =? Transform.count_distinct (map DimCustomers.customer_id keyed) |}.

End Validation.

(* ===================================================================== *)
(** * [schema.py]: the contract of the cleaned transactions               *)
(* ===================================================================== *)

(** The presence and range constraints that [TransactionContract]
    declares: a field typed [str], [datetime] or [Decimal] is required, an
    [Optional] field may be absent, and [Field(ge=.., le=..)] bounds a value
    that is present. *)
Module Contract.

Definition required {A} (x : option A) : bool := negb (is_null x).

Definition within (lo hi : Z) (x : option Z) : bool :=
  match x with
  | Some v => (lo <=? v) && (v <=? hi)
  | None => true
  end.

(** [TransactionContract]: [transaction_id], [customer_id],
    [transaction_date], [amount_eur] and [category] are required, and
    [amount_eur] has [ge=Decimal("-1000"), le=Decimal("50000")]; the amount
    is in cents. *)
Definition TransactionContract (r : FactTransactions.row) : bool :=
  required (FactTransactions.transaction_id r)
  && required (FactTransactions.customer_id r)
  && required (FactTransactions.transaction_date r)
  && required (FactTransactions.amount_eur r)
  && within (-1000 * 100) (50000 * 100) (FactTransactions.amount_eur r)
  && required (FactTransactions.category r).

End Contract.

(* ===================================================================== *)
(** * The orphan count in the words of the specification                  *)
(* ===================================================================== *)

Module Spec.

(** A staging transaction is an orphan when its [customer_id] is not NULL
    and is the [customer_id] of no staging customer, the raw texts being
    compared as they are. *)
Definition is_orphan (customers : list RawCustomers.row)
  (t : RawTransactions.row) : bool :=
  match RawTransactions.customer_id t with
  | Some c =>
      negb (existsb (fun r => match RawCustomers.customer_id r with
                              | Some c' => String.eqb c c'
                              | None => false
                              end) customers)
  | None => false
  end.

Definition orphan_count_spec (customers : list RawCustomers.row)
  (txns : list RawTransactions.row) : nat :=
  List.length (filter (is_orphan customers) txns).

End Spec.

(* ===================================================================== *)
(** * Fixtures                                                            *)
(* ===================================================================== *)

Module Fixture.

Definition customer (row_id : Z) (customer_id email age : option string)
  (loaded : Z) : RawCustomers.row :=
  {| RawCustomers._row_id := row_id;
     RawCustomers.customer_id := customer_id;
     RawCustomers.name := Some "Marco Rossi";
     RawCustomers.email := email;
     RawCustomers.age := age;
     RawCustomers.city := Some "Milan";
     RawCustomers.country := Some "Italy";
     RawCustomers.signup_date := Some "2024-03-01";
     RawCustomers.favorite_team := Some "AC Milan";
     RawCustomers.membership_tier := Some "gold";
     RawCustomers.gender := Some "male";
     RawCustomers._load_timestamp := Some loaded |}.

Definition transaction (row_id : Z) (transaction_id customer_id : option string)
  (day amount category : string) : RawTransactions.row :=
  {| RawTransactions._row_id := row_id;
     RawTransactions.transaction_id := transaction_id;
     RawTransactions.customer_id := customer_id;
     RawTransactions.timestamp := Some day;
     RawTransactions.amount := Some amount;
     RawTransactions.currency := Some "EUR";
     RawTransactions.category := Some category;
     RawTransactions.merchant := Some "Ticketone";
     RawTransactions.description := None;
     RawTransactions._load_timestamp := Some 0 |}.

(** A store as ingestion leaves it: staging tables only. *)
Definition staged (customers : list RawCustomers.row)
  (transactions : list RawTransactions.row) : Store :=
  {| raw_customers := Some customers;
     raw_transactions := Some transactions;
     raw_sentiment := Some [];
     dim_customers := None;
     fact_transactions := None;
     fact_sentiment := None;
     customer_profile := None |}.

Definition fresh (s : Store) : Transformer := {| conn := s; report := [] |}.

Definition engine : Engine := Calendar.iso 1767225600000000.

Definition run (s : Store) : Store := conn (Transform.transform_all engine (fresh s)).

(** Two versions of one customer, loaded at 100 and at 200. *)
Definition cust1_early : RawCustomers.row :=
  customer 0 (Some "CUST-0001") (Some "marco.rossi@gmail.com") (Some "34") 100.
Definition cust1_late : RawCustomers.row :=
  customer 1 (Some "CUST-0001") (Some "m_rossi7@libero.it") (Some "34") 200.
Definition cust2 : RawCustomers.row :=
  customer 2 (Some "CUST-0002") None (Some "n/a") 100.
Definition cust_no_key : RawCustomers.row :=
  customer 3 None (Some "nobody@gmail.com") (Some "41") 100.

(** A customer whose age parses to a number outside 0..150. *)
Definition cust_age_200 : RawCustomers.row :=
  customer 0 (Some "CUST-0001") (Some "marco.rossi@gmail.com") (Some "200") 100.

Definition txn_boundary : RawTransactions.row :=
  transaction 0 (Some "TXN-000001") (Some "CUST-0001") "2025-08-01" "50000" "match_tickets".
Definition txn_below : RawTransactions.row :=
  transaction 1 (Some "TXN-000002") (Some "CUST-0001") "2025-08-11" "49999.99" "sports_bar".
Definition txn_comma : RawTransactions.row :=
  transaction 2 (Some "TXN-000003") (Some "CUST-0001") "2025-08-12" "1234,56" "dining".
Definition txn_unknown_customer : RawTransactions.row :=
  transaction 3 (Some "TXN-090001") (Some "CUST-0350") "2025-09-01" "25.10" "retail".
Definition txn_other_case : RawTransactions.row :=
  transaction 4 (Some "TXN-000004") (Some " cust-0001") "2025-09-02" "12.00" "dining".

Definition clean_staging : Store :=
  staged [cust1_late; cust2; cust1_early] [txn_boundary; txn_below].

Definition comma_staging : Store := staged [cust1_early] [txn_comma].

Definition age_200_staging : Store := staged [cust_age_200; cust2] [].

Definition null_key_staging : Store :=
  staged [cust_no_key; cust1_early] [txn_unknown_customer].

Definition case_staging : Store := staged [cust1_early] [txn_other_case].

(** A transaction of [CUST-0001] without a category. *)
Definition txn_no_category : RawTransactions.row :=
  {| RawTransactions._row_id := 6;
     RawTransactions.transaction_id := Some "TXN-000005";
     RawTransactions.customer_id := Some "CUST-0001";
     RawTransactions.timestamp := Some "2025-08-15";
     RawTransactions.amount := Some "18.00";
     RawTransactions.currency := Some "EUR";
     RawTransactions.category := None;
     RawTransactions.merchant := Some "Ticketone";
     RawTransactions.description := None;
     RawTransactions._load_timestamp := Some 0 |}.

Definition null_category_staging : Store :=
  staged [cust1_early] [txn_below; txn_no_category].

(** Two transactions of [CUST-0001] that lie 35 years apart. *)
Definition txn_1990 : RawTransactions.row :=
  transaction 10 (Some "TXN-000020") (Some "CUST-0001") "1990-01-01" "15.00" "dining".
Definition txn_2025 : RawTransactions.row :=
  transaction 11 (Some "TXN-000021") (Some "CUST-0001") "2025-08-01" "22.50" "dining".

Definition long_gap_staging : Store :=
  staged [cust1_early; cust2] [txn_1990; txn_2025].

(** A table of ten rows with three NULLs in its second column and four in
    its third. *)
Definition ten_rows : Validation.relation :=
  {| Validation.columns := ["_row_id"; "email"; "age"];
     Validation.null_cells :=
       [ [false; true; true]; [false; true; true]; [false; true; true];
         [false; false; true]; [false; false; false]; [false; false; false];
         [false; false; false]; [false; false; false]; [false; false; false];
         [false; false; false] ] |}.

Definition post (row_id : Z) (id : option string) (score engagement : string)
  (loaded : Z) : RawSentiment.row :=
  {| RawSentiment._row_id := row_id;
     RawSentiment.id := id;
     RawSentiment.user := Some " Tifoso_92 ";
     RawSentiment.source := Some "twitter";
     RawSentiment.text := Some "Forza Milan";
     RawSentiment.published_at := Some "2025-09-14 20:45:00";
     RawSentiment.topic := Some "AC Milan";
     RawSentiment.tags := Some "[]";
     RawSentiment.sentiment_score := Some score;
     RawSentiment.engagement := Some engagement;
     RawSentiment._load_timestamp := Some loaded |}.

Definition post1_early : RawSentiment.row := post 0 (Some "POST-001") "0.75" "120" 100.
Definition post1_late : RawSentiment.row := post 1 (Some "POST-001") "high" "n/a" 200.
Definition post2 : RawSentiment.row := post 2 (Some "POST-002") "-0.4" "" 100.
Definition post_no_id : RawSentiment.row := post 3 None "0.1" "3" 100.

(** One transaction that was staged twice, and a second one. *)
Definition txn_first_copy : RawTransactions.row :=
  transaction 5 (Some "TXN-000010") (Some "CUST-0001") "2025-08-20" "20.00" "match_tickets".
Definition txn_second_copy : RawTransactions.row :=
  transaction 9 (Some "TXN-000010") (Some "CUST-0001") "2025-08-20" "20.00" "match_tickets".
Definition txn_later : RawTransactions.row :=
  transaction 7 (Some "TXN-000011") (Some "CUST-0001") "2025-08-30" "35.50" "groceries".

(** A store with all three staging tables filled. *)
Definition full_staging : Store :=
  {| raw_customers := Some [cust1_late; cust2; cust_no_key; cust1_early];
     raw_transactions :=
       Some [txn_second_copy; txn_later; txn_first_copy; txn_unknown_customer];
     raw_sentiment := Some [post1_late; post2; post_no_id; post1_early];
     dim_customers := None;
     fact_transactions := None;
     fact_sentiment := None;
     customer_profile := None |}.

End Fixture.

(** A table that is absent or has no row. *)
Definition no_rows {A} (t : option (list A)) : bool :=
  match t with
  | Some (_ :: _) => false
  | _ => true
  end.

(** Every target table is absent or empty. *)
Definition targets_empty (s : Store) : bool :=
  no_rows (dim_customers s) && no_rows (fact_transactions s)
  && no_rows (fact_sentiment s) && no_rows (customer_profile s).

(* ===================================================================== *)
(** * The engine of the fixtures on sample texts                          *)
(* ===================================================================== *)

Example cast_amount_boundary :
  Cast.plain_decimal 10 2 "50000" = Some 5000000
  /\ Cast.plain_decimal 10 2 "49999.99" = Some 4999999
  /\ Cast.plain_decimal 10 2 "-1000" = Some (-100000).
Proof. repeat split; reflexivity. Qed.

Example cast_amount_rounds :
  Cast.plain_decimal 10 2 " -12.345 " = Some (-1235)
  /\ Cast.plain_decimal 10 2 "49999.995" = Some 5000000.
Proof. split; reflexivity. Qed.

Example cast_amount_fails :
  Cast.plain_decimal 10 2 "1234,56" = None
  /\ Cast.plain_decimal 10 2 "" = None
  /\ Cast.plain_decimal 10 2 "." = None
  /\ Cast.plain_decimal 10 2 "n/a" = None
  /\ Cast.plain_decimal 10 2 "100000000" = None.
Proof. repeat split; reflexivity. Qed.

Example cast_age :
  Cast.plain_integer "34" = Some 34
  /\ Cast.plain_integer "25.0" = Some 25
  /\ Cast.plain_integer "200" = Some 200
  /\ Cast.plain_integer "-5" = Some (-5)
  /\ Cast.plain_integer "n/a" = None
  /\ Cast.plain_integer "4294967296" = None.
Proof. repeat split; reflexivity. Qed.

Example normalize_text :
  Text.ascii_lower (Text.trim_spaces "  AC Milan ") = "ac milan"
  /\ Text.replace "1234,56" "," "." = "1234.56"
  /\ Text.contains "sports" "sports_bar" = true
  /\ Text.contains "sports" "match_tickets" = false.
Proof. repeat split; reflexivity. Qed.

Example cast_dates :
  Calendar.iso_date "1970-01-01" = Some 0
  /\ Calendar.iso_date "2024-03-01" = Some 19783
  /\ Calendar.iso_date "2023-02-29" = None
  /\ Calendar.iso_date "03/01/2024" = None
  /\ Calendar.iso_timestamp "2025-08-11 10:30:00" = Some 1754908200000000.
Proof. repeat split; reflexivity. Qed.

Example in_with_null :
  sql_in (Some "a") [Some "a"; None] = Some true
  /\ sql_in (Some "b") [Some "a"; None] = None
  /\ sql_not_in (Some "b") [Some "a"; None] = None
  /\ sql_not_in (Some "b") [Some "a"] = Some true
  /\ sql_in None [] = Some false.
Proof. repeat split; reflexivity. Qed.

(* ===================================================================== *)
(** * Facts about keys and about [deduped]                                *)
(* ===================================================================== *)

Module DedupFacts.
Import Dedup.

Lemma key_eqb_eq (a b : option string) : key_eqb a b = true <-> a = b.
Proof.
  destruct a as [x|], b as [y|]; simpl; split; intro H;
    try discriminate; try reflexivity.
  - apply String.eqb_eq in H. now subst.
  - injection H as ->. apply String.eqb_refl.
Qed.

Lemma key_eqb_refl (a : option string) : key_eqb a a = true.
Proof. now apply key_eqb_eq. Qed.

Lemma key_eqb_neq (a b : option string) : key_eqb a b = false <-> a <> b.
Proof.
  split.
  - intros H Heq. apply key_eqb_eq in Heq. congruence.
  - intro H. destruct (key_eqb a b) eqn:Hab; [|reflexivity].
    apply key_eqb_eq in Hab. contradiction.
Qed.

Lemma mem_In (k : option string) (l : list (option string)) :
  mem k l = true <-> In k l.
Proof.
  induction l as [|k' l IH]; simpl.
  - split; [discriminate | tauto].
  - rewrite orb_true_iff, IH, key_eqb_eq. split; intros [H|H]; auto.
Qed.

Lemma mem_not_In (k : option string) (l : list (option string)) :
  mem k l = false <-> ~ In k l.
Proof.
  rewrite <- mem_In. destruct (mem k l); split; congruence.
Qed.

Lemma string_lt_irrefl (x : string) : String_as_OT.compare x x <> Lt.
Proof.
  intro H. exact (StrictOrder_Irreflexive (R := String_as_OT.lt) x H).
Qed.

Lemma key_ltb_irrefl (a : option string) : key_ltb a a = false.
Proof.
  destruct a as [x|]; simpl; [|reflexivity].
  destruct (String_as_OT.compare x x) eqn:H; try reflexivity.
  now apply string_lt_irrefl in H.
Qed.

Lemma key_ltb_trans (a b c : option string) :
  key_ltb a b = true -> key_ltb b c = true -> key_ltb a c = true.
Proof.
  destruct a as [x|], b as [y|], c as [z|]; simpl; try discriminate; auto.
  destruct (String_as_OT.compare x y) eqn:Hxy; try discriminate.
  destruct (String_as_OT.compare y z) eqn:Hyz; try discriminate.
  intros _ _.
  assert (H : String_as_OT.lt x z)
    by exact (StrictOrder_Transitive (R := String_as_OT.lt) x y z Hxy Hyz).
  unfold String_as_OT.lt in H. now rewrite H.
Qed.

Lemma key_trichotomy (a b : option string) :
  key_ltb a b = true \/ a = b \/ key_ltb b a = true.
Proof.
  destruct a as [x|], b as [y|]; simpl; auto.
  destruct (String_as_OT.compare_spec x y) as [Heq|Hlt|Hgt].
  - right. left. f_equal. exact Heq.
  - now left.
  - right. right. unfold String_as_OT.lt in Hgt. now rewrite Hgt.
Qed.

Section Facts.

Variable R : Type.
Variable key : R -> option string.
Variable tie_leb : R -> R -> bool.

Hypothesis tie_total : forall a b, tie_leb a b = true \/ tie_leb b a = true.
Hypothesis tie_trans :
  forall a b c, tie_leb a b = true -> tie_leb b c = true -> tie_leb a c = true.


Lemma row_leb_cases (a b : R) :
  row_leb key tie_leb a b = true <->
  key_ltb (key a) (key b) = true \/ (key a = key b /\ tie_leb a b = true).
Proof.
  unfold row_leb. rewrite orb_true_iff, andb_true_iff, key_eqb_eq. tauto.
Qed.

Lemma row_leb_total (a b : R) : row_leb key tie_leb a b = true \/ row_leb key tie_leb b a = true.
Proof.
  rewrite !row_leb_cases.
  destruct (key_trichotomy (key a) (key b)) as [H|[H|H]]; auto.
  destruct (tie_total a b); auto.
Qed.

Lemma row_leb_trans (a b c : R) :
  row_leb key tie_leb a b = true -> row_leb key tie_leb b c = true -> row_leb key tie_leb a c = true.
Proof.
  rewrite !row_leb_cases.
  intros [Hab|[Hab Tab]] [Hbc|[Hbc Tbc]].
  - left. eapply key_ltb_trans; eauto.
  - left. now rewrite <- Hbc.
  - left. now rewrite Hab.
  - right. split; [congruence | eauto].
Qed.

(** Rows that share a key are ordered by the second sort column. *)
Lemma row_leb_same_key (a b : R) :
  key a = key b -> row_leb key tie_leb a b = true -> tie_leb a b = true.
Proof.
  intros Hk H. apply row_leb_cases in H. destruct H as [H|[_ H]]; auto.
  rewrite Hk, key_ltb_irrefl in H. discriminate.
Qed.

Lemma insert_sorted_In (r x : R) (l : list R) :
  In x (insert_sorted key tie_leb r l) <-> x = r \/ In x l.
Proof.
  induction l as [|y l IH]; simpl.
  - intuition.
  - destruct (row_leb key tie_leb r y); simpl; rewrite ?IH; intuition.
Qed.

Lemma order_by_In (x : R) (l : list R) :
  In x (order_by key tie_leb l) <-> In x l.
Proof.
  unfold order_by. induction l as [|y l IH]; simpl; [tauto|].
  rewrite insert_sorted_In, IH. intuition.
Qed.

Lemma insert_sorted_sorted (r : R) (l : list R) :
  StronglySorted (row_le key tie_leb) l -> StronglySorted (row_le key tie_leb) (insert_sorted key tie_leb r l).
Proof.
  induction 1 as [|y l Hs IH Hall]; simpl.
  - repeat constructor.
  - destruct (row_leb key tie_leb r y) eqn:Hry.
    + constructor; [now constructor|].
      constructor; [exact Hry|].
      eapply Forall_impl; [|exact Hall].
      intros z Hz. eapply row_leb_trans; eauto.
    + constructor; [exact IH|].
      apply Forall_forall. intros z Hz.
      apply insert_sorted_In in Hz. destruct Hz as [->|Hz].
      * destruct (row_leb_total r y) as [H|H]; congruence.
      * rewrite Forall_forall in Hall. auto.
Qed.

Lemma order_by_sorted (l : list R) :
  StronglySorted (row_le key tie_leb) (order_by key tie_leb l).
Proof.
  unfold order_by. induction l; simpl.
  - constructor.
  - now apply insert_sorted_sorted.
Qed.

(** Sorting a sorted list changes nothing. *)
Lemma order_by_sorted_id (l : list R) :
  StronglySorted (row_le key tie_leb) l -> order_by key tie_leb l = l.
Proof.
  unfold order_by. induction 1 as [|y l Hs IH Hall]; simpl; [reflexivity|].
  rewrite IH. destruct l as [|z l]; simpl; [reflexivity|].
  inversion Hall as [|? ? Hyz _]; subst. unfold row_le in Hyz. now rewrite Hyz.
Qed.

Lemma distinct_on_from_In (seen : list (option string)) (l : list R) (x : R) :
  In x (distinct_on_from key seen l) -> In x l /\ ~ In (key x) seen.
Proof.
  revert seen. induction l as [|y l IH]; simpl; intros seen H; [contradiction|].
  destruct (mem (key y) seen) eqn:Hm.
  - apply IH in H. tauto.
  - destruct H as [->|H].
    + split; [now left | now apply mem_not_In].
    + apply IH in H. simpl in H. tauto.
Qed.

Lemma distinct_on_from_keys (seen : list (option string)) (l : list R) :
  NoDup (map key (distinct_on_from key seen l)).
Proof.
  revert seen. induction l as [|y l IH]; simpl; intro seen; [constructor|].
  destruct (mem (key y) seen); [apply IH|].
  simpl. constructor; [|apply IH].
  intro H. apply in_map_iff in H. destruct H as [x [Hk Hx]].
  apply distinct_on_from_In in Hx. simpl in Hx. intuition.
Qed.

(** Every key that was not seen before keeps a row. *)
Lemma distinct_on_from_covers (seen : list (option string)) (l : list R) (x : R) :
  In x l -> ~ In (key x) seen ->
  exists y, In y (distinct_on_from key seen l) /\ key y = key x.
Proof.
  revert seen. induction l as [|z l IH]; simpl; intros seen Hx Hs; [contradiction|].
  destruct (mem (key z) seen) eqn:Hm.
  - destruct Hx as [->|Hx].
    + apply mem_In in Hm. contradiction.
    + now apply IH.
  - destruct (key_eqb (key z) (key x)) eqn:Hzx.
    + apply key_eqb_eq in Hzx. exists z. simpl. auto.
    + apply key_eqb_neq in Hzx. destruct Hx as [->|Hx]; [congruence|].
      destruct (IH (key z :: seen) Hx) as [y [Hy Hk]].
      * simpl. intuition.
      * exists y. simpl. auto.
Qed.

(** In a sorted list the row that is kept for a key precedes, in the sort
    order, every row of that key. *)
Lemma distinct_on_from_first (seen : list (option string)) (l : list R) (x y : R) :
  StronglySorted (row_le key tie_leb) l ->
  In x (distinct_on_from key seen l) -> In y l -> key y = key x ->
  row_leb key tie_leb x y = true.
Proof.
  intro Hs. revert seen. induction Hs as [|z l Hs IH Hall]; simpl;
    intros seen Hx Hy Hk; [contradiction|].
  rewrite Forall_forall in Hall.
  destruct (mem (key z) seen) eqn:Hm.
  - destruct Hy as [->|Hy].
    + apply distinct_on_from_In in Hx. apply mem_In in Hm.
      rewrite Hk in Hm. tauto.
    + eapply IH; eauto.
  - destruct Hx as [->|Hx].
    + destruct Hy as [Hy|Hy]; [subst y | exact (Hall _ Hy)].
      destruct (row_leb_total x x); assumption.
    + destruct Hy as [->|Hy].
      * apply distinct_on_from_In in Hx. simpl in Hx. intuition.
      * eapply IH; eauto.
Qed.

Lemma distinct_on_from_sorted (seen : list (option string)) (l : list R) :
  StronglySorted (row_le key tie_leb) l ->
  StronglySorted (row_le key tie_leb) (distinct_on_from key seen l).
Proof.
  intro Hs. revert seen. induction Hs as [|z l Hs IH Hall]; simpl; intro seen.
  - constructor.
  - destruct (mem (key z) seen); [apply IH|].
    constructor; [apply IH|].
    rewrite Forall_forall in *. intros x Hx.
    apply distinct_on_from_In in Hx. apply Hall. tauto.
Qed.

(** Rows with pairwise different, unseen keys are all kept. *)
Lemma distinct_on_from_id (seen : list (option string)) (l : list R) :
  NoDup (map key l) -> (forall x, In x l -> ~ In (key x) seen) ->
  distinct_on_from key seen l = l.
Proof.
  revert seen. induction l as [|z l IH]; simpl; intros seen Hnd Hs; [reflexivity|].
  apply NoDup_cons_iff in Hnd. destruct Hnd as [Hz Hnd'].
  assert (Hm : mem (key z) seen = false) by (apply mem_not_In; auto).
  rewrite Hm. f_equal. apply IH; [assumption|].
  intros x Hx [Hk|Hk].
  - apply Hz. rewrite Hk. now apply in_map.
  - exact (Hs x (or_intror Hx) Hk).
Qed.

Lemma filter_id {A} (p : A -> bool) (l : list A) :
  (forall x, In x l -> p x = true) -> filter p l = l.
Proof.
  induction l as [|y l IH]; simpl; intro H; [reflexivity|].
  rewrite (H y (or_introl eq_refl)). f_equal. auto.
Qed.

Lemma key_not_null_iff (x : R) : key_not_null key x = true <-> key x <> None.
Proof.
  unfold key_not_null. destruct (key x); simpl; split; congruence.
Qed.

(** ** The four properties of [deduped] *)

Lemma deduped_In (l : list R) (x : R) :
  In x (deduped key tie_leb l) -> In x l /\ key x <> None.
Proof.
  unfold deduped, distinct_on. intro H.
  apply distinct_on_from_In in H. destruct H as [H _].
  apply order_by_In, filter_In in H.
  now rewrite key_not_null_iff in H.
Qed.

Lemma deduped_keys (l : list R) : NoDup (map key (deduped key tie_leb l)).
Proof. apply distinct_on_from_keys. Qed.

Lemma deduped_covers (l : list R) (x : R) :
  In x l -> key x <> None ->
  exists y, In y (deduped key tie_leb l) /\ key y = key x.
Proof.
  intros Hx Hk. unfold deduped, distinct_on.
  apply distinct_on_from_covers; [|tauto].
  apply order_by_In, filter_In. now rewrite key_not_null_iff.
Qed.

Lemma deduped_first (l : list R) (x y : R) :
  In x (deduped key tie_leb l) -> In y l -> key y = key x ->
  tie_leb x y = true.
Proof.
  intros Hx Hy Hk.
  apply row_leb_same_key; [congruence|].
  unfold deduped, distinct_on in Hx.
  eapply distinct_on_from_first; eauto using order_by_sorted.
  apply order_by_In, filter_In. split; [assumption|].
  apply key_not_null_iff. rewrite Hk.
  apply distinct_on_from_In in Hx. destruct Hx as [Hx _].
  apply order_by_In, filter_In in Hx.
  now apply key_not_null_iff.
Qed.

Lemma deduped_sorted (l : list R) : StronglySorted (row_le key tie_leb) (deduped key tie_leb l).
Proof. apply distinct_on_from_sorted, order_by_sorted. Qed.

Lemma deduped_idempotent (l : list R) :
  deduped key tie_leb (deduped key tie_leb l) = deduped key tie_leb l.
Proof.
  unfold deduped at 1.
  rewrite filter_id.
  - rewrite order_by_sorted_id by apply deduped_sorted.
    apply distinct_on_from_id; [apply deduped_keys | auto].
  - intros x Hx. apply key_not_null_iff. now apply deduped_In in Hx.
Qed.

End Facts.

Lemma nulls_last_total (a b : option Z) :
  nulls_last_leb a b = true \/ nulls_last_leb b a = true.
Proof.
  destruct a, b; simpl; auto. rewrite !Z.leb_le. lia.
Qed.

Lemma nulls_last_trans (a b c : option Z) :
  nulls_last_leb a b = true -> nulls_last_leb b c = true ->
  nulls_last_leb a c = true.
Proof.
  destruct a, b, c; simpl; auto; try discriminate.
  rewrite !Z.leb_le. lia.
Qed.

End DedupFacts.

(* ===================================================================== *)
(** * Deduplication of the staging tables                                 *)
(* ===================================================================== *)

Import Dedup Transform.

Lemma customers_tie_total (a b : RawCustomers.row) :
  customers_tie a b = true \/ customers_tie b a = true.
Proof. apply DedupFacts.nulls_last_total. Qed.

Lemma customers_tie_trans (a b c : RawCustomers.row) :
  customers_tie a b = true -> customers_tie b c = true -> customers_tie a c = true.
Proof. apply DedupFacts.nulls_last_trans. Qed.

Lemma transactions_tie_total (a b : RawTransactions.row) :
  transactions_tie a b = true \/ transactions_tie b a = true.
Proof. unfold transactions_tie. rewrite !Z.leb_le. lia. Qed.

Lemma transactions_tie_trans (a b c : RawTransactions.row) :
  transactions_tie a b = true -> transactions_tie b c = true ->
  transactions_tie a c = true.
Proof. unfold transactions_tie. rewrite !Z.leb_le. lia. Qed.

Lemma sentiment_tie_total (a b : RawSentiment.row) :
  sentiment_tie a b = true \/ sentiment_tie b a = true.
Proof. apply DedupFacts.nulls_last_total. Qed.

Lemma sentiment_tie_trans (a b c : RawSentiment.row) :
  sentiment_tie a b = true -> sentiment_tie b c = true -> sentiment_tie a c = true.
Proof. apply DedupFacts.nulls_last_trans. Qed.

(** Two versions of one key: whatever their table order, the one loaded
    first is the one that is kept. *)
Lemma two_versions (r1 r2 : RawCustomers.row) (k : string) (T1 T2 : Z) :
  RawCustomers.customer_id r1 = Some k ->
  RawCustomers.customer_id r2 = Some k ->
  RawCustomers._load_timestamp r1 = Some T1 ->
  RawCustomers._load_timestamp r2 = Some T2 ->
  T1 < T2 ->
  deduped_customers [r1; r2] = [r1] /\ deduped_customers [r2; r1] = [r1].
Proof.
  intros K1 K2 L1 L2 Hlt.
  assert (H12 : row_leb RawCustomers.customer_id customers_tie r1 r2 = true).
  { unfold row_leb, customers_tie. rewrite K1, K2, L1, L2.
    rewrite DedupFacts.key_ltb_irrefl, DedupFacts.key_eqb_refl. simpl.
    apply Z.leb_le. lia. }
  assert (H21 : row_leb RawCustomers.customer_id customers_tie r2 r1 = false).
  { unfold row_leb, customers_tie. rewrite K1, K2, L1, L2.
    rewrite DedupFacts.key_ltb_irrefl, DedupFacts.key_eqb_refl. simpl.
    apply Z.leb_gt. lia. }
  unfold deduped_customers, deduped, distinct_on, order_by, key_not_null.
  simpl. rewrite K1, K2. simpl. rewrite H12, H21. simpl.
  rewrite K1, K2. simpl. rewrite String.eqb_refl. simpl. auto.
Qed.

(** C2.  Customer deduplication keeps staging rows with a non-null
    [customer_id] only, keeps exactly one row for every non-null key of the
    staging table, and the row it keeps has the smallest load timestamp
    among the rows of its key (the order of [ORDER BY customer_id,
    _load_timestamp]).  For two rows that share [CUST-0001] and were loaded
    at T1 < T2, the T1 version is the one kept. *)
Theorem C2_customer_dedup_keeps_earliest :
  forall staged : list RawCustomers.row,
    (forall x, In x (deduped_customers staged) ->
       In x staged /\ RawCustomers.customer_id x <> None)
    /\ NoDup (map RawCustomers.customer_id (deduped_customers staged))
    /\ (forall r, In r staged -> RawCustomers.customer_id r <> None ->
          exists kept, In kept (deduped_customers staged)
                       /\ RawCustomers.customer_id kept = RawCustomers.customer_id r)
    /\ (forall kept r, In kept (deduped_customers staged) -> In r staged ->
          RawCustomers.customer_id r = RawCustomers.customer_id kept ->
          nulls_last_leb (RawCustomers._load_timestamp kept)
                         (RawCustomers._load_timestamp r) = true)
    /\ (forall r1 r2 T1 T2,
          RawCustomers.customer_id r1 = Some "CUST-0001" ->
          RawCustomers.customer_id r2 = Some "CUST-0001" ->
          RawCustomers._load_timestamp r1 = Some T1 ->
          RawCustomers._load_timestamp r2 = Some T2 ->
          T1 < T2 ->
          deduped_customers [r1; r2] = [r1] /\ deduped_customers [r2; r1] = [r1]).
Proof.
  intro staged. unfold deduped_customers. repeat split.
  - eapply DedupFacts.deduped_In; eauto.
  - eapply DedupFacts.deduped_In; eauto.
  - apply DedupFacts.deduped_keys.
  - intros r Hr Hk. now apply DedupFacts.deduped_covers.
  - intros kept r Hkept Hr Hk.
    exact (DedupFacts.deduped_first _ _ _ customers_tie_total customers_tie_trans
             staged kept r Hkept Hr Hk).
  - eapply two_versions; eauto.
  - eapply two_versions; eauto.
Qed.

(** The fixture of C2: the version of [CUST-0001] loaded at 100 is kept,
    the one loaded at 200 is not. *)
Lemma C2_witness :
  In Fixture.cust1_early (deduped_customers [Fixture.cust1_late; Fixture.cust2; Fixture.cust1_early])
  /\ In Fixture.cust1_late [Fixture.cust1_late; Fixture.cust2; Fixture.cust1_early]
  /\ RawCustomers.customer_id Fixture.cust1_late
     = RawCustomers.customer_id Fixture.cust1_early
  /\ nulls_last_leb (RawCustomers._load_timestamp Fixture.cust1_early)
                    (RawCustomers._load_timestamp Fixture.cust1_late) = true
  /\ 100 < 200
  /\ deduped_customers [Fixture.cust1_early; Fixture.cust1_late] = [Fixture.cust1_early]
  /\ deduped_customers [Fixture.cust1_late; Fixture.cust1_early] = [Fixture.cust1_early].
Proof.
  assert (Hin : In Fixture.cust1_early
                  (deduped_customers [Fixture.cust1_late; Fixture.cust2; Fixture.cust1_early]))
    by (vm_compute; auto).
  assert (Hst : In Fixture.cust1_late [Fixture.cust1_late; Fixture.cust2; Fixture.cust1_early])
    by (simpl; auto).
  split; [exact Hin|]. split; [exact Hst|]. split; [reflexivity|].
  split.
  - exact (proj1 (proj2 (proj2 (proj2
             (C2_customer_dedup_keeps_earliest
                [Fixture.cust1_late; Fixture.cust2; Fixture.cust1_early]))))
             Fixture.cust1_early Fixture.cust1_late Hin Hst eq_refl).
  - split; [lia|].
    exact (proj2 (proj2 (proj2 (proj2
             (C2_customer_dedup_keeps_earliest [])))) 
             Fixture.cust1_early Fixture.cust1_late 100 200
             eq_refl eq_refl eq_refl eq_refl ltac:(lia)).
Defined.

(** C10.  Each of the three deduplications returns its own output
    unchanged when it is applied to it. *)
Theorem C10_dedup_idempotent :
  (forall l : list RawCustomers.row,
     deduped_customers (deduped_customers l) = deduped_customers l)
  /\ (forall l : list RawTransactions.row,
        deduped_transactions (deduped_transactions l) = deduped_transactions l)
  /\ (forall l : list RawSentiment.row,
        deduped_sentiment (deduped_sentiment l) = deduped_sentiment l).
Proof.
  repeat split; intro l.
  - apply DedupFacts.deduped_idempotent;
      [apply customers_tie_total | apply customers_tie_trans].
  - apply DedupFacts.deduped_idempotent;
      [apply transactions_tie_total | apply transactions_tie_trans].
  - apply DedupFacts.deduped_idempotent;
      [apply sentiment_tie_total | apply sentiment_tie_trans].
Qed.

(* ===================================================================== *)
(** * What a successful cast says about the text                          *)
(* ===================================================================== *)

Module CastFacts.
Import Text Cast.

Section Alphabet.

(** A property of characters that holds of everything a numeral is made
    of. *)
Variable Q : ascii -> Prop.
Hypothesis Q_space : forall c, is_space c = true -> Q c.
Hypothesis Q_digit : forall c, is_digit c = true -> Q c.
Hypothesis Q_minus : Q "-"%char.
Hypothesis Q_plus : Q "+"%char.
Hypothesis Q_point : Q "."%char.

Lemma drop_spaces_Forall (l : list ascii) :
  Forall Q (drop_while is_space l) -> Forall Q l.
Proof.
  induction l as [|c l IH]; simpl; [auto|].
  destruct (is_space c) eqn:Hc; [|auto].
  intro H. constructor; auto.
Qed.

Lemma span_digits_Forall (l d r : list ascii) :
  span_digits l = (d, r) -> Forall Q r -> Forall Q l.
Proof.
  revert d r. induction l as [|c l IH]; simpl; intros d r H Hr.
  - constructor.
  - destruct (is_digit c) eqn:Hc.
    + destruct (span_digits l) as [d' r'] eqn:Hl.
      injection H as _ <-. constructor; eauto.
    + injection H as _ <-. exact Hr.
Qed.

Lemma strip_sign_Forall (l r : list ascii) (neg : bool) :
  strip_sign l = (neg, r) -> Forall Q r -> Forall Q l.
Proof.
  destruct l as [|c l]; simpl; intros H Hr; [constructor|].
  destruct (Ascii.eqb c "-") eqn:Hm.
  - apply Ascii.eqb_eq in Hm. subst c. injection H as _ <-. now constructor.
  - destruct (Ascii.eqb c "+") eqn:Hp.
    + apply Ascii.eqb_eq in Hp. subst c. injection H as _ <-. now constructor.
    + injection H as _ <-. exact Hr.
Qed.

Lemma fraction_Forall (l d r : list ascii) :
  fraction l = (d, r) -> Forall Q r -> Forall Q l.
Proof.
  destruct l as [|c l]; simpl; intros H Hr; [constructor|].
  destruct (Ascii.eqb c ".") eqn:Hp.
  - apply Ascii.eqb_eq in Hp. subst c. constructor; [exact Q_point|].
    eapply span_digits_Forall; eauto.
  - injection H as _ <-. exact Hr.
Qed.

Lemma spaces_Forall (l : list ascii) : forallb is_space l = true -> Forall Q l.
Proof.
  rewrite forallb_forall, Forall_forall. auto.
Qed.

(** A text that scans consists of blanks, signs, digits and points. *)
Lemma scan_Forall (s : string) (n : numeral) :
  scan s = Some n -> Forall Q (chars s).
Proof.
  unfold scan. intro H. apply drop_spaces_Forall.
  destruct (strip_sign (drop_while is_space (chars s))) as [neg unsigned] eqn:Hs.
  destruct (span_digits unsigned) as [ip after_int] eqn:Hi.
  destruct (fraction after_int) as [fp after_frac] eqn:Hf.
  assert (Hr : Forall Q after_frac).
  { destruct (forallb is_space after_frac) eqn:Hb.
    - now apply spaces_Forall.
    - destruct ip, fp; discriminate. }
  eapply strip_sign_Forall; eauto.
  eapply span_digits_Forall; eauto.
  eapply fraction_Forall; eauto.
Qed.

End Alphabet.

(** No numeral contains a comma. *)
Lemma scan_no_comma (s : string) (n : numeral) :
  scan s = Some n -> Forall (fun c => c <> ","%char) (chars s).
Proof.
  apply scan_Forall; try discriminate;
    intros c H Hc; subst c; discriminate.
Qed.

Lemma replace_absent (s : string) (from to : ascii) :
  Forall (fun c => c <> from) (chars s) -> replace s from to = s.
Proof.
  unfold replace, text, chars. intro H.
  rewrite <- (string_of_list_ascii_of_string s) at 2. f_equal.
  induction H as [|c l Hc _ IH]; simpl; [reflexivity|].
  rewrite IH. apply Ascii.eqb_neq in Hc. now rewrite Hc.
Qed.

(** The guard of the fixture engine rejects nothing that is a plain
    numeral: its cast to DECIMAL is [plain_decimal]. *)
Lemma iso_decimal_plain (now : Z) (w sc : nat) (s : string) :
  try_cast_decimal (Calendar.iso now) w sc s = plain_decimal w sc s.
Proof.
  simpl. destruct (Calendar.has_comma s) eqn:Hc; [|reflexivity].
  unfold plain_decimal. destruct (scan s) as [n|] eqn:Hs; [|reflexivity].
  apply scan_no_comma in Hs. rewrite Forall_forall in Hs.
  apply existsb_exists in Hc. destruct Hc as (c & Hin & Heq).
  apply Ascii.eqb_eq in Heq. subst c. now destruct (Hs _ Hin).
Qed.

(** When the cast of the raw text succeeds, replacing commas is the
    identity on it. *)
Lemma cast_replace_comma (E : Engine) (w sc : nat) (s : string) (v : Z) :
  try_cast_decimal E w sc s = Some v -> replace s "," "." = s.
Proof.
  intro H. apply replace_absent. apply Forall_forall. intros c Hc ->.
  rewrite (decimal_point_only E w sc s Hc) in H. discriminate.
Qed.

(** A text with a comma does not cast. *)
Lemma comma_fails (E : Engine) (w sc : nat) (s : string) :
  In ","%char (chars s) -> try_cast_decimal E w sc s = None.
Proof. apply decimal_point_only. Qed.

End CastFacts.

(* ===================================================================== *)
(** * The tables after [transform_all]                                    *)
(* ===================================================================== *)

Module TransformFacts.
Import Text Cast.

Lemma insert_dim_Ok (existing new rows : list DimCustomers.row) :
  Insert.dim_customers existing new = Ok rows ->
  rows = existing ++ new
  /\ Insert.not_null DimCustomers.customer_id new = true
  /\ forallb Insert.age_check new = true
  /\ Insert.unique_keys (map DimCustomers.customer_id (existing ++ new)) = true.
Proof.
  unfold Insert.dim_customers.
  destruct (Insert.not_null DimCustomers.customer_id new); simpl; [|discriminate].
  destruct (Insert.not_null DimCustomers.name new); simpl; [|discriminate].
  destruct (forallb Insert.age_check new); simpl; [|discriminate].
  destruct (Insert.unique_keys _); simpl; [|discriminate].
  intro H. injection H as <-. auto.
Qed.

Lemma insert_fact_Ok (dim : list DimCustomers.row)
  (existing new rows : list FactTransactions.row) :
  Insert.fact_transactions dim existing new = Ok rows -> rows = existing ++ new.
Proof.
  unfold Insert.fact_transactions.
  repeat match goal with
         | |- context [if negb ?b then _ else _] => destruct b; simpl; [|discriminate]
         end.
  intro H. now injection H as <-.
Qed.

Section Steps.

Variable E : Engine.

(** A step leaves untouched whatever its statement leaves untouched. *)
Lemma step_frame {A B} (table : string) (statement : Store -> result Store)
  (target : Store -> option (list A)) (f : Store -> B) (t : Transformer) :
  (forall s s', statement s = Ok s' -> f s' = f s) ->
  f (conn (step table statement target t)) = f (conn t).
Proof.
  intro H. unfold step, bind.
  destruct (statement (conn t)) as [s'|e] eqn:Hs; simpl; [|reflexivity].
  destruct (scan_table table (target s')); simpl; eauto.
Qed.

(** A step either leaves the store as it was or installs the store its
    statement returned. *)
Lemma step_cases {A} (table : string) (statement : Store -> result Store)
  (target : Store -> option (list A)) (t : Transformer) :
  conn (step table statement target t) = conn t
  \/ statement (conn t) = Ok (conn (step table statement target t)).
Proof.
  unfold step, bind.
  destruct (statement (conn t)) as [s'|e] eqn:Hs; simpl; [|now left].
  destruct (scan_table table (target s')); simpl; auto.
Qed.

Lemma insert_dim_customers_Ok (s s' : Store) :
  insert_dim_customers E s = Ok s' ->
  exists staged target rows,
    raw_customers s = Some staged /\ dim_customers s = Some target
    /\ Insert.dim_customers target
         (map (select_customer E) (deduped_customers staged)) = Ok rows
    /\ s' = set_dim_customers s rows.
Proof.
  unfold insert_dim_customers, bind, scan_table.
  destruct (raw_customers s) as [staged|]; [|discriminate].
  destruct (dim_customers s) as [target|]; [|discriminate].
  destruct (Insert.dim_customers _ _) as [rows|] eqn:Hi; [|discriminate].
  intro H. injection H as <-. eauto 10.
Qed.

Lemma insert_fact_transactions_Ok (s s' : Store) :
  insert_fact_transactions E s = Ok s' ->
  exists staged dim target rows,
    raw_transactions s = Some staged /\ dim_customers s = Some dim
    /\ fact_transactions s = Some target
    /\ Insert.fact_transactions dim target (selected_transactions E dim staged) = Ok rows
    /\ s' = set_fact_transactions s rows.
Proof.
  unfold insert_fact_transactions, bind, scan_table.
  destruct (raw_transactions s) as [staged|]; [|discriminate].
  destruct (dim_customers s) as [dim|]; [|discriminate].
  destruct (fact_transactions s) as [target|]; [|discriminate].
  destruct (Insert.fact_transactions _ _ _) as [rows|] eqn:Hi; [|discriminate].
  intro H. injection H as <-. eauto 10.
Qed.

Lemma insert_fact_sentiment_Ok (s s' : Store) :
  insert_fact_sentiment E s = Ok s' -> exists rows, s' = set_fact_sentiment s rows.
Proof.
  unfold insert_fact_sentiment, bind, scan_table.
  destruct (raw_sentiment s); [|discriminate].
  destruct (fact_sentiment s); [|discriminate].
  destruct (Insert.fact_sentiment _ _) as [rows|]; [|discriminate].
  intro H. injection H as <-. eauto.
Qed.

Lemma insert_customer_profile_Ok (s s' : Store) :
  insert_customer_profile E s = Ok s' -> exists rows, s' = set_customer_profile s rows.
Proof.
  unfold insert_customer_profile, bind, scan_table.
  destruct (dim_customers s); [|discriminate].
  destruct (fact_transactions s); [|discriminate].
  destruct (customer_profile s); [|discriminate].
  destruct (Insert.customer_profile _ _) as [rows|]; [|discriminate].
  intro H. injection H as <-. eauto.
Qed.

Lemma step_Ok {A} (table : string) (statement : Store -> result Store)
  (target : Store -> option (list A)) (t : Transformer) (s' : Store) (rows : list A) :
  statement (conn t) = Ok s' -> target s' = Some rows ->
  conn (step table statement target t) = s'.
Proof.
  intros Hs Ht. unfold step, bind, scan_table. now rewrite Hs, Ht.
Qed.

Lemma step_Raise {A} (table : string) (statement : Store -> result Store)
  (target : Store -> option (list A)) (t : Transformer) (e : error) :
  statement (conn t) = Raise e ->
  conn (step table statement target t) = conn t.
Proof.
  intros Hs. unfold step, bind. now rewrite Hs.
Qed.

Lemma insert_dim_customers_complete (s : Store) staged target rows :
  raw_customers s = Some staged -> dim_customers s = Some target ->
  Insert.dim_customers target
    (map (select_customer E) (deduped_customers staged)) = Ok rows ->
  insert_dim_customers E s = Ok (set_dim_customers s rows).
Proof.
  intros Hr Hd Hi. unfold insert_dim_customers, bind, scan_table.
  now rewrite Hr, Hd, Hi.
Qed.

Lemma insert_fact_transactions_complete (s : Store) staged dim target rows :
  raw_transactions s = Some staged -> dim_customers s = Some dim ->
  fact_transactions s = Some target ->
  Insert.fact_transactions dim target (selected_transactions E dim staged) = Ok rows ->
  insert_fact_transactions E s = Ok (set_fact_transactions s rows).
Proof.
  intros Hr Hd Hf Hi. unfold insert_fact_transactions, bind, scan_table.
  now rewrite Hr, Hd, Hf, Hi.
Qed.

(** The tables the two last steps do not write. *)
Lemma load_fact_sentiment_frame (t : Transformer) :
  dim_customers (conn (load_fact_sentiment E t)) = dim_customers (conn t)
  /\ fact_transactions (conn (load_fact_sentiment E t)) = fact_transactions (conn t).
Proof.
  unfold load_fact_sentiment.
  destruct (step_cases "fact_sentiment" (insert_fact_sentiment E) fact_sentiment t)
    as [H|H].
  - rewrite H. split; reflexivity.
  - apply insert_fact_sentiment_Ok in H. destruct H as [rows ->]. split; reflexivity.
Qed.

Lemma load_customer_profile_frame (t : Transformer) :
  dim_customers (conn (load_customer_profile E t)) = dim_customers (conn t)
  /\ fact_transactions (conn (load_customer_profile E t)) = fact_transactions (conn t).
Proof.
  unfold load_customer_profile.
  destruct (step_cases "customer_profile" (insert_customer_profile E) customer_profile t)
    as [H|H].
  - rewrite H. split; reflexivity.
  - apply insert_customer_profile_Ok in H. destruct H as [rows ->]. split; reflexivity.
Qed.

(** [load_dim_customers] on an empty [dim_customers]: the table receives
    the cleaned representatives when the insert accepts them, and stays
    empty otherwise. *)
Lemma load_dim_customers_tables (t : Transformer) :
  dim_customers (conn t) = Some [] ->
  exists dim,
    dim_customers (conn (load_dim_customers E t)) = Some dim
    /\ fact_transactions (conn (load_dim_customers E t)) = fact_transactions (conn t)
    /\ raw_transactions (conn (load_dim_customers E t)) = raw_transactions (conn t)
    /\ (dim = []
        \/ exists staged,
             raw_customers (conn t) = Some staged
             /\ dim = map (select_customer E) (deduped_customers staged)
             /\ Insert.dim_customers [] dim = Ok dim)
    /\ (forall staged,
          raw_customers (conn t) = Some staged ->
          Insert.dim_customers [] (map (select_customer E) (deduped_customers staged))
          = Ok (map (select_customer E) (deduped_customers staged)) ->
          dim = map (select_customer E) (deduped_customers staged)).
Proof.
  intro D0. unfold load_dim_customers.
  destruct (insert_dim_customers E (conn t)) as [s'|e] eqn:Hs.
  - pose proof Hs as Hs'. apply insert_dim_customers_Ok in Hs'.
    destruct Hs' as (staged & target & rows & Hrc & Hdim & Hins & ->).
    rewrite D0 in Hdim. injection Hdim as <-.
    destruct (insert_dim_Ok _ _ _ Hins) as (Hrows & _). simpl in Hrows. subst rows.
    erewrite step_Ok; [|exact Hs|reflexivity].
    eexists. simpl. repeat split; eauto.
    intros staged' Hrc' _. congruence.
  - rewrite (step_Raise _ _ _ _ _ Hs). exists []. repeat split; auto.
    intros staged Hrc Hins.
    rewrite (insert_dim_customers_complete _ _ _ _ Hrc D0 Hins) in Hs. discriminate.
Qed.

Lemma load_fact_transactions_tables (t : Transformer) (dim : list DimCustomers.row) :
  dim_customers (conn t) = Some dim ->
  fact_transactions (conn t) = Some [] ->
  exists facts,
    fact_transactions (conn (load_fact_transactions E t)) = Some facts
    /\ dim_customers (conn (load_fact_transactions E t)) = Some dim
    /\ (facts = []
        \/ exists staged,
             raw_transactions (conn t) = Some staged
             /\ facts = selected_transactions E dim staged
             /\ Insert.fact_transactions dim [] facts = Ok facts)
    /\ (forall staged,
          raw_transactions (conn t) = Some staged ->
          Insert.fact_transactions dim [] (selected_transactions E dim staged)
          = Ok (selected_transactions E dim staged) ->
          facts = selected_transactions E dim staged).
Proof.
  intros D F. unfold load_fact_transactions.
  destruct (insert_fact_transactions E (conn t)) as [s'|e] eqn:Hs.
  - pose proof Hs as Hs'. apply insert_fact_transactions_Ok in Hs'.
    destruct Hs' as (staged & dim' & target & rows & Hrt & Hd & Hf & Hins & ->).
    rewrite D in Hd. injection Hd as <-.
    rewrite F in Hf. injection Hf as <-.
    pose proof (insert_fact_Ok _ _ _ _ Hins) as Hrows. simpl in Hrows. subst rows.
    erewrite step_Ok; [|exact Hs|reflexivity].
    eexists. simpl. repeat split; eauto.
    intros staged' Hrt' _. congruence.
  - rewrite (step_Raise _ _ _ _ _ Hs). exists []. repeat split; auto.
    intros staged Hrt Hins.
    rewrite (insert_fact_transactions_complete _ _ _ _ _ Hrt D F Hins) in Hs.
    discriminate.
Qed.

(** After a run on empty targets, [dim_customers] holds the cleaned
    representatives, all of them or none, and [fact_transactions] the
    selected transactions, all of them or none; "all" is the case whenever
    the insert accepts the rows. *)
Lemma transform_all_tables (t : Transformer) :
  targets_empty (conn t) = true ->
  exists dim facts,
    dim_customers (conn (transform_all E t)) = Some dim
    /\ fact_transactions (conn (transform_all E t)) = Some facts
    /\ (dim = []
        \/ exists staged,
             raw_customers (conn t) = Some staged
             /\ dim = map (select_customer E) (deduped_customers staged)
             /\ Insert.dim_customers [] dim = Ok dim)
    /\ (forall staged,
          raw_customers (conn t) = Some staged ->
          Insert.dim_customers [] (map (select_customer E) (deduped_customers staged))
          = Ok (map (select_customer E) (deduped_customers staged)) ->
          dim = map (select_customer E) (deduped_customers staged))
    /\ (facts = []
        \/ exists staged,
             raw_transactions (conn t) = Some staged
             /\ facts = selected_transactions E dim staged
             /\ Insert.fact_transactions dim [] facts = Ok facts)
    /\ (forall staged,
          raw_transactions (conn t) = Some staged ->
          Insert.fact_transactions dim [] (selected_transactions E dim staged)
          = Ok (selected_transactions E dim staged) ->
          facts = selected_transactions E dim staged).
Proof.
  intro Hempty. unfold transform_all.
  set (t0 := create_tables t).
  assert (H0 : dim_customers (conn t0) = Some []
               /\ fact_transactions (conn t0) = Some []
               /\ raw_customers (conn t0) = raw_customers (conn t)
               /\ raw_transactions (conn t0) = raw_transactions (conn t)).
  { unfold targets_empty, no_rows in Hempty. subst t0. simpl.
    destruct (dim_customers (conn t)) as [[|? ?]|];
      destruct (fact_transactions (conn t)) as [[|? ?]|];
      simpl in Hempty; try discriminate; auto. }
  destruct H0 as (D0 & F0 & RC0 & RT0).
  destruct (load_dim_customers_tables t0 D0) as (dim & D1 & F1 & RT1 & Hdim & Hdim').
  rewrite F0 in F1. rewrite RT0 in RT1. rewrite RC0 in Hdim, Hdim'.
  set (t1 := load_dim_customers E t0) in *.
  destruct (load_fact_transactions_tables t1 dim D1 F1) as (facts & F2 & D2 & Hf & Hf').
  rewrite RT1 in Hf, Hf'.
  set (t2 := load_fact_transactions E t1) in *.
  destruct (load_fact_sentiment_frame t2) as (D3 & F3).
  set (t3 := load_fact_sentiment E t2) in *.
  destruct (load_customer_profile_frame t3) as (D4 & F4).
  exists dim, facts.
  rewrite D4, F4, D3, F3. auto 10.
Qed.

End Steps.

End TransformFacts.

(* ===================================================================== *)
(** * Facts about predicates, keys and the two inserts                    *)
(* ===================================================================== *)

Module SqlFacts.

Lemma holds_and (a b : tv) :
  holds (sql_and a b) = true <-> holds a = true /\ holds b = true.
Proof.
  destruct a as [[|]|], b as [[|]|]; simpl; intuition discriminate.
Qed.

Lemma holds_or (a b : tv) :
  holds (sql_or a b) = true <-> holds a = true \/ holds b = true.
Proof.
  destruct a as [[|]|], b as [[|]|]; simpl; intuition discriminate.
Qed.

Lemma holds_eq_text (x y : option string) :
  holds (eq_text x y) = true <-> exists c, x = Some c /\ y = Some c.
Proof.
  destruct x as [a|], y as [b|]; simpl;
    try (split; [discriminate | intros (c & H1 & H2); discriminate]).
  destruct (String.eqb_spec a b) as [->|Hne]; simpl.
  - split; eauto.
  - split; [discriminate | intros (c & H1 & H2); congruence].
Qed.

Lemma holds_in (x : option string) (l : list (option string)) :
  holds (sql_in x l) = true <-> exists c, x = Some c /\ In (Some c) l.
Proof.
  induction l as [|y l IH]; simpl.
  - split; [discriminate | intros (c & _ & [])].
  - rewrite holds_or, holds_eq_text, IH. split.
    + intros [(c & Hx & Hy)|(c & Hx & Hin)]; exists c; subst; auto.
    + intros (c & Hx & [Hy|Hin]); [left | right]; exists c; auto.
Qed.

(** A row counted by [NOT IN] matches no member of the subquery. *)
Lemma holds_not_in (x : option string) (l : list (option string)) :
  holds (sql_not_in x l) = true -> ~ In x l.
Proof.
  unfold sql_not_in. induction l as [|y l IH]; simpl; [tauto|].
  intros H [Hy|Hin].
  - subst y. destruct x as [a|]; simpl in H.
    + rewrite String.eqb_refl in H.
      now destruct (sql_in (Some a) l) as [[|]|].
    + now destruct (sql_in None l) as [[|]|].
  - apply IH; [|exact Hin].
    destruct (eq_text x y) as [[|]|], (sql_in x l) as [[|]|];
      simpl in *; congruence.
Qed.

Lemma unique_keys_NoDup (ks : list (option string)) :
  Insert.unique_keys ks = true <-> NoDup ks.
Proof.
  induction ks as [|k ks IH]; simpl.
  - split; [constructor | reflexivity].
  - rewrite andb_true_iff, negb_true_iff, DedupFacts.mem_not_In, IH.
    split; [intros [? ?]; now constructor | intro H; inversion H; auto].
Qed.

(** Filtering the rows keeps a key column free of duplicates. *)
Lemma filtered_keys_NoDup {A} (col : A -> option string) (keep : A -> bool)
  (rows : list A) :
  NoDup (map col rows) -> NoDup (map col (filter keep rows)).
Proof.
  induction rows as [|x rows IH]; simpl; intro Hnd; [constructor|].
  apply NoDup_cons_iff in Hnd. destruct Hnd as (Hx & Hrows).
  destruct (keep x); simpl; [|auto].
  constructor; [|auto].
  intro Hin. apply Hx. apply in_map_iff in Hin. destruct Hin as (y & Hy & Hin).
  apply filter_In in Hin. rewrite <- Hy. apply in_map. tauto.
Qed.

(** In a column without duplicates a present value matches one row. *)
Lemma matches_once {A} (col : A -> option string) (l : list A) (c : string) :
  NoDup (map col l) -> In (Some c) (map col l) ->
  List.length (filter (fun d => holds (eq_text (Some c) (col d))) l) = 1%nat.
Proof.
  induction l as [|d l IH]; simpl; intros Hnd Hin; [contradiction|].
  inversion Hnd as [|? ? Hd Hl]; subst.
  destruct (col d) as [b|] eqn:Hb; simpl.
  - destruct (String.eqb_spec c b) as [->|Hne]; simpl.
    + f_equal. rewrite (proj2 (length_zero_iff_nil _)); [reflexivity|].
      clear IH Hin Hnd Hl. induction l as [|x l IHl]; simpl; [reflexivity|].
      simpl in Hd. destruct (col x) as [e|] eqn:He; simpl.
      * destruct (String.eqb_spec b e) as [->|Hbe]; simpl; [tauto|].
        apply IHl. tauto.
      * apply IHl. tauto.
    + apply IH; [assumption|]. destruct Hin as [Hin|Hin]; [congruence|assumption].
  - apply IH; [assumption|]. destruct Hin as [Hin|Hin]; [discriminate|assumption].
Qed.

End SqlFacts.

(* ===================================================================== *)
(** * The rows of [fact_transactions]                                     *)
(* ===================================================================== *)

Module FactFacts.
Import Text.

Lemma holds_gt (x : option Z) (k : Z) :
  holds (gt_num x k) = true <-> exists v, x = Some v /\ k < v.
Proof.
  destruct x as [v|]; simpl.
  - destruct (Z.ltb_spec k v); split; try discriminate; eauto.
    intros (v' & Hv & Hlt). injection Hv as <-. lia.
  - split; [discriminate | intros (v & Hv & _); discriminate].
Qed.

Lemma holds_lt (x : option Z) (k : Z) :
  holds (lt_num x k) = true <-> exists v, x = Some v /\ v < k.
Proof.
  destruct x as [v|]; simpl.
  - destruct (Z.ltb_spec v k); split; try discriminate; eauto.
    intros (v' & Hv & Hlt). injection Hv as <-. lia.
  - split; [discriminate | intros (v & Hv & _); discriminate].
Qed.

Lemma holds_not_null {A} (x : option A) :
  holds (is_not_null x) = true <-> x <> None.
Proof. destruct x; simpl; split; congruence. Qed.

Section WithEngine.

Variable E : Engine.

Lemma transaction_where_holds (ids : list (option string)) (r : RawTransactions.row) :
  holds (transaction_where E ids r) = true <->
  (exists c, RawTransactions.customer_id r = Some c /\ In (Some c) ids)
  /\ (exists a, amount_cast E (RawTransactions.amount r) = Some a
                /\ -1000 * 100 < a < 50000 * 100).
Proof.
  unfold transaction_where.
  rewrite !SqlFacts.holds_and, SqlFacts.holds_in, holds_gt, holds_lt, !holds_not_null.
  split.
  - intros ((((_ & Hc) & _) & (a & Ha & Hlo)) & (a' & Ha' & Hhi)).
    split; [exact Hc|]. exists a. rewrite Ha in Ha'. injection Ha' as <-.
    split; [exact Ha | lia].
  - intros ((c & Hc & Hin) & (a & Ha & Hr)).
    repeat split; try congruence; eauto; exists a; split; auto; lia.
Qed.

Lemma selected_In (dim : list DimCustomers.row) (staged : list RawTransactions.row)
  (f : FactTransactions.row) :
  In f (selected_transactions E dim staged) <->
  exists r, select_transaction E r = f
            /\ In r (deduped_transactions staged)
            /\ holds (transaction_where E (map DimCustomers.customer_id dim) r) = true.
Proof.
  unfold selected_transactions. rewrite in_map_iff.
  split; intros (r & Hf & Hr); exists r; (split; [exact Hf|]).
  - apply filter_In in Hr. tauto.
  - apply filter_In. tauto.
Qed.

(** The amount that is stored is the amount the filter has tested. *)
Lemma select_amount (r : RawTransactions.row) (a : Z) :
  amount_cast E (RawTransactions.amount r) = Some a ->
  FactTransactions.amount_eur (select_transaction E r) = Some a.
Proof.
  simpl. destruct (RawTransactions.amount r) as [s|]; simpl; [|discriminate].
  intro H. now rewrite (CastFacts.cast_replace_comma _ _ _ _ _ H).
Qed.

Lemma deduped_transactions_In (staged : list RawTransactions.row) (r : RawTransactions.row) :
  In r (deduped_transactions staged) ->
  In r staged /\ RawTransactions.transaction_id r <> None.
Proof. apply DedupFacts.deduped_In. Qed.

(** The insert accepts the selected rows as soon as none of them has a
    NULL category. *)
Lemma insert_selected (dim : list DimCustomers.row) (staged : list RawTransactions.row) :
  (forall r, In r (deduped_transactions staged) ->
             holds (transaction_where E (map DimCustomers.customer_id dim) r) = true ->
             RawTransactions.category r <> None) ->
  Insert.fact_transactions dim [] (selected_transactions E dim staged)
  = Ok (selected_transactions E dim staged).
Proof.
  intro Hcat. unfold Insert.fact_transactions, Insert.not_null.
  assert (Hall : forall p : FactTransactions.row -> bool,
             (forall r, In r (deduped_transactions staged) ->
                holds (transaction_where E (map DimCustomers.customer_id dim) r) = true ->
                p (select_transaction E r) = true) ->
             forallb p (selected_transactions E dim staged) = true).
  { intros p Hp. apply forallb_forall. intros f Hf.
    apply selected_In in Hf. destruct Hf as (r & <- & Hr & Hw). auto. }
  assert (Hu : Insert.unique_keys
                 (map FactTransactions.transaction_id
                      ([] ++ selected_transactions E dim staged)) = true).
  { apply SqlFacts.unique_keys_NoDup. unfold selected_transactions.
    rewrite app_nil_l, map_map. simpl.
    apply SqlFacts.filtered_keys_NoDup.
    apply DedupFacts.deduped_keys. }
  rewrite Hu.
  rewrite (Hall (fun r => negb (is_null (FactTransactions.transaction_id r)))).
  2:{ intros r Hr Hw. simpl. apply deduped_transactions_In in Hr.
      now destruct (RawTransactions.transaction_id r). }
  rewrite (Hall (fun r => negb (is_null (FactTransactions.customer_id r)))).
  2:{ intros r Hr Hw. simpl. apply transaction_where_holds in Hw.
      destruct Hw as ((c & -> & _) & _). reflexivity. }
  rewrite (Hall (fun r => negb (is_null (FactTransactions.transaction_date r)))).
  2:{ intros r Hr Hw. reflexivity. }
  rewrite (Hall (fun r => negb (is_null (FactTransactions.amount_eur r)))).
  2:{ intros r Hr Hw. apply transaction_where_holds in Hw.
      destruct Hw as (_ & a & Ha & _). now rewrite (select_amount r a Ha). }
  rewrite (Hall (fun r => negb (is_null (FactTransactions.category r)))).
  2:{ intros r Hr Hw. simpl. specialize (Hcat r Hr Hw).
      now destruct (RawTransactions.category r). }
  rewrite (Hall (Insert.references dim)).
  2:{ intros r Hr Hw. unfold Insert.references. apply DedupFacts.mem_In. simpl.
      apply transaction_where_holds in Hw. destruct Hw as ((c & -> & Hin) & _).
      exact Hin. }
  reflexivity.
Qed.

End WithEngine.

End FactFacts.

(* ===================================================================== *)
(** * Ages, dates and the CHECK constraint of [dim_customers]             *)
(* ===================================================================== *)

(** The insert accepts the cleaned representatives as soon as every age
    that parses lies in 0..150. *)
Lemma insert_representatives (E : Engine) (staged : list RawCustomers.row) :
  (forall x, In x (deduped_customers staged) ->
             Insert.age_check (select_customer E x) = true) ->
  Insert.dim_customers [] (map (select_customer E) (deduped_customers staged))
  = Ok (map (select_customer E) (deduped_customers staged)).
Proof.
  intro Hage. unfold Insert.dim_customers, Insert.not_null.
  assert (Hk : forallb (fun r => negb (is_null (DimCustomers.customer_id r)))
                 (map (select_customer E) (deduped_customers staged)) = true).
  { apply forallb_forall. intros d Hd. apply in_map_iff in Hd.
    destruct Hd as (x & <- & Hx). simpl.
    apply DedupFacts.deduped_In in Hx. now destruct (RawCustomers.customer_id x). }
  assert (Hn : forallb (fun r => negb (is_null (DimCustomers.name r)))
                 (map (select_customer E) (deduped_customers staged)) = true).
  { apply forallb_forall. intros d Hd. apply in_map_iff in Hd.
    destruct Hd as (x & <- & Hx). reflexivity. }
  assert (Ha : forallb Insert.age_check
                 (map (select_customer E) (deduped_customers staged)) = true).
  { apply forallb_forall. intros d Hd. apply in_map_iff in Hd.
    destruct Hd as (x & <- & Hx). auto. }
  assert (Hu : Insert.unique_keys
                 (map DimCustomers.customer_id
                      ([] ++ map (select_customer E) (deduped_customers staged))) = true).
  { apply SqlFacts.unique_keys_NoDup. rewrite app_nil_l, map_map. simpl.
    apply DedupFacts.deduped_keys. }
  now rewrite Hk, Hn, Ha, Hu.
Qed.

(* ===================================================================== *)
(** * Decimal commas                                                      *)
(* ===================================================================== *)

(** Whatever the customer dimension, a row whose amount contains a comma
    does not pass the [WHERE] clause. *)
Lemma comma_row_filtered (E : Engine) (ids : list (option string))
  (r : RawTransactions.row) (s : string) :
  RawTransactions.amount r = Some s -> In ","%char (Text.chars s) ->
  holds (transaction_where E ids r) = false.
Proof.
  intros Ha Hin.
  destruct (holds (transaction_where E ids r)) eqn:Hw; [|reflexivity].
  apply FactFacts.transaction_where_holds in Hw.
  destruct Hw as (_ & a & Hcast & _).
  rewrite Ha in Hcast. simpl in Hcast.
  rewrite (CastFacts.comma_fails _ _ _ _ Hin) in Hcast. discriminate.
Qed.

(** C5 fails on the code.  The transaction of [CUST-0001] with the amount
    1234,56 is its key's representative, its customer is in
    [dim_customers] and the select list would store 1234.56; the [WHERE]
    clause casts the text without replacing the comma, and the row is
    dropped. *)
Theorem C5_decimal_comma_row_is_dropped :
  In Fixture.txn_comma (deduped_transactions [Fixture.txn_comma])
  /\ RawTransactions.amount Fixture.txn_comma = Some "1234,56"
  /\ FactTransactions.amount_eur (select_transaction Fixture.engine Fixture.txn_comma)
     = Some 123456
  /\ dim_customers (Fixture.run Fixture.comma_staging)
     = Some [select_customer Fixture.engine Fixture.cust1_early]
  /\ holds (sql_in (RawTransactions.customer_id Fixture.txn_comma)
              (map DimCustomers.customer_id
                   [select_customer Fixture.engine Fixture.cust1_early])) = true
  /\ amount_cast Fixture.engine (RawTransactions.amount Fixture.txn_comma) = None
  /\ fact_transactions (Fixture.run Fixture.comma_staging) = Some [].
Proof.
  repeat split; try reflexivity. vm_compute. auto.
Qed.

(* ===================================================================== *)
(** * The raw orphan check                                                *)
(* ===================================================================== *)

Module OrphanFacts.

Lemma existsb_key (c : string) (customers : list RawCustomers.row) :
  existsb (fun r => match RawCustomers.customer_id r with
                    | Some c' => String.eqb c c'
                    | None => false
                    end) customers = true
  <-> In (Some c) (map RawCustomers.customer_id customers).
Proof.
  rewrite existsb_exists, in_map_iff. split.
  - intros (r & Hr & Hc). exists r. split; [|exact Hr].
    destruct (RawCustomers.customer_id r) as [c'|]; [|discriminate].
    apply String.eqb_eq in Hc. now subst.
  - intros (r & Hc & Hr). exists r. split; [exact Hr|].
    rewrite Hc. apply String.eqb_refl.
Qed.

(** Without a NULL in the subquery, [NOT IN] is plain absence. *)
Lemma not_in_without_null (c : string) (l : list (option string)) :
  ~ In None l ->
  holds (sql_not_in (Some c) l) = negb (Dedup.mem (Some c) l).
Proof.
  unfold sql_not_in. induction l as [|y l IH]; simpl; intro Hn; [reflexivity|].
  destruct y as [b|]; [|tauto]. simpl.
  assert (IH' := IH (fun H => Hn (or_intror H))). clear IH.
  destruct (String.eqb c b); simpl.
  - now destruct (sql_in (Some c) l) as [[|]|].
  - destruct (sql_in (Some c) l) as [[|]|]; simpl in *; exact IH'.
Qed.

(** The query counts what the specification describes as soon as no
    staging customer has a NULL [customer_id]. *)
Lemma orphan_count_without_null_keys (s : Store)
  (customers : list RawCustomers.row) (txns : list RawTransactions.row) :
  raw_customers s = Some customers ->
  raw_transactions s = Some txns ->
  ~ In None (map RawCustomers.customer_id customers) ->
  Validation.orphan_count s = Ok (Spec.orphan_count_spec customers txns).
Proof.
  intros Hc Ht Hn. unfold Validation.orphan_count, bind, scan_table.
  rewrite Hc, Ht. f_equal. unfold Spec.orphan_count_spec. f_equal.
  apply filter_ext. intro t.
  unfold Validation.orphan_where, Spec.is_orphan.
  destruct (RawTransactions.customer_id t) as [c|] eqn:Hk.
  - assert (Hand : forall a, holds (sql_and (is_not_null (Some c)) a) = holds a)
      by (intros [[|]|]; reflexivity).
    rewrite Hand, (not_in_without_null c _ Hn). f_equal.
    destruct (Dedup.mem (Some c) (map RawCustomers.customer_id customers)) eqn:Hm.
    + symmetry. apply existsb_key. now apply DedupFacts.mem_In.
    + destruct (existsb _ customers) eqn:He; [|reflexivity].
      apply existsb_key, DedupFacts.mem_In in He. congruence.
  - now destruct (sql_not_in None (map RawCustomers.customer_id customers)) as [[|]|].
Qed.

End OrphanFacts.

(** C6 fails on the code.  With one staging customer whose [customer_id]
    is NULL, a transaction of the unknown customer [CUST-0350] is an
    orphan in the words of the specification, and the query, whose
    [NOT IN] is UNKNOWN against a subquery with a NULL, counts none. *)
Theorem C6_null_customer_key_hides_orphans :
  raw_customers Fixture.null_key_staging
  = Some [Fixture.cust_no_key; Fixture.cust1_early]
  /\ raw_transactions Fixture.null_key_staging = Some [Fixture.txn_unknown_customer]
  /\ RawTransactions.customer_id Fixture.txn_unknown_customer = Some "CUST-0350"
  /\ map RawCustomers.customer_id [Fixture.cust_no_key; Fixture.cust1_early]
     = [None; Some "CUST-0001"]
  /\ Spec.orphan_count_spec [Fixture.cust_no_key; Fixture.cust1_early]
                            [Fixture.txn_unknown_customer] = 1%nat
  /\ Validation.orphan_where [None; Some "CUST-0001"] Fixture.txn_unknown_customer
     = None
  /\ Validation._find_orphan_keys Fixture.null_key_staging
     = Validation.Orphans false 0 "None".
Proof.
  repeat split; reflexivity.
Qed.

(* ===================================================================== *)
(** * Raw orphans and the foreign-key filter                              *)
(* ===================================================================== *)

Module KeyFacts.

Section WithEngine.

Variable E : Engine.

(** Every [customer_id] of [dim_customers] is the raw [customer_id] of a
    staging customer. *)
Lemma dim_ids_are_staged (t : Transformer) (staged : list RawCustomers.row)
  (dim : list DimCustomers.row) (k : option string) :
  targets_empty (conn t) = true ->
  raw_customers (conn t) = Some staged ->
  dim_customers (conn (transform_all E t)) = Some dim ->
  In k (map DimCustomers.customer_id dim) ->
  In k (map RawCustomers.customer_id staged).
Proof.
  intros Hempty Hst Hdim Hk.
  destruct (TransformFacts.transform_all_tables E t Hempty)
    as (dim' & facts & Hd & _ & Hshape & _).
  rewrite Hdim in Hd. injection Hd as <-.
  destruct Hshape as [->|(staged' & Hst' & -> & _)]; [contradiction|].
  rewrite Hst in Hst'. injection Hst' as <-.
  rewrite map_map in Hk. simpl in Hk.
  apply in_map_iff in Hk. destruct Hk as (r & <- & Hr).
  apply in_map. now apply DedupFacts.deduped_In in Hr.
Qed.

(** Every row of [fact_transactions] carries a [customer_id] of
    [dim_customers]. *)
Lemma fact_ids_are_in_dim (t : Transformer) (dim : list DimCustomers.row)
  (facts : list FactTransactions.row) (f : FactTransactions.row) :
  targets_empty (conn t) = true ->
  dim_customers (conn (transform_all E t)) = Some dim ->
  fact_transactions (conn (transform_all E t)) = Some facts ->
  In f facts ->
  exists c, FactTransactions.customer_id f = Some c
            /\ In (Some c) (map DimCustomers.customer_id dim).
Proof.
  intros Hempty Hdim Hfacts Hf.
  destruct (TransformFacts.transform_all_tables E t Hempty)
    as (dim' & facts' & Hd & Hf' & _ & _ & Hshape & _).
  rewrite Hdim in Hd. injection Hd as <-.
  rewrite Hfacts in Hf'. injection Hf' as <-.
  destruct Hshape as [->|(staged & _ & -> & _)]; [contradiction|].
  apply FactFacts.selected_In in Hf. destruct Hf as (r & <- & _ & Hw).
  apply FactFacts.transaction_where_holds in Hw.
  destruct Hw as ((c & Hc & Hin) & _). exists c. simpl. auto.
Qed.

(** A transaction that the raw check counts has a [customer_id] that no
    row of [fact_transactions] carries. *)
Lemma orphan_not_loaded (t : Transformer) (staged : list RawCustomers.row)
  (txn : RawTransactions.row) (facts : list FactTransactions.row)
  (f : FactTransactions.row) :
  targets_empty (conn t) = true ->
  raw_customers (conn t) = Some staged ->
  holds (Validation.orphan_where (map RawCustomers.customer_id staged) txn) = true ->
  fact_transactions (conn (transform_all E t)) = Some facts ->
  In f facts ->
  FactTransactions.customer_id f <> RawTransactions.customer_id txn.
Proof.
  intros Hempty Hst Horphan Hfacts Hf Heq.
  unfold Validation.orphan_where in Horphan.
  apply SqlFacts.holds_and in Horphan. destruct Horphan as (_ & Hnot).
  apply SqlFacts.holds_not_in in Hnot. apply Hnot.
  destruct (TransformFacts.transform_all_tables E t Hempty)
    as (dim & facts' & Hd & _).
  destruct (fact_ids_are_in_dim t dim facts f Hempty Hd Hfacts Hf) as (c & Hc & Hin).
  rewrite <- Heq, Hc.
  eapply dim_ids_are_staged; eauto.
Qed.

End WithEngine.

End KeyFacts.

(* ===================================================================== *)
(** * Exceptions                                                          *)
(* ===================================================================== *)

(** [validate_raw_data] returns on every store. *)
Lemma validate_raw_data_returns (s : Store) :
  exists v, Validation.validate_raw_data s = Ok v.
Proof. unfold Validation.validate_raw_data. eauto. Qed.

(** [validate_transformed_data] raises exactly when [dim_customers] does
    not exist. *)
Lemma validate_transformed_data_raises (s : Store) :
  (exists e, Validation.validate_transformed_data s = Raise e)
  <-> dim_customers s = None.
Proof.
  unfold Validation.validate_transformed_data, bind, scan_table.
  destruct (dim_customers s); split; try discriminate; eauto.
  intros (e & He). discriminate.
Qed.

(** C3 fails on the code.  On a store in which [dim_customers] was never
    created, the checks of [validate_transformed_data] that sit in a [try]
    record their error, and the two counts of the uniqueness check, which
    do not, raise out of the method. *)
Theorem C3_uniqueness_check_raises :
  dim_customers Fixture.clean_staging = None
  /\ (exists message,
        Validation._validate_table Fixture.clean_staging "dim_customers"
        = Validation.ProfileError message)
  /\ (exists message,
        Validation._check_foreign_keys Fixture.clean_staging
        = Validation.IntegrityError message)
  /\ (exists v, Validation.validate_raw_data Fixture.clean_staging = Ok v)
  /\ Validation.validate_transformed_data Fixture.clean_staging
     = Raise (CatalogError "dim_customers").
Proof.
  split; [reflexivity|].
  split; [eexists; reflexivity|].
  split; [eexists; reflexivity|].
  split; [eexists; reflexivity|].
  reflexivity.
Qed.

(* ===================================================================== *)
(** * The per-table profile                                               *)
(* ===================================================================== *)

Module ProfileFacts.
Import Validation.

Lemma pos_of_nat (m : nat) : (0 < m)%nat -> Z.pos (Pos.of_nat m) = Z.of_nat m.
Proof. intro H. destruct m; [lia|]. rewrite <- Pos.of_nat_succ. lia. Qed.

Lemma rate_below_threshold (n m : nat) :
  (0 < m)%nat ->
  (Z.of_nat n # Pos.of_nat m <= 3 # 10)%Q <-> (10 * n <= 3 * m)%nat.
Proof.
  intro Hm. unfold Qle. cbn [Qnum Qden].
  rewrite (pos_of_nat m Hm). lia.
Qed.

(** The threshold test in integers. *)
Lemma exceeds_threshold_iff (n m : nat) :
  exceeds_threshold n m = true <-> (0 < m /\ 3 * m < 10 * n)%nat.
Proof.
  unfold exceeds_threshold, Qgt_bool, null_pct, NULL_RATE_WARNING.
  rewrite negb_true_iff.
  destruct (Nat.ltb_spec 0 m) as [Hm|Hm].
  - destruct (Qle_bool (Z.of_nat n # Pos.of_nat m) (3 # 10)) eqn:Hle.
    + apply Qle_bool_iff, rate_below_threshold in Hle; [|exact Hm].
      split; [discriminate | lia].
    + split; [intros _ | reflexivity]. split; [exact Hm|].
      destruct (Nat.lt_ge_cases (3 * m) (10 * n)) as [Hlt|Hge]; [exact Hlt|].
      apply (rate_below_threshold n m Hm), Qle_bool_iff in Hge. congruence.
  - split; [|lia]. intro H. exfalso.
    assert (Hz : Qle_bool 0 (3 # 10) = true) by reflexivity. congruence.
Qed.

Lemma exceeds_threshold_Qlt (n m : nat) :
  exceeds_threshold n m = true <-> (NULL_RATE_WARNING < null_pct n m)%Q.
Proof.
  unfold exceeds_threshold, Qgt_bool. rewrite negb_true_iff. split.
  - intro H. apply Qnot_le_lt. intro Hle. apply Qle_bool_iff in Hle. congruence.
  - intro H. destruct (Qle_bool (null_pct n m) NULL_RATE_WARNING) eqn:Hle; [|reflexivity].
    apply Qle_bool_iff in Hle. exfalso. exact (Qlt_not_le _ _ H Hle).
Qed.

(** What the loop over the columns leaves in [high_null_columns]. *)
Lemma null_rates_In (rel : relation) (m i : nat) (cols : list string)
  (col : string) (e : high_null) :
  In (col, e) (null_rates rel m i cols) <->
  exists j, nth_error cols j = Some col
            /\ is_internal col = false
            /\ exceeds_threshold (null_count rel (i + j)) m = true
            /\ e = {| hn_null_count := null_count rel (i + j);
                      hn_null_rate := null_pct (null_count rel (i + j)) m |}.
Proof.
  revert i. induction cols as [|c cols IH]; intro i; simpl.
  - split; [contradiction | intros ([|j] & H & _); discriminate].
  - assert (Hshift : forall j, (S i + j = i + S j)%nat) by (intros; lia).
    assert (Htail :
      (exists j, nth_error cols j = Some col /\ is_internal col = false
                 /\ exceeds_threshold (null_count rel (S i + j)) m = true
                 /\ e = {| hn_null_count := null_count rel (S i + j);
                           hn_null_rate := null_pct (null_count rel (S i + j)) m |})
      -> exists j, nth_error (c :: cols) j = Some col /\ is_internal col = false
                   /\ exceeds_threshold (null_count rel (i + j)) m = true
                   /\ e = {| hn_null_count := null_count rel (i + j);
                             hn_null_rate := null_pct (null_count rel (i + j)) m |}).
    { intros (j & H). exists (S j). rewrite <- Hshift. exact H. }
    assert (Hhead : forall j,
      nth_error (c :: cols) j = Some col -> is_internal col = false ->
      exceeds_threshold (null_count rel (i + j)) m = true ->
      e = {| hn_null_count := null_count rel (i + j);
             hn_null_rate := null_pct (null_count rel (i + j)) m |} ->
      (j = 0%nat /\ c = col)
      \/ exists j', nth_error cols j' = Some col /\ is_internal col = false
                    /\ exceeds_threshold (null_count rel (S i + j')) m = true
                    /\ e = {| hn_null_count := null_count rel (S i + j');
                              hn_null_rate := null_pct (null_count rel (S i + j')) m |}).
    { intros [|j] H1 H2 H3 H4.
      - left. simpl in H1. split; congruence.
      - right. exists j. rewrite Hshift. auto. }
    destruct (is_internal c) eqn:Hc.
    + rewrite IH. split; [exact Htail|].
      intros (j & H1 & H2 & H3 & H4).
      destruct (Hhead j H1 H2 H3 H4) as [(_ & ->)|H]; [congruence | exact H].
    + destruct (exceeds_threshold (null_count rel i) m) eqn:Hx; simpl.
      * rewrite IH. split.
        -- intros [H|H]; [|now apply Htail].
           injection H as <- <-. exists 0%nat. rewrite Nat.add_0_r. auto.
        -- intros (j & H1 & H2 & H3 & H4).
           destruct (Hhead j H1 H2 H3 H4) as [(-> & ->)|H]; [|now right].
           left. rewrite Nat.add_0_r in H4. now subst e.
      * rewrite IH. split; [exact Htail|].
        intros (j & H1 & H2 & H3 & H4).
        destruct (Hhead j H1 H2 H3 H4) as [(-> & ->)|H]; [|exact H].
        rewrite Nat.add_0_r in H3. congruence.
Qed.

(** The column names of every table of the store are pairwise different. *)
Lemma describe_columns (s : Store) (table_name : string) (rel : relation) :
  describe s table_name = Some rel -> NoDup (columns rel).
Proof.
  assert (Hnd : forall l : list string,
            (fix distinct (l : list string) : bool :=
               match l with
               | [] => true
               | x :: r => negb (existsb (String.eqb x) r) && distinct r
               end) l = true -> NoDup l).
  { induction l as [|x r IH]; intro H; [constructor|].
    apply andb_true_iff in H. destruct H as (Hx & Hr). constructor; [|auto].
    intro Hin. apply negb_true_iff in Hx.
    assert (He : existsb (String.eqb x) r = true)
      by (apply existsb_exists; exists x; split; [exact Hin | apply String.eqb_refl]).
    congruence. }
  unfold describe, view.
  repeat match goal with
         | |- context [if ?b then _ else _] => destruct b
         end;
    try discriminate;
    match goal with
    | |- option_map _ ?t = _ -> _ =>
        destruct t; simpl; intro H; [|discriminate];
        injection H as <-; simpl; apply Hnd; reflexivity
    end.
Qed.

End ProfileFacts.

(** C8.  For every table of the store and every column whose name does
    not start with an underscore, the profile lists the column in
    [high_null_columns] exactly when its null rate is strictly above 3/10,
    and the entry then carries the null count and the rate; at exactly 30%
    the column is not listed; on a table without rows every rate is 0 and
    no column is listed.  The rate is the exact quotient; the same test on
    binary64 numbers gives the same answer for every table of up to 200
    rows. *)
Theorem C8_high_null_flag_is_strict :
  forall (s : Store) (table_name : string) (rel : Validation.relation),
    Validation.describe s table_name = Some rel ->
    exists high,
      Validation._validate_table s table_name
      = Validation.Profile (List.length (Validation.null_cells rel))
                           (Validation.columns rel) high
      /\ (forall i col,
            nth_error (Validation.columns rel) i = Some col ->
            Validation.is_internal col = false ->
            let n := Validation.null_count rel i in
            let m := List.length (Validation.null_cells rel) in
            (In col (map fst high)
             <-> (Validation.NULL_RATE_WARNING < Validation.null_pct n m)%Q)
            /\ (forall e, In (col, e) high ->
                  e = {| Validation.hn_null_count := n;
                         Validation.hn_null_rate := Validation.null_pct n m |})
            /\ ((10 * n = 3 * m)%nat -> ~ In col (map fst high))
            /\ (m = 0%nat -> Validation.null_pct n m = 0%Q))
      /\ forallb (fun m =>
           forallb (fun n =>
             Bool.eqb (Validation.exceeds_threshold_binary64 n m)
                      (Validation.exceeds_threshold n m))
             (seq 0 (S m)))
           (seq 0 201) = true.
Proof.
  intros s table_name rel Hd.
  pose proof (ProfileFacts.describe_columns _ _ _ Hd) as Hnd.
  exists (Validation.null_rates rel (List.length (Validation.null_cells rel)) 0
            (Validation.columns rel)).
  split; [unfold Validation._validate_table; now rewrite Hd|].
  split; [|vm_compute; reflexivity].
  intros i col Hi Hint. cbv zeta.
  set (m := List.length (Validation.null_cells rel)).
  set (n := Validation.null_count rel i).
  assert (Hentry : forall e,
            In (col, e) (Validation.null_rates rel m 0 (Validation.columns rel)) ->
            Validation.exceeds_threshold n m = true
            /\ e = {| Validation.hn_null_count := n;
                      Validation.hn_null_rate := Validation.null_pct n m |}).
  { intros e He. apply ProfileFacts.null_rates_In in He.
    destruct He as (j & Hj & _ & Hx & ->). simpl in Hx |- *.
    assert (j = i).
    { apply (proj1 (NoDup_nth_error (Validation.columns rel)) Hnd);
        [apply nth_error_Some; congruence | congruence]. }
    subst j. auto. }
  assert (Hflag : In col (map fst (Validation.null_rates rel m 0 (Validation.columns rel)))
                  <-> Validation.exceeds_threshold n m = true).
  { split.
    - intro H. apply in_map_iff in H. destruct H as ((c & e) & Hc & He).
      simpl in Hc. subst c. now apply Hentry in He.
    - intro H.
      apply in_map_iff.
      exists (col, {| Validation.hn_null_count := n;
                      Validation.hn_null_rate := Validation.null_pct n m |}).
      split; [reflexivity|].
      apply ProfileFacts.null_rates_In. exists i. simpl. auto. }
  split; [|split; [|split]].
  - rewrite Hflag. apply ProfileFacts.exceeds_threshold_Qlt.
  - intros e He. now apply Hentry in He.
  - intros H30 Hin. apply Hflag, ProfileFacts.exceeds_threshold_iff in Hin. lia.
  - intros Hm. unfold Validation.null_pct. now rewrite Hm.
Qed.

(** The fixture of C8: of ten rows, three have a NULL email and four a
    NULL age; only age is listed. *)
Lemma C8_witness :
  Validation.profile_relation Fixture.ten_rows
  = Validation.Profile 10 ["_row_id"; "email"; "age"]
      [("age", {| Validation.hn_null_count := 4;
                  Validation.hn_null_rate := 4 # 10 |})]
  /\ Validation.describe Fixture.clean_staging "raw_customers"
     = Some {| Validation.columns :=
                 ["_row_id"; "customer_id"; "name"; "email"; "age"; "city"; "country";
                  "signup_date"; "favorite_team"; "membership_tier"; "gender";
                  "_load_timestamp"];
               Validation.null_cells :=
                 map Validation.raw_customers_nulls
                     [Fixture.cust1_late; Fixture.cust2; Fixture.cust1_early] |}
  /\ exists high,
       Validation._validate_table Fixture.clean_staging "raw_customers"
       = Validation.Profile 3
           ["_row_id"; "customer_id"; "name"; "email"; "age"; "city"; "country";
            "signup_date"; "favorite_team"; "membership_tier"; "gender";
            "_load_timestamp"] high
       /\ (In "email" (map fst high) <-> (3 # 10 < 1 # 3)%Q).
Proof.
  split; [reflexivity|]. split; [reflexivity|].
  destruct (C8_high_null_flag_is_strict Fixture.clean_staging "raw_customers" _ eq_refl)
    as (high & Hp & Hcols & _).
  exists high. split; [exact Hp|].
  exact (proj1 (Hcols 3%nat "email" eq_refl eq_refl)).
Defined.

(* ===================================================================== *)
(** * The customer profile                                                *)
(* ===================================================================== *)

Module ProfileQueryFacts.

Lemma distinct_keys_unique (ks : list (option string)) :
  Insert.unique_keys ks = true -> distinct_keys ks = ks.
Proof.
  induction ks as [|k ks IH]; simpl; [reflexivity|].
  intro H. apply andb_true_iff in H. destruct H as (Hk & Hks).
  apply negb_true_iff in Hk. rewrite Hk. f_equal. auto.
Qed.

Lemma distinct_keys_nil (ks : list (option string)) :
  distinct_keys ks = [] -> ks = [].
Proof.
  induction ks as [|k ks IH]; simpl; [reflexivity|].
  destruct (Dedup.mem k ks) eqn:Hm; [|discriminate].
  intro H. rewrite (IH H) in Hm. discriminate.
Qed.

Lemma count_distinct_zero (xs : list (option string)) :
  count_distinct xs = 0 -> forall x, In x xs -> x = None.
Proof.
  unfold count_distinct. intro H.
  assert (Hn : non_null xs = []).
  { destruct (non_null xs) as [|v vs] eqn:Hv; [reflexivity|].
    assert (Hl : distinct_keys (map Some (v :: vs)) = []).
    { apply length_zero_iff_nil. lia. }
    apply distinct_keys_nil in Hl. discriminate. }
  clear H. induction xs as [|y ys IH]; simpl; [contradiction|].
  intros x [<-|Hx].
  - destruct y; [discriminate | reflexivity].
  - apply IH; [|exact Hx]. simpl in Hn. destruct y; [discriminate | exact Hn].
Qed.

Lemma non_null_all_null {A} (xs : list (option A)) :
  (forall x, In x xs -> x = None) -> non_null xs = [].
Proof.
  induction xs as [|y ys IH]; simpl; intro H; [reflexivity|].
  rewrite (H y (or_introl eq_refl)). apply IH. auto.
Qed.

(** The rows of a group are transactions of the fact table, or the single
    all-NULL row of a customer without transactions. *)
Lemma group_rows_In (dim : list DimCustomers.row) (fact : list FactTransactions.row)
  (k : option string) (j : joined) :
  In j (group_rows dim fact k) ->
  match j with
  | Some t => In t fact
  | None => True
  end.
Proof.
  unfold group_rows. intro H. apply in_flat_map in H.
  destruct H as (c & _ & Hj). unfold left_join in Hj.
  destruct (filter _ fact) as [|t ts] eqn:Hf.
  - destruct Hj as [<-|[]]. exact I.
  - apply in_map_iff in Hj. destruct Hj as (t' & <- & Ht').
    rewrite <- Hf in Ht'. now apply filter_In in Ht'.
Qed.

Lemma nullif_not_zero (n : Z) : nullif n 0 <> Some 0.
Proof.
  unfold nullif. destruct (Z.eqb_spec n 0); congruence.
Qed.

Lemma divide_round_guarded (scale : nat) (x : option Z) (n : Z) :
  divide_round scale x (nullif n 0) <> QDivisionByZero.
Proof.
  unfold divide_round, nullif. destruct x as [a|]; [|discriminate].
  destruct (Z.eqb_spec n 0) as [->|Hn]; [discriminate|].
  destruct (Z.eqb_spec n 0); [contradiction | discriminate].
Qed.

End ProfileQueryFacts.

(* ===================================================================== *)
(** * What a run touches and what it reports                              *)
(* ===================================================================== *)

Module RunFacts.

Section WithEngine.

Variable E : Engine.

(** A store that a statement returns differs from the one it received in
    the statement's own table only. *)
Lemma load_dim_customers_others (t : Transformer) :
  raw_customers (conn (load_dim_customers E t)) = raw_customers (conn t)
  /\ raw_transactions (conn (load_dim_customers E t)) = raw_transactions (conn t)
  /\ raw_sentiment (conn (load_dim_customers E t)) = raw_sentiment (conn t)
  /\ fact_transactions (conn (load_dim_customers E t)) = fact_transactions (conn t)
  /\ fact_sentiment (conn (load_dim_customers E t)) = fact_sentiment (conn t)
  /\ customer_profile (conn (load_dim_customers E t)) = customer_profile (conn t)
  /\ (dim_customers (conn t) <> None ->
      dim_customers (conn (load_dim_customers E t)) <> None).
Proof.
  unfold load_dim_customers.
  destruct (TransformFacts.step_cases "dim_customers" (insert_dim_customers E)
              dim_customers t) as [H|H].
  - rewrite H. repeat split; auto.
  - apply TransformFacts.insert_dim_customers_Ok in H.
    destruct H as (staged & target & rows & _ & _ & _ & ->).
    repeat split; simpl; discriminate.
Qed.

Lemma load_fact_transactions_others (t : Transformer) :
  raw_customers (conn (load_fact_transactions E t)) = raw_customers (conn t)
  /\ raw_transactions (conn (load_fact_transactions E t)) = raw_transactions (conn t)
  /\ raw_sentiment (conn (load_fact_transactions E t)) = raw_sentiment (conn t)
  /\ dim_customers (conn (load_fact_transactions E t)) = dim_customers (conn t)
  /\ fact_sentiment (conn (load_fact_transactions E t)) = fact_sentiment (conn t)
  /\ customer_profile (conn (load_fact_transactions E t)) = customer_profile (conn t)
  /\ (fact_transactions (conn t) <> None ->
      fact_transactions (conn (load_fact_transactions E t)) <> None).
Proof.
  unfold load_fact_transactions.
  destruct (TransformFacts.step_cases "fact_transactions" (insert_fact_transactions E)
              fact_transactions t) as [H|H].
  - rewrite H. repeat split; auto.
  - apply TransformFacts.insert_fact_transactions_Ok in H.
    destruct H as (staged & dim & target & rows & _ & _ & _ & _ & ->).
    repeat split; simpl; discriminate.
Qed.

Lemma load_fact_sentiment_others (t : Transformer) :
  raw_customers (conn (load_fact_sentiment E t)) = raw_customers (conn t)
  /\ raw_transactions (conn (load_fact_sentiment E t)) = raw_transactions (conn t)
  /\ raw_sentiment (conn (load_fact_sentiment E t)) = raw_sentiment (conn t)
  /\ dim_customers (conn (load_fact_sentiment E t)) = dim_customers (conn t)
  /\ fact_transactions (conn (load_fact_sentiment E t)) = fact_transactions (conn t)
  /\ customer_profile (conn (load_fact_sentiment E t)) = customer_profile (conn t)
  /\ (fact_sentiment (conn t) <> None ->
      fact_sentiment (conn (load_fact_sentiment E t)) <> None).
Proof.
  unfold load_fact_sentiment.
  destruct (TransformFacts.step_cases "fact_sentiment" (insert_fact_sentiment E)
              fact_sentiment t) as [H|H].
  - rewrite H. repeat split; auto.
  - apply TransformFacts.insert_fact_sentiment_Ok in H.
    destruct H as (rows & ->).
    repeat split; simpl; discriminate.
Qed.

Lemma load_customer_profile_others (t : Transformer) :
  raw_customers (conn (load_customer_profile E t)) = raw_customers (conn t)
  /\ raw_transactions (conn (load_customer_profile E t)) = raw_transactions (conn t)
  /\ raw_sentiment (conn (load_customer_profile E t)) = raw_sentiment (conn t)
  /\ dim_customers (conn (load_customer_profile E t)) = dim_customers (conn t)
  /\ fact_transactions (conn (load_customer_profile E t)) = fact_transactions (conn t)
  /\ fact_sentiment (conn (load_customer_profile E t)) = fact_sentiment (conn t)
  /\ (customer_profile (conn t) <> None ->
      customer_profile (conn (load_customer_profile E t)) <> None).
Proof.
  unfold load_customer_profile.
  destruct (TransformFacts.step_cases "customer_profile" (insert_customer_profile E)
              customer_profile t) as [H|H].
  - rewrite H. repeat split; auto.
  - apply TransformFacts.insert_customer_profile_Ok in H.
    destruct H as (rows & ->).
    repeat split; simpl; discriminate.
Qed.

Lemma create_tables_exist (t : Transformer) :
  dim_customers (conn (create_tables t)) <> None
  /\ fact_transactions (conn (create_tables t)) <> None
  /\ fact_sentiment (conn (create_tables t)) <> None
  /\ customer_profile (conn (create_tables t)) <> None.
Proof.
  simpl. unfold create_if_not_exists.
  destruct (dim_customers (conn t)), (fact_transactions (conn t)),
    (fact_sentiment (conn t)), (customer_profile (conn t));
    repeat split; discriminate.
Qed.

(** Every step writes one entry: the number of rows its table holds after
    the statement, or the error the statement raised, in which case the
    store is left as it was. *)
Lemma step_outcome {A} (table : string) (statement : Store -> result Store)
  (target : Store -> option (list A)) (t : Transformer) :
  (forall s s', statement s = Ok s' -> target s' <> None) ->
  (exists s' rows,
      statement (conn t) = Ok s' /\ target s' = Some rows
      /\ conn (step table statement target t) = s'
      /\ report (step table statement target t)
         = report t ++ [Loaded table (List.length rows)])
  \/ (exists e,
        statement (conn t) = Raise e
        /\ conn (step table statement target t) = conn t
        /\ report (step table statement target t) = report t ++ [Failed table e]).
Proof.
  intro Hexists. unfold step, bind, scan_table.
  destruct (statement (conn t)) as [s'|e] eqn:Hs; simpl; [|right; eauto].
  destruct (target s') as [rows|] eqn:Ht; simpl.
  - left. exists s', rows. auto.
  - now destruct (Hexists _ _ Hs).
Qed.

Lemma load_dim_customers_outcome (t : Transformer) :
  (exists rows,
      dim_customers (conn (load_dim_customers E t)) = Some rows
      /\ report (load_dim_customers E t)
         = report t ++ [Loaded "dim_customers" (List.length rows)])
  \/ (exists e,
        insert_dim_customers E (conn t) = Raise e
        /\ conn (load_dim_customers E t) = conn t
        /\ report (load_dim_customers E t) = report t ++ [Failed "dim_customers" e]).
Proof.
  destruct (step_outcome "dim_customers" (insert_dim_customers E) dim_customers t)
    as [(s' & rows & _ & Ht & Hc & Hr)|H].
  - intros s s' Hs. apply TransformFacts.insert_dim_customers_Ok in Hs.
    destruct Hs as (? & ? & ? & _ & _ & _ & ->). discriminate.
  - left. exists rows. unfold load_dim_customers. rewrite Hc. auto.
  - now right.
Qed.

Lemma load_fact_transactions_outcome (t : Transformer) :
  (exists rows,
      fact_transactions (conn (load_fact_transactions E t)) = Some rows
      /\ report (load_fact_transactions E t)
         = report t ++ [Loaded "fact_transactions" (List.length rows)])
  \/ (exists e,
        insert_fact_transactions E (conn t) = Raise e
        /\ conn (load_fact_transactions E t) = conn t
        /\ report (load_fact_transactions E t)
           = report t ++ [Failed "fact_transactions" e]).
Proof.
  destruct (step_outcome "fact_transactions" (insert_fact_transactions E)
              fact_transactions t) as [(s' & rows & _ & Ht & Hc & Hr)|H].
  - intros s s' Hs. apply TransformFacts.insert_fact_transactions_Ok in Hs.
    destruct Hs as (? & ? & ? & ? & _ & _ & _ & _ & ->). discriminate.
  - left. exists rows. unfold load_fact_transactions. rewrite Hc. auto.
  - now right.
Qed.

Lemma load_fact_sentiment_outcome (t : Transformer) :
  (exists rows,
      fact_sentiment (conn (load_fact_sentiment E t)) = Some rows
      /\ report (load_fact_sentiment E t)
         = report t ++ [Loaded "fact_sentiment" (List.length rows)])
  \/ (exists e,
        insert_fact_sentiment E (conn t) = Raise e
        /\ conn (load_fact_sentiment E t) = conn t
        /\ report (load_fact_sentiment E t) = report t ++ [Failed "fact_sentiment" e]).
Proof.
  destruct (step_outcome "fact_sentiment" (insert_fact_sentiment E) fact_sentiment t)
    as [(s' & rows & _ & Ht & Hc & Hr)|H].
  - intros s s' Hs. apply TransformFacts.insert_fact_sentiment_Ok in Hs.
    destruct Hs as (? & ->). discriminate.
  - left. exists rows. unfold load_fact_sentiment. rewrite Hc. auto.
  - now right.
Qed.

Lemma load_customer_profile_outcome (t : Transformer) :
  (exists rows,
      customer_profile (conn (load_customer_profile E t)) = Some rows
      /\ report (load_customer_profile E t)
         = report t ++ [Loaded "customer_profile" (List.length rows)])
  \/ (exists e,
        insert_customer_profile E (conn t) = Raise e
        /\ conn (load_customer_profile E t) = conn t
        /\ report (load_customer_profile E t)
           = report t ++ [Failed "customer_profile" e]).
Proof.
  destruct (step_outcome "customer_profile" (insert_customer_profile E)
              customer_profile t) as [(s' & rows & _ & Ht & Hc & Hr)|H].
  - intros s s' Hs. apply TransformFacts.insert_customer_profile_Ok in Hs.
    destruct Hs as (? & ->). discriminate.
  - left. exists rows. unfold load_customer_profile. rewrite Hc. auto.
  - now right.
Qed.

End WithEngine.

End RunFacts.

(** X1.  A run reads the staging tables and never writes them, and after
    it the four target tables exist, whatever the store it started from. *)
Theorem X1_run_keeps_staging_and_creates_targets :
  forall (E : Engine) (t : Transformer),
    raw_customers (conn (transform_all E t)) = raw_customers (conn t)
    /\ raw_transactions (conn (transform_all E t)) = raw_transactions (conn t)
    /\ raw_sentiment (conn (transform_all E t)) = raw_sentiment (conn t)
    /\ dim_customers (conn (transform_all E t)) <> None
    /\ fact_transactions (conn (transform_all E t)) <> None
    /\ fact_sentiment (conn (transform_all E t)) <> None
    /\ customer_profile (conn (transform_all E t)) <> None.
Proof.
  intros E t. unfold transform_all.
  set (t0 := create_tables t).
  set (t1 := load_dim_customers E t0).
  set (t2 := load_fact_transactions E t1).
  set (t3 := load_fact_sentiment E t2).
  destruct (RunFacts.create_tables_exist t) as (D0 & F0 & S0 & P0). fold t0 in D0, F0, S0, P0.
  destruct (RunFacts.load_dim_customers_others E t0)
    as (C1 & T1 & R1 & F1 & S1 & P1 & D1). fold t1 in C1, T1, R1, F1, S1, P1, D1.
  destruct (RunFacts.load_fact_transactions_others E t1)
    as (C2 & T2 & R2 & D2 & S2 & P2 & F2). fold t2 in C2, T2, R2, D2, S2, P2, F2.
  destruct (RunFacts.load_fact_sentiment_others E t2)
    as (C3 & T3 & R3 & D3 & F3 & P3 & S3). fold t3 in C3, T3, R3, D3, F3, P3, S3.
  destruct (RunFacts.load_customer_profile_others E t3)
    as (C4 & T4 & R4 & D4 & F4 & S4 & P4).
  rewrite C4, T4, R4, D4, F4, S4, C3, T3, R3, D3, F3, C2, T2, R2, D2, C1, T1, R1.
  repeat split.
  - auto.
  - apply F2. rewrite F1. exact F0.
  - apply S3. rewrite S2, S1. exact S0.
  - apply P4. rewrite P3, P2, P1. exact P0.
Qed.

(** X2.  A run never stops early: its report is the report it started
    with, then [Tables created], then one entry for each of the four load
    steps in their order.  An entry of a step that loaded gives the number
    of rows which the step's table holds at the end of the run.  An entry
    of a step that failed carries the error which the step's statement
    raised on the store it found, and at the end of the run the step's
    table is as [create_tables] left it. *)
Theorem X2_run_reports_every_step :
  forall (E : Engine) (t : Transformer),
    let t0 := create_tables t in
    let t1 := load_dim_customers E t0 in
    let t2 := load_fact_transactions E t1 in
    let t3 := load_fact_sentiment E t2 in
    let final := conn (transform_all E t) in
    exists l1 l2 l3 l4,
      report (transform_all E t) = report t ++ [TablesCreated; l1; l2; l3; l4]
      /\ ((exists rows, dim_customers final = Some rows
                        /\ l1 = Loaded "dim_customers" (List.length rows))
          \/ (exists e, insert_dim_customers E (conn t0) = Raise e
                        /\ l1 = Failed "dim_customers" e
                        /\ dim_customers final
                           = create_if_not_exists (dim_customers (conn t))))
      /\ ((exists rows, fact_transactions final = Some rows
                        /\ l2 = Loaded "fact_transactions" (List.length rows))
          \/ (exists e, insert_fact_transactions E (conn t1) = Raise e
                        /\ l2 = Failed "fact_transactions" e
                        /\ fact_transactions final
                           = create_if_not_exists (fact_transactions (conn t))))
      /\ ((exists rows, fact_sentiment final = Some rows
                        /\ l3 = Loaded "fact_sentiment" (List.length rows))
          \/ (exists e, insert_fact_sentiment E (conn t2) = Raise e
                        /\ l3 = Failed "fact_sentiment" e
                        /\ fact_sentiment final
                           = create_if_not_exists (fact_sentiment (conn t))))
      /\ ((exists rows, customer_profile final = Some rows
                        /\ l4 = Loaded "customer_profile" (List.length rows))
          \/ (exists e, insert_customer_profile E (conn t3) = Raise e
                        /\ l4 = Failed "customer_profile" e
                        /\ customer_profile final
                           = create_if_not_exists (customer_profile (conn t)))).
Proof.
  intros E t t0 t1 t2 t3 final. subst final. unfold transform_all.
  fold t0. fold t1. fold t2. fold t3.
  set (t4 := load_customer_profile E t3).
  destruct (RunFacts.load_dim_customers_others E t0)
    as (_ & _ & _ & F1 & S1 & P1 & _). fold t1 in F1, S1, P1.
  destruct (RunFacts.load_fact_transactions_others E t1)
    as (_ & _ & _ & D2 & S2 & P2 & _). fold t2 in D2, S2, P2.
  destruct (RunFacts.load_fact_sentiment_others E t2)
    as (_ & _ & _ & D3 & F3 & P3 & _). fold t3 in D3, F3, P3.
  destruct (RunFacts.load_customer_profile_others E t3)
    as (_ & _ & _ & D4 & F4 & S4 & _). fold t4 in D4, F4, S4.
  assert (H1 : exists l, report t1 = report t0 ++ [l]
             /\ ((exists rows, dim_customers (conn t4) = Some rows
                               /\ l = Loaded "dim_customers" (List.length rows))
                 \/ (exists e, insert_dim_customers E (conn t0) = Raise e
                               /\ l = Failed "dim_customers" e
                               /\ dim_customers (conn t4)
                                  = create_if_not_exists (dim_customers (conn t))))).
  { rewrite D4, D3, D2.
    destruct (RunFacts.load_dim_customers_outcome E t0)
      as [(rows & Ht & Hr)|(e & He & Hc & Hr)].
    - eexists. split; [exact Hr|]. left. eauto.
    - fold t1 in Hc. eexists. split; [exact Hr|]. right.
      exists e. rewrite Hc. auto. }
  assert (H2 : exists l, report t2 = report t1 ++ [l]
             /\ ((exists rows, fact_transactions (conn t4) = Some rows
                               /\ l = Loaded "fact_transactions" (List.length rows))
                 \/ (exists e, insert_fact_transactions E (conn t1) = Raise e
                               /\ l = Failed "fact_transactions" e
                               /\ fact_transactions (conn t4)
                                  = create_if_not_exists (fact_transactions (conn t))))).
  { rewrite F4, F3.
    destruct (RunFacts.load_fact_transactions_outcome E t1)
      as [(rows & Ht & Hr)|(e & He & Hc & Hr)].
    - eexists. split; [exact Hr|]. left. eauto.
    - fold t2 in Hc. eexists. split; [exact Hr|]. right.
      exists e. rewrite Hc, F1. auto. }
  assert (H3 : exists l, report t3 = report t2 ++ [l]
             /\ ((exists rows, fact_sentiment (conn t4) = Some rows
                               /\ l = Loaded "fact_sentiment" (List.length rows))
                 \/ (exists e, insert_fact_sentiment E (conn t2) = Raise e
                               /\ l = Failed "fact_sentiment" e
                               /\ fact_sentiment (conn t4)
                                  = create_if_not_exists (fact_sentiment (conn t))))).
  { rewrite S4.
    destruct (RunFacts.load_fact_sentiment_outcome E t2)
      as [(rows & Ht & Hr)|(e & He & Hc & Hr)].
    - eexists. split; [exact Hr|]. left. eauto.
    - fold t3 in Hc. eexists. split; [exact Hr|]. right.
      exists e. rewrite Hc, S2, S1. auto. }
  assert (H4 : exists l, report t4 = report t3 ++ [l]
             /\ ((exists rows, customer_profile (conn t4) = Some rows
                               /\ l = Loaded "customer_profile" (List.length rows))
                 \/ (exists e, insert_customer_profile E (conn t3) = Raise e
                               /\ l = Failed "customer_profile" e
                               /\ customer_profile (conn t4)
                                  = create_if_not_exists (customer_profile (conn t))))).
  { destruct (RunFacts.load_customer_profile_outcome E t3)
      as [(rows & Ht & Hr)|(e & He & Hc & Hr)].
    - eexists. split; [exact Hr|]. left. eauto.
    - fold t4 in Hc. eexists. split; [exact Hr|]. right.
      exists e. rewrite Hc, P3, P2, P1. auto. }
  destruct H1 as (l1 & R1 & K1), H2 as (l2 & R2 & K2),
           H3 as (l3 & R3 & K3), H4 as (l4 & R4 & K4).
  exists l1, l2, l3, l4. split; [|auto].
  rewrite R4, R3, R2, R1. subst t0. simpl.
  rewrite <- !app_assoc. reflexivity.
Qed.

(* ===================================================================== *)
(** * When a load succeeds, and what the loaded tables satisfy            *)
(* ===================================================================== *)

Module LoadFacts.

Lemma forallb_over_map {A B} (p : B -> bool) (f : A -> B) (l : list A) :
  forallb p (map f l) = forallb (fun x => p (f x)) l.
Proof.
  induction l as [|x l IH]; simpl; [reflexivity|]. now rewrite IH.
Qed.

(** Everything an accepted insert into [dim_customers] has checked. *)
Lemma insert_dim_checks (existing new rows : list DimCustomers.row) :
  Insert.dim_customers existing new = Ok rows ->
  rows = existing ++ new
  /\ (forall d, In d new ->
        DimCustomers.customer_id d <> None
        /\ DimCustomers.name d <> None
        /\ Insert.age_check d = true)
  /\ NoDup (map DimCustomers.customer_id (existing ++ new)).
Proof.
  unfold Insert.dim_customers, Insert.not_null.
  destruct (forallb (fun r => negb (is_null (DimCustomers.customer_id r))) new) eqn:Hk;
    simpl; [|discriminate].
  destruct (forallb (fun r => negb (is_null (DimCustomers.name r))) new) eqn:Hn;
    simpl; [|discriminate].
  destruct (forallb Insert.age_check new) eqn:Ha; simpl; [|discriminate].
  destruct (Insert.unique_keys _) eqn:Hu; simpl; [|discriminate].
  intro H. injection H as <-.
  rewrite forallb_forall in Hk, Hn, Ha.
  split; [reflexivity|]. split; [|now apply SqlFacts.unique_keys_NoDup].
  intros d Hd. specialize (Hk d Hd). specialize (Hn d Hd).
  repeat split; auto.
  - now destruct (DimCustomers.customer_id d).
  - now destruct (DimCustomers.name d).
Qed.

(** Everything an accepted insert into [fact_transactions] has checked. *)
Lemma insert_fact_checks (dim : list DimCustomers.row)
  (existing new rows : list FactTransactions.row) :
  Insert.fact_transactions dim existing new = Ok rows ->
  rows = existing ++ new
  /\ (forall f, In f new ->
        FactTransactions.transaction_id f <> None
        /\ FactTransactions.customer_id f <> None
        /\ FactTransactions.transaction_date f <> None
        /\ FactTransactions.amount_eur f <> None
        /\ FactTransactions.category f <> None)
  /\ NoDup (map FactTransactions.transaction_id (existing ++ new)).
Proof.
  unfold Insert.fact_transactions, Insert.not_null.
  destruct (forallb (fun r => negb (is_null (FactTransactions.transaction_id r))) new)
    eqn:H1; simpl; [|discriminate].
  destruct (forallb (fun r => negb (is_null (FactTransactions.customer_id r))) new)
    eqn:H2; simpl; [|discriminate].
  destruct (forallb (fun r => negb (is_null (FactTransactions.transaction_date r))) new)
    eqn:H3; simpl; [|discriminate].
  destruct (forallb (fun r => negb (is_null (FactTransactions.amount_eur r))) new)
    eqn:H4; simpl; [|discriminate].
  destruct (forallb (fun r => negb (is_null (FactTransactions.category r))) new)
    eqn:H5; simpl; [|discriminate].
  destruct (Insert.unique_keys _) eqn:Hu; simpl; [|discriminate].
  destruct (forallb (Insert.references dim) new); simpl; [|discriminate].
  intro H. injection H as <-.
  rewrite forallb_forall in H1, H2, H3, H4, H5.
  split; [reflexivity|]. split; [|now apply SqlFacts.unique_keys_NoDup].
  intros f Hf.
  specialize (H1 f Hf). specialize (H2 f Hf). specialize (H3 f Hf).
  specialize (H4 f Hf). specialize (H5 f Hf).
  repeat split.
  - now destruct (FactTransactions.transaction_id f).
  - now destruct (FactTransactions.customer_id f).
  - now destruct (FactTransactions.transaction_date f).
  - now destruct (FactTransactions.amount_eur f).
  - now destruct (FactTransactions.category f).
Qed.

End LoadFacts.



(** X4.  After a run on empty targets the rows of [dim_customers] satisfy
    the constraints that [CREATE_DIM_CUSTOMERS] declares: their
    [customer_id]s are pairwise different and not NULL, [name] is not NULL,
    and an age that is not NULL lies in 0..150. *)
Theorem X4_customers_satisfy_the_table_constraints :
  forall (E : Engine) (t : Transformer) (dim : list DimCustomers.row),
    targets_empty (conn t) = true ->
    dim_customers (conn (transform_all E t)) = Some dim ->
    NoDup (map DimCustomers.customer_id dim)
    /\ forall d, In d dim ->
         DimCustomers.customer_id d <> None
         /\ DimCustomers.name d <> None
         /\ forall a, DimCustomers.age d = Some a -> 0 <= a <= 150.
Proof.
  intros E t dim Hempty Hdim.
  destruct (TransformFacts.transform_all_tables E t Hempty)
    as (dim' & facts & Hd & _ & Hshape & _).
  rewrite Hdim in Hd. injection Hd as <-.
  destruct Hshape as [->|(staged & _ & _ & Hins)].
  - split; [constructor | contradiction].
  - apply LoadFacts.insert_dim_checks in Hins. destruct Hins as (_ & Hrows & Hnd).
    split; [exact Hnd|].
    intros d Hd. destruct (Hrows d Hd) as (Hk & Hn & Ha).
    split; [exact Hk|]. split; [exact Hn|].
    intros a Hage. unfold Insert.age_check in Ha. rewrite Hage in Ha.
    apply andb_true_iff in Ha. rewrite !Z.leb_le in Ha. exact Ha.
Qed.

Lemma X4_witness :
  targets_empty Fixture.full_staging = true
  /\ dim_customers (Fixture.run Fixture.full_staging)
     = Some [select_customer Fixture.engine Fixture.cust1_early;
             select_customer Fixture.engine Fixture.cust2]
  /\ NoDup [Some "CUST-0001"; Some "CUST-0002"]
  /\ DimCustomers.age (select_customer Fixture.engine Fixture.cust1_early) = Some 34
  /\ 0 <= 34 <= 150.
Proof.
  assert (Hd : dim_customers
                 (conn (transform_all Fixture.engine (Fixture.fresh Fixture.full_staging)))
               = Some [select_customer Fixture.engine Fixture.cust1_early;
                       select_customer Fixture.engine Fixture.cust2])
    by (vm_compute; reflexivity).
  destruct (X4_customers_satisfy_the_table_constraints Fixture.engine
              (Fixture.fresh Fixture.full_staging) _ eq_refl Hd) as (Hnd & Hall).
  split; [reflexivity|]. split; [exact Hd|]. split; [exact Hnd|].
  split; [reflexivity|].
  apply (Hall (select_customer Fixture.engine Fixture.cust1_early)).
  - simpl. auto.
  - reflexivity.
Defined.

(** X5.  On empty targets the transaction load is all or nothing as well:
    [fact_transactions] receives the cleaned form of every representative
    that passes the filter when none of these has a NULL category, and no
    row at all when one of them has. *)
Theorem X5_transaction_load_is_all_or_nothing :
  forall (E : Engine) (t : Transformer) (dim : list DimCustomers.row)
         (staged : list RawTransactions.row),
    targets_empty (conn t) = true ->
    dim_customers (conn (transform_all E t)) = Some dim ->
    raw_transactions (conn t) = Some staged ->
    fact_transactions (conn (transform_all E t))
    = Some (if forallb (fun r => negb (is_null (RawTransactions.category r)))
                 (filter (fun r => holds (transaction_where E
                                            (map DimCustomers.customer_id dim) r))
                         (deduped_transactions staged))
            then selected_transactions E dim staged
            else []).
Proof.
  intros E t dim staged Hempty Hdim Hst.
  destruct (TransformFacts.transform_all_tables E t Hempty)
    as (dim' & facts & Hd & Hf & _ & _ & Hshape & Hok).
  rewrite Hdim in Hd. injection Hd as <-.
  rewrite Hf. f_equal.
  destruct (forallb _ (filter _ (deduped_transactions staged))) eqn:Hcat.
  - apply (Hok staged Hst). apply FactFacts.insert_selected.
    intros r Hr Hw. rewrite forallb_forall in Hcat.
    assert (Hc := Hcat r (proj2 (filter_In _ _ _) (conj Hr Hw))).
    now destruct (RawTransactions.category r).
  - destruct Hshape as [->|(staged' & Hst' & -> & Hins)]; [reflexivity|].
    rewrite Hst in Hst'. injection Hst' as <-.
    apply LoadFacts.insert_fact_checks in Hins. destruct Hins as (_ & Hrows & _).
    exfalso.
    assert (Hall : forallb (fun r => negb (is_null (RawTransactions.category r)))
                     (filter (fun r => holds (transaction_where E
                                                (map DimCustomers.customer_id dim) r))
                             (deduped_transactions staged)) = true).
    { apply forallb_forall. intros r Hr.
      assert (Hin : In (select_transaction E r) (selected_transactions E dim staged))
        by (unfold selected_transactions; now apply in_map).
      destruct (Hrows _ Hin) as (_ & _ & _ & _ & Hc). simpl in Hc.
      now destruct (RawTransactions.category r). }
    congruence.
Qed.

Lemma X5_witness :
  targets_empty Fixture.full_staging = true
  /\ dim_customers (Fixture.run Fixture.full_staging)
     = Some [select_customer Fixture.engine Fixture.cust1_early;
             select_customer Fixture.engine Fixture.cust2]
  /\ raw_transactions Fixture.full_staging
     = Some [Fixture.txn_second_copy; Fixture.txn_later; Fixture.txn_first_copy;
             Fixture.txn_unknown_customer]
  /\ fact_transactions (Fixture.run Fixture.full_staging)
     = Some [select_transaction Fixture.engine Fixture.txn_first_copy;
             select_transaction Fixture.engine Fixture.txn_later].
Proof.
  assert (Hd : dim_customers
                 (conn (transform_all Fixture.engine (Fixture.fresh Fixture.full_staging)))
               = Some [select_customer Fixture.engine Fixture.cust1_early;
                       select_customer Fixture.engine Fixture.cust2])
    by (vm_compute; reflexivity).
  split; [reflexivity|]. split; [exact Hd|]. split; [reflexivity|].
  unfold Fixture.run.
  rewrite (X5_transaction_load_is_all_or_nothing Fixture.engine
             (Fixture.fresh Fixture.full_staging) _ _ eq_refl Hd eq_refl).
  vm_compute. reflexivity.
Defined.

(** X6.  After a run on empty targets the rows of [fact_transactions] have
    pairwise different [transaction_id]s and every one of them meets
    [TransactionContract]: the identifiers, the date, the amount and the
    category are present and the amount lies in -1000..50000. *)
Theorem X6_transactions_meet_their_contract :
  forall (E : Engine) (t : Transformer) (facts : list FactTransactions.row),
    targets_empty (conn t) = true ->
    fact_transactions (conn (transform_all E t)) = Some facts ->
    NoDup (map FactTransactions.transaction_id facts)
    /\ forall f, In f facts -> Contract.TransactionContract f = true.
Proof.
  intros E t facts Hempty Hfacts.
  destruct (TransformFacts.transform_all_tables E t Hempty)
    as (dim & facts' & _ & Hf & _ & _ & Hshape & _).
  rewrite Hfacts in Hf. injection Hf as <-.
  destruct Hshape as [->|(staged & _ & Hsel & Hins)].
  - split; [constructor | contradiction].
  - apply LoadFacts.insert_fact_checks in Hins. destruct Hins as (_ & Hrows & Hnd).
    split; [exact Hnd|].
    intros f Hf. destruct (Hrows f Hf) as (H1 & H2 & H3 & H4 & H5).
    rewrite Hsel in Hf. apply FactFacts.selected_In in Hf.
    destruct Hf as (r & Hr & _ & Hw).
    apply FactFacts.transaction_where_holds in Hw.
    destruct Hw as (_ & a & Ha & Hrange).
    apply (FactFacts.select_amount E) in Ha. rewrite Hr in Ha.
    unfold Contract.TransactionContract, Contract.required, Contract.within.
    rewrite Ha.
    destruct (FactTransactions.transaction_id f); [|contradiction].
    destruct (FactTransactions.customer_id f); [|contradiction].
    destruct (FactTransactions.transaction_date f); [|contradiction].
    destruct (FactTransactions.category f); [|contradiction].
    simpl.
    assert (Hlo : (-100000 <=? a) = true) by (apply Z.leb_le; lia).
    assert (Hhi : (a <=? 5000000) = true) by (apply Z.leb_le; lia).
    now rewrite Hlo, Hhi.
Qed.

Lemma X6_witness :
  targets_empty Fixture.full_staging = true
  /\ fact_transactions (Fixture.run Fixture.full_staging)
     = Some [select_transaction Fixture.engine Fixture.txn_first_copy;
             select_transaction Fixture.engine Fixture.txn_later]
  /\ NoDup [Some "TXN-000010"; Some "TXN-000011"]
  /\ Contract.TransactionContract
       (select_transaction Fixture.engine Fixture.txn_later) = true.
Proof.
  assert (Hf : fact_transactions
                 (conn (transform_all Fixture.engine (Fixture.fresh Fixture.full_staging)))
               = Some [select_transaction Fixture.engine Fixture.txn_first_copy;
                       select_transaction Fixture.engine Fixture.txn_later])
    by (vm_compute; reflexivity).
  destruct (X6_transactions_meet_their_contract Fixture.engine
              (Fixture.fresh Fixture.full_staging) _ eq_refl Hf) as (Hnd & Hall).
  split; [reflexivity|]. split; [exact Hf|]. split; [exact Hnd|].
  apply Hall. simpl. auto.
Defined.

(* ===================================================================== *)
(** * The order of the staging rows                                       *)
(* ===================================================================== *)

Module OrderFacts.
Import Dedup.

Section Generic.

Variable R : Type.
Variable key : R -> option string.
Variable tie_leb : R -> R -> bool.

Hypothesis tie_total : forall a b, tie_leb a b = true \/ tie_leb b a = true.
Hypothesis tie_trans :
  forall a b c, tie_leb a b = true -> tie_leb b c = true -> tie_leb a c = true.

Lemma insert_sorted_perm (r : R) (l : list R) :
  Permutation (insert_sorted key tie_leb r l) (r :: l).
Proof.
  induction l as [|y l IH]; simpl; [reflexivity|].
  destruct (row_leb key tie_leb r y); [reflexivity|].
  rewrite IH. apply perm_swap.
Qed.

Lemma order_by_perm (l : list R) : Permutation (order_by key tie_leb l) l.
Proof.
  unfold order_by. induction l as [|y l IH]; simpl; [reflexivity|].
  rewrite insert_sorted_perm. now constructor.
Qed.

Lemma filter_perm (p : R -> bool) (l l' : list R) :
  Permutation l l' -> Permutation (filter p l) (filter p l').
Proof.
  induction 1 as [|x l l' _ IH|x y l|l l' l'' _ IH1 _ IH2]; simpl.
  - reflexivity.
  - destruct (p x); [now constructor | exact IH].
  - destruct (p x), (p y); try reflexivity. apply perm_swap.
  - now transitivity (filter p l').
Qed.

(** Two rows that precede each other agree on the key and tie. *)
Lemma row_leb_both (a b : R) :
  row_leb key tie_leb a b = true -> row_leb key tie_leb b a = true ->
  key a = key b /\ tie_leb a b = true /\ tie_leb b a = true.
Proof.
  rewrite !DedupFacts.row_leb_cases.
  intros [Hab|(Hk & Hab)] [Hba|(Hk' & Hba)].
  - pose proof (DedupFacts.key_ltb_trans _ _ _ Hab Hba) as H.
    rewrite DedupFacts.key_ltb_irrefl in H. discriminate.
  - rewrite Hk', DedupFacts.key_ltb_irrefl in Hab. discriminate.
  - rewrite Hk, DedupFacts.key_ltb_irrefl in Hba. discriminate.
  - auto.
Qed.

(** Where no two rows tie, a table has one sorted arrangement only. *)
Lemma sorted_arrangement_unique (l1 l2 : list R) :
  (forall a b, In a l1 -> In b l1 ->
     row_leb key tie_leb a b = true -> row_leb key tie_leb b a = true -> a = b) ->
  StronglySorted (row_le key tie_leb) l1 ->
  StronglySorted (row_le key tie_leb) l2 ->
  Permutation l1 l2 -> l1 = l2.
Proof.
  revert l2. induction l1 as [|x l1 IH]; intros l2 Hanti Hs1 Hs2 Hp.
  - now apply Permutation_nil in Hp.
  - destruct l2 as [|y l2].
    + symmetry in Hp. apply Permutation_nil in Hp. discriminate.
    + inversion Hs1 as [|? ? Hs1' Hall1]; subst.
      inversion Hs2 as [|? ? Hs2' Hall2]; subst.
      rewrite Forall_forall in Hall1, Hall2.
      assert (Hxy : x = y).
      { assert (Hy : In y (x :: l1))
          by (apply Permutation_in with (y :: l2); [now symmetry | now left]).
        assert (Hx : In x (y :: l2))
          by (apply Permutation_in with (x :: l1); [exact Hp | now left]).
        destruct Hy as [Hy|Hy]; [exact Hy|].
        destruct Hx as [Hx|Hx]; [now symmetry|].
        apply Hanti; [now left | now right | exact (Hall1 _ Hy) | exact (Hall2 _ Hx)]. }
      subst y. f_equal.
      apply IH; auto.
      * intros a b Ha Hb. apply Hanti; now right.
      * now apply Permutation_cons_inv with x.
Qed.

(** The deduplication of a table whose rows never tie does not depend on
    the order in which the table is read. *)
Lemma deduped_any_order (l l' : list R) :
  (forall a b, In a l -> In b l ->
     key a = key b -> tie_leb a b = true -> tie_leb b a = true -> a = b) ->
  Permutation l l' ->
  deduped key tie_leb l' = deduped key tie_leb l.
Proof.
  intros Hanti Hp. unfold deduped. f_equal.
  apply sorted_arrangement_unique.
  - intros a b Ha Hb Hab Hba.
    destruct (row_leb_both a b Hab Hba) as (Hk & H1 & H2).
    apply Hanti; auto.
    + apply Permutation_in with l'; [now symmetry|].
      apply (Permutation_in _ (order_by_perm _)) in Ha.
      now apply filter_In in Ha.
    + apply Permutation_in with l'; [now symmetry|].
      apply (Permutation_in _ (order_by_perm _)) in Hb.
      now apply filter_In in Hb.
  - now apply DedupFacts.order_by_sorted.
  - now apply DedupFacts.order_by_sorted.
  - rewrite !order_by_perm. apply filter_perm. now symmetry.
Qed.

End Generic.

(** Rows of a table with a primary key are told apart by the key. *)
Lemma same_row_id (l : list RawTransactions.row) (a b : RawTransactions.row) :
  NoDup (map RawTransactions._row_id l) -> In a l -> In b l ->
  RawTransactions._row_id a = RawTransactions._row_id b -> a = b.
Proof.
  induction l as [|x l IH]; simpl; intros Hnd Ha Hb Hid; [contradiction|].
  apply NoDup_cons_iff in Hnd. destruct Hnd as (Hx & Hnd).
  destruct Ha as [->|Ha], Hb as [->|Hb]; auto.
  - exfalso. apply Hx. rewrite Hid. now apply in_map.
  - exfalso. apply Hx. rewrite <- Hid. now apply in_map.
Qed.

End OrderFacts.

(** X7.  Transaction deduplication keeps staging rows with a non-null
    [transaction_id] only, one for every such identifier, and for each
    identifier the row with the smallest [_row_id]. *)
Theorem X7_transaction_dedup_keeps_first_row :
  forall staged : list RawTransactions.row,
    (forall x, In x (deduped_transactions staged) ->
       In x staged /\ RawTransactions.transaction_id x <> None)
    /\ NoDup (map RawTransactions.transaction_id (deduped_transactions staged))
    /\ (forall r, In r staged -> RawTransactions.transaction_id r <> None ->
          exists kept, In kept (deduped_transactions staged)
                       /\ RawTransactions.transaction_id kept
                          = RawTransactions.transaction_id r)
    /\ (forall kept r, In kept (deduped_transactions staged) -> In r staged ->
          RawTransactions.transaction_id r = RawTransactions.transaction_id kept ->
          RawTransactions._row_id kept <= RawTransactions._row_id r).
Proof.
  intro staged. unfold deduped_transactions.
  split; [intros x Hx; eapply DedupFacts.deduped_In; eauto|].
  split; [apply DedupFacts.deduped_keys|].
  split; [intros r Hr Hk; now apply DedupFacts.deduped_covers|].
  intros kept r Hkept Hr Hk.
  apply Z.leb_le.
  exact (DedupFacts.deduped_first _ _ _ transactions_tie_total transactions_tie_trans
           staged kept r Hkept Hr Hk).
Qed.

Lemma X7_witness :
  In Fixture.txn_first_copy
     (deduped_transactions [Fixture.txn_second_copy; Fixture.txn_later;
                            Fixture.txn_first_copy])
  /\ In Fixture.txn_second_copy
        [Fixture.txn_second_copy; Fixture.txn_later; Fixture.txn_first_copy]
  /\ RawTransactions.transaction_id Fixture.txn_second_copy
     = RawTransactions.transaction_id Fixture.txn_first_copy
  /\ RawTransactions._row_id Fixture.txn_first_copy
     <= RawTransactions._row_id Fixture.txn_second_copy.
Proof.
  assert (Hk : In Fixture.txn_first_copy
                 (deduped_transactions [Fixture.txn_second_copy; Fixture.txn_later;
                                        Fixture.txn_first_copy]))
    by (vm_compute; auto).
  assert (Hr : In Fixture.txn_second_copy
                 [Fixture.txn_second_copy; Fixture.txn_later; Fixture.txn_first_copy])
    by (simpl; auto).
  split; [exact Hk|]. split; [exact Hr|]. split; [reflexivity|].
  exact (proj2 (proj2 (proj2 (X7_transaction_dedup_keeps_first_row
           [Fixture.txn_second_copy; Fixture.txn_later; Fixture.txn_first_copy])))
           _ _ Hk Hr eq_refl).
Defined.

(** X8.  When the [_row_id]s of the staging transactions are pairwise
    different (they are the primary key of [raw_transactions]), the
    deduplicated transactions do not depend on the order in which the
    staging table is read. *)
Theorem X8_transaction_dedup_ignores_table_order :
  forall staged staged' : list RawTransactions.row,
    NoDup (map RawTransactions._row_id staged) ->
    Permutation staged staged' ->
    deduped_transactions staged' = deduped_transactions staged.
Proof.
  intros staged staged' Hnd Hp. unfold deduped_transactions.
  apply OrderFacts.deduped_any_order;
    [apply transactions_tie_total | apply transactions_tie_trans | | exact Hp].
  intros a b Ha Hb _ Hab Hba.
  apply (OrderFacts.same_row_id staged); auto.
  unfold transactions_tie in Hab, Hba. rewrite Z.leb_le in Hab, Hba. lia.
Qed.

Lemma X8_witness :
  NoDup (map RawTransactions._row_id
             [Fixture.txn_second_copy; Fixture.txn_later; Fixture.txn_first_copy])
  /\ Permutation [Fixture.txn_second_copy; Fixture.txn_later; Fixture.txn_first_copy]
                 [Fixture.txn_first_copy; Fixture.txn_second_copy; Fixture.txn_later]
  /\ deduped_transactions
       [Fixture.txn_first_copy; Fixture.txn_second_copy; Fixture.txn_later]
     = deduped_transactions
         [Fixture.txn_second_copy; Fixture.txn_later; Fixture.txn_first_copy].
Proof.
  assert (Hnd : NoDup (map RawTransactions._row_id
                   [Fixture.txn_second_copy; Fixture.txn_later; Fixture.txn_first_copy])).
  { simpl. repeat constructor; simpl; intuition discriminate. }
  assert (Hp : Permutation
                 [Fixture.txn_second_copy; Fixture.txn_later; Fixture.txn_first_copy]
                 [Fixture.txn_first_copy; Fixture.txn_second_copy; Fixture.txn_later]).
  { apply Permutation_sym. apply (Permutation_cons_app
      [Fixture.txn_second_copy; Fixture.txn_later] [] Fixture.txn_first_copy).
    rewrite app_nil_r. reflexivity. }
  split; [exact Hnd|]. split; [exact Hp|].
  exact (X8_transaction_dedup_ignores_table_order _ _ Hnd Hp).
Defined.

(* ===================================================================== *)
(** * The whole store after a run                                         *)
(* ===================================================================== *)

Module StoreFacts.

Lemma set_dim_customers_same (s : Store) (d : list DimCustomers.row) :
  dim_customers s = Some d -> set_dim_customers s d = s.
Proof. destruct s; simpl; intros ->; reflexivity. Qed.

Lemma set_fact_transactions_same (s : Store) (d : list FactTransactions.row) :
  fact_transactions s = Some d -> set_fact_transactions s d = s.
Proof. destruct s; simpl; intros ->; reflexivity. Qed.

Lemma set_fact_sentiment_same (s : Store) (d : list FactSentiment.row) :
  fact_sentiment s = Some d -> set_fact_sentiment s d = s.
Proof. destruct s; simpl; intros ->; reflexivity. Qed.

Lemma set_customer_profile_same (s : Store) (d : list CustomerProfile.row) :
  customer_profile s = Some d -> set_customer_profile s d = s.
Proof. destruct s; simpl; intros ->; reflexivity. Qed.

Lemma insert_sentiment_checks (existing new rows : list FactSentiment.row) :
  Insert.fact_sentiment existing new = Ok rows ->
  rows = existing ++ new
  /\ NoDup (map FactSentiment.post_id (existing ++ new)).
Proof.
  unfold Insert.fact_sentiment.
  destruct (Insert.not_null FactSentiment.post_id new); simpl; [|discriminate].
  destruct (Insert.unique_keys _) eqn:Hu; simpl; [|discriminate].
  intro H. injection H as <-. split; [reflexivity|].
  now apply SqlFacts.unique_keys_NoDup.
Qed.

Lemma insert_profile_checks (existing new rows : list CustomerProfile.row) :
  Insert.customer_profile existing new = Ok rows ->
  rows = existing ++ new
  /\ forallb Insert.profile_fits new = true
  /\ Insert.not_null CustomerProfile.customer_id new = true
  /\ NoDup (map CustomerProfile.customer_id (existing ++ new)).
Proof.
  unfold Insert.customer_profile.
  destruct (forallb Insert.profile_fits new); simpl; [|discriminate].
  destruct (Insert.not_null CustomerProfile.customer_id new); simpl; [|discriminate].
  destruct (Insert.unique_keys _) eqn:Hu; simpl; [|discriminate].
  intro H. injection H as <-. repeat split.
  now apply SqlFacts.unique_keys_NoDup.
Qed.

(** A list that can follow itself without a repetition is empty. *)
Lemma NoDup_twice {A} (l : list A) : NoDup (l ++ l) -> l = [].
Proof.
  destruct l as [|x l]; [reflexivity|]. simpl. intro H.
  apply NoDup_cons_iff in H. destruct H as (Hx & _).
  exfalso. apply Hx. apply in_or_app. right. now left.
Qed.

Lemma map_nil_inv {A B} (f : A -> B) (l : list A) : map f l = [] -> l = [].
Proof. destruct l; [reflexivity | discriminate]. Qed.

Section WithEngine.

Variable E : Engine.

(** The rows of [deduped] all pass [WHERE id IS NOT NULL]. *)
Lemma sentiment_filter_all (staged : list RawSentiment.row) :
  filter (fun r => holds (is_not_null (RawSentiment.id r))) (deduped_sentiment staged)
  = deduped_sentiment staged.
Proof.
  apply DedupFacts.filter_id. intros r Hr.
  apply DedupFacts.deduped_In in Hr. destruct Hr as (_ & Hk).
  now destruct (RawSentiment.id r).
Qed.

(** On an empty [fact_sentiment] the insert accepts the cleaned
    representatives. *)
Lemma insert_posts (staged : list RawSentiment.row) :
  Insert.fact_sentiment []
    (map (select_sentiment E)
         (filter (fun r => holds (is_not_null (RawSentiment.id r)))
                 (deduped_sentiment staged)))
  = Ok (map (select_sentiment E) (deduped_sentiment staged)).
Proof.
  rewrite sentiment_filter_all. unfold Insert.fact_sentiment, Insert.not_null.
  assert (Hk : forallb (fun r => negb (is_null (FactSentiment.post_id r)))
                 (map (select_sentiment E) (deduped_sentiment staged)) = true).
  { apply forallb_forall. intros d Hd. apply in_map_iff in Hd.
    destruct Hd as (x & <- & Hx). simpl.
    apply DedupFacts.deduped_In in Hx. now destruct (RawSentiment.id x). }
  assert (Hu : Insert.unique_keys
                 (map FactSentiment.post_id
                      ([] ++ map (select_sentiment E) (deduped_sentiment staged))) = true).
  { apply SqlFacts.unique_keys_NoDup. rewrite app_nil_l, map_map. simpl.
    apply DedupFacts.deduped_keys. }
  now rewrite Hk, Hu.
Qed.

Lemma load_dim_customers_store (t : Transformer) :
  dim_customers (conn t) = Some [] ->
  exists dim,
    conn (load_dim_customers E t) = set_dim_customers (conn t) dim
    /\ (dim = []
        \/ exists staged,
             raw_customers (conn t) = Some staged
             /\ dim = map (select_customer E) (deduped_customers staged)
             /\ Insert.dim_customers [] dim = Ok dim)
    /\ (forall staged,
          raw_customers (conn t) = Some staged ->
          Insert.dim_customers [] (map (select_customer E) (deduped_customers staged))
          = Ok (map (select_customer E) (deduped_customers staged)) ->
          dim = map (select_customer E) (deduped_customers staged)).
Proof.
  intro D0. unfold load_dim_customers.
  destruct (insert_dim_customers E (conn t)) as [s'|e] eqn:Hs.
  - pose proof Hs as Hs'. apply TransformFacts.insert_dim_customers_Ok in Hs'.
    destruct Hs' as (staged & target & rows & Hrc & Hdim & Hins & ->).
    rewrite D0 in Hdim. injection Hdim as <-.
    destruct (TransformFacts.insert_dim_Ok _ _ _ Hins) as (Hrows & _).
    simpl in Hrows. subst rows.
    erewrite TransformFacts.step_Ok; [|exact Hs|reflexivity].
    eexists. split; [reflexivity|]. split; [right; eauto|].
    intros staged' Hrc' _. congruence.
  - rewrite (TransformFacts.step_Raise _ _ _ _ _ Hs). exists [].
    split; [symmetry; now apply set_dim_customers_same|]. split; [now left|].
    intros staged Hrc Hins.
    rewrite (TransformFacts.insert_dim_customers_complete E _ _ _ _ Hrc D0 Hins) in Hs.
    discriminate.
Qed.

Lemma load_fact_transactions_store (t : Transformer) (dim : list DimCustomers.row) :
  dim_customers (conn t) = Some dim ->
  fact_transactions (conn t) = Some [] ->
  exists facts,
    conn (load_fact_transactions E t) = set_fact_transactions (conn t) facts
    /\ (facts = []
        \/ exists staged,
             raw_transactions (conn t) = Some staged
             /\ facts = selected_transactions E dim staged
             /\ Insert.fact_transactions dim [] facts = Ok facts)
    /\ (forall staged,
          raw_transactions (conn t) = Some staged ->
          Insert.fact_transactions dim [] (selected_transactions E dim staged)
          = Ok (selected_transactions E dim staged) ->
          facts = selected_transactions E dim staged).
Proof.
  intros D F. unfold load_fact_transactions.
  destruct (insert_fact_transactions E (conn t)) as [s'|e] eqn:Hs.
  - pose proof Hs as Hs'. apply TransformFacts.insert_fact_transactions_Ok in Hs'.
    destruct Hs' as (staged & dim' & target & rows & Hrt & Hd & Hf & Hins & ->).
    rewrite D in Hd. injection Hd as <-.
    rewrite F in Hf. injection Hf as <-.
    pose proof (TransformFacts.insert_fact_Ok _ _ _ _ Hins) as Hrows.
    simpl in Hrows. subst rows.
    erewrite TransformFacts.step_Ok; [|exact Hs|reflexivity].
    eexists. split; [reflexivity|]. split; [right; eauto|].
    intros staged' Hrt' _. congruence.
  - rewrite (TransformFacts.step_Raise _ _ _ _ _ Hs). exists [].
    split; [symmetry; now apply set_fact_transactions_same|]. split; [now left|].
    intros staged Hrt Hins.
    rewrite (TransformFacts.insert_fact_transactions_complete E _ _ _ _ _ Hrt D F Hins)
      in Hs.
    discriminate.
Qed.

(** The sentiment load on an empty target cannot fail for a reason other
    than a missing staging table. *)
Lemma load_fact_sentiment_store (t : Transformer) :
  fact_sentiment (conn t) = Some [] ->
  conn (load_fact_sentiment E t)
  = set_fact_sentiment (conn t)
      match raw_sentiment (conn t) with
      | Some staged => map (select_sentiment E) (deduped_sentiment staged)
      | None => []
      end.
Proof.
  intro S0. unfold load_fact_sentiment.
  destruct (raw_sentiment (conn t)) as [staged|] eqn:Hr.
  - apply TransformFacts.step_Ok
      with (rows := map (select_sentiment E) (deduped_sentiment staged));
      [|reflexivity].
    unfold insert_fact_sentiment, bind, scan_table.
    now rewrite Hr, S0, insert_posts.
  - rewrite (TransformFacts.step_Raise _ _ _ _ (CatalogError "raw_sentiment")).
    + symmetry. now apply set_fact_sentiment_same.
    + unfold insert_fact_sentiment, bind, scan_table. now rewrite Hr.
Qed.

Lemma load_customer_profile_store (t : Transformer)
  (dim : list DimCustomers.row) (facts : list FactTransactions.row) :
  dim_customers (conn t) = Some dim ->
  fact_transactions (conn t) = Some facts ->
  customer_profile (conn t) = Some [] ->
  exists profiles,
    conn (load_customer_profile E t) = set_customer_profile (conn t) profiles
    /\ (profiles = []
        \/ (profiles = customer_profile_query E dim facts
            /\ Insert.customer_profile [] profiles = Ok profiles))
    /\ (Insert.customer_profile [] (customer_profile_query E dim facts)
        = Ok (customer_profile_query E dim facts) ->
        profiles = customer_profile_query E dim facts).
Proof.
  intros D F P. unfold load_customer_profile.
  destruct (Insert.customer_profile [] (customer_profile_query E dim facts))
    as [rows|e] eqn:Hins.
  - destruct (insert_profile_checks _ _ _ Hins) as (Hrows & _).
    simpl in Hrows. subst rows.
    exists (customer_profile_query E dim facts).
    split; [|split; [right; auto | auto]].
    apply TransformFacts.step_Ok with (rows := customer_profile_query E dim facts);
      [|reflexivity].
    unfold insert_customer_profile, bind, scan_table.
    now rewrite D, F, P, Hins.
  - exists []. split; [|split; [now left | discriminate]].
    rewrite (TransformFacts.step_Raise _ _ _ _ e).
    + symmetry. now apply set_customer_profile_same.
    + unfold insert_customer_profile, bind, scan_table.
      now rewrite D, F, P, Hins.
Qed.

(** The store a run on empty targets ends in, table by table. *)
Lemma run_store (t : Transformer) :
  targets_empty (conn t) = true ->
  exists dim facts profiles,
    conn (transform_all E t)
    = {| raw_customers := raw_customers (conn t);
         raw_transactions := raw_transactions (conn t);
         raw_sentiment := raw_sentiment (conn t);
         dim_customers := Some dim;
         fact_transactions := Some facts;
         fact_sentiment :=
           Some match raw_sentiment (conn t) with
                | Some staged => map (select_sentiment E) (deduped_sentiment staged)
                | None => []
                end;
         customer_profile := Some profiles |}
    /\ (dim = []
        \/ exists staged,
             raw_customers (conn t) = Some staged
             /\ dim = map (select_customer E) (deduped_customers staged)
             /\ Insert.dim_customers [] dim = Ok dim)
    /\ (forall staged,
          raw_customers (conn t) = Some staged ->
          Insert.dim_customers [] (map (select_customer E) (deduped_customers staged))
          = Ok (map (select_customer E) (deduped_customers staged)) ->
          dim = map (select_customer E) (deduped_customers staged))
    /\ (facts = []
        \/ exists staged,
             raw_transactions (conn t) = Some staged
             /\ facts = selected_transactions E dim staged
             /\ Insert.fact_transactions dim [] facts = Ok facts)
    /\ (forall staged,
          raw_transactions (conn t) = Some staged ->
          Insert.fact_transactions dim [] (selected_transactions E dim staged)
          = Ok (selected_transactions E dim staged) ->
          facts = selected_transactions E dim staged)
    /\ (profiles = []
        \/ (profiles = customer_profile_query E dim facts
            /\ Insert.customer_profile [] profiles = Ok profiles))
    /\ (Insert.customer_profile [] (customer_profile_query E dim facts)
        = Ok (customer_profile_query E dim facts) ->
        profiles = customer_profile_query E dim facts).
Proof.
  intro Hempty. unfold transform_all.
  set (t0 := create_tables t).
  assert (H0 : conn t0
               = {| raw_customers := raw_customers (conn t);
                    raw_transactions := raw_transactions (conn t);
                    raw_sentiment := raw_sentiment (conn t);
                    dim_customers := Some [];
                    fact_transactions := Some [];
                    fact_sentiment := Some [];
                    customer_profile := Some [] |}).
  { unfold targets_empty, no_rows in Hempty. subst t0. simpl.
    destruct (dim_customers (conn t)) as [[|? ?]|];
      destruct (fact_transactions (conn t)) as [[|? ?]|];
      destruct (fact_sentiment (conn t)) as [[|? ?]|];
      destruct (customer_profile (conn t)) as [[|? ?]|];
      simpl in Hempty; try discriminate; reflexivity. }
  destruct (load_dim_customers_store t0) as (dim & C1 & Hd & Hd');
    [rewrite H0; reflexivity|].
  rewrite H0 in C1, Hd, Hd'. simpl in C1, Hd, Hd'.
  set (t1 := load_dim_customers E t0) in *.
  destruct (load_fact_transactions_store t1 dim) as (facts & C2 & Hf & Hf');
    [rewrite C1; reflexivity | rewrite C1; reflexivity |].
  rewrite C1 in C2, Hf, Hf'. simpl in C2, Hf, Hf'.
  set (t2 := load_fact_transactions E t1) in *.
  pose proof (load_fact_sentiment_store t2) as C3.
  rewrite C2 in C3. simpl in C3. specialize (C3 eq_refl).
  set (t3 := load_fact_sentiment E t2) in *.
  destruct (load_customer_profile_store t3 dim facts) as (profiles & C4 & Hp & Hp');
    [rewrite C3; reflexivity | rewrite C3; reflexivity | rewrite C3; reflexivity |].
  rewrite C3 in C4. simpl in C4.
  exists dim, facts, profiles.
  split; [exact C4|]. auto 10.
Qed.

End WithEngine.

End StoreFacts.

(* ===================================================================== *)
(** * A second run                                                        *)
(* ===================================================================== *)

Module RerunFacts.

Section TwoEngines.

(** The engine of the first run and the engine of the second, which read
    the same numbers. *)
Variable E1 E2 : Engine.
Hypothesis same : same_numbers E1 E2.

Lemma age_check_same (x : RawCustomers.row) :
  Insert.age_check (select_customer E2 x) = Insert.age_check (select_customer E1 x).
Proof.
  unfold Insert.age_check. simpl.
  destruct (RawCustomers.age x) as [s|]; simpl; [|reflexivity].
  now rewrite (proj1 same).
Qed.

Lemma transaction_where_same (ids : list (option string)) (r : RawTransactions.row) :
  transaction_where E2 ids r = transaction_where E1 ids r.
Proof.
  unfold transaction_where, amount_cast.
  destruct (RawTransactions.amount r) as [s|]; simpl; [|reflexivity].
  now rewrite (proj2 same).
Qed.

(** An insert of the representatives into the table that the first run
    has left leaves the table as it is. *)
Lemma dim_settled (rc : option (list RawCustomers.row))
  (staged : list RawCustomers.row) (dim rows : list DimCustomers.row) :
  (dim = []
   \/ exists st, rc = Some st
                 /\ dim = map (select_customer E1) (deduped_customers st)
                 /\ Insert.dim_customers [] dim = Ok dim) ->
  (forall st, rc = Some st ->
     Insert.dim_customers [] (map (select_customer E1) (deduped_customers st))
     = Ok (map (select_customer E1) (deduped_customers st)) ->
     dim = map (select_customer E1) (deduped_customers st)) ->
  rc = Some staged ->
  Insert.dim_customers dim (map (select_customer E2) (deduped_customers staged))
  = Ok rows ->
  rows = dim.
Proof.
  intros Hshape Hcompl Hrc Hins.
  apply LoadFacts.insert_dim_checks in Hins. destruct Hins as (-> & Hchk & Hnd).
  assert (Hdim : dim = map (select_customer E1) (deduped_customers staged)).
  { destruct Hshape as [->|(st & Hst & -> & _)]; [|congruence].
    apply (Hcompl staged Hrc). apply insert_representatives.
    intros x Hx. rewrite <- age_check_same.
    exact (proj2 (proj2 (Hchk (select_customer E2 x) (in_map _ _ _ Hx)))). }
  rewrite Hdim in Hnd. rewrite map_app, !map_map in Hnd. simpl in Hnd.
  apply StoreFacts.NoDup_twice, StoreFacts.map_nil_inv in Hnd.
  rewrite Hdim, Hnd. reflexivity.
Qed.

Lemma facts_settled (rt : option (list RawTransactions.row))
  (staged : list RawTransactions.row) (dim : list DimCustomers.row)
  (facts rows : list FactTransactions.row) :
  (facts = []
   \/ exists st, rt = Some st
                 /\ facts = selected_transactions E1 dim st
                 /\ Insert.fact_transactions dim [] facts = Ok facts) ->
  (forall st, rt = Some st ->
     Insert.fact_transactions dim [] (selected_transactions E1 dim st)
     = Ok (selected_transactions E1 dim st) ->
     facts = selected_transactions E1 dim st) ->
  rt = Some staged ->
  Insert.fact_transactions dim facts (selected_transactions E2 dim staged) = Ok rows ->
  rows = facts.
Proof.
  intros Hshape Hcompl Hrt Hins.
  apply LoadFacts.insert_fact_checks in Hins. destruct Hins as (-> & Hchk & Hnd).
  assert (Hfacts : facts = selected_transactions E1 dim staged).
  { destruct Hshape as [->|(st & Hst & -> & _)]; [|congruence].
    apply (Hcompl staged Hrt). apply FactFacts.insert_selected.
    intros r Hr Hw. rewrite <- transaction_where_same in Hw.
    assert (Hin : In (select_transaction E2 r) (selected_transactions E2 dim staged))
      by (apply FactFacts.selected_In; eauto).
    destruct (Hchk _ Hin) as (_ & _ & _ & _ & Hc). simpl in Hc.
    now destruct (RawTransactions.category r). }
  assert (Hfilter :
    filter (fun r => holds (transaction_where E2 (map DimCustomers.customer_id dim) r))
           (deduped_transactions staged)
    = filter (fun r => holds (transaction_where E1 (map DimCustomers.customer_id dim) r))
             (deduped_transactions staged)).
  { apply filter_ext. intro r. now rewrite transaction_where_same. }
  rewrite Hfacts in Hnd. unfold selected_transactions in Hnd. rewrite Hfilter in Hnd.
  rewrite map_app, !map_map in Hnd. simpl in Hnd.
  apply StoreFacts.NoDup_twice, StoreFacts.map_nil_inv in Hnd.
  rewrite Hfacts. unfold selected_transactions. rewrite Hfilter, Hnd. reflexivity.
Qed.

Lemma posts_settled (staged : list RawSentiment.row) (rows : list FactSentiment.row) :
  Insert.fact_sentiment
    (map (select_sentiment E1) (deduped_sentiment staged))
    (map (select_sentiment E2)
         (filter (fun r => holds (is_not_null (RawSentiment.id r)))
                 (deduped_sentiment staged)))
  = Ok rows ->
  rows = map (select_sentiment E1) (deduped_sentiment staged).
Proof.
  rewrite StoreFacts.sentiment_filter_all. intro Hins.
  apply StoreFacts.insert_sentiment_checks in Hins. destruct Hins as (-> & Hnd).
  rewrite map_app, !map_map in Hnd. simpl in Hnd.
  apply StoreFacts.NoDup_twice, StoreFacts.map_nil_inv in Hnd.
  rewrite Hnd. reflexivity.
Qed.

(** Whether the insert accepts the profiles does not depend on the time
    they are stamped with. *)
Lemma profiles_accepted (dim : list DimCustomers.row)
  (facts : list FactTransactions.row) (rows : list CustomerProfile.row) :
  Insert.customer_profile [] (customer_profile_query E2 dim facts) = Ok rows ->
  Insert.customer_profile [] (customer_profile_query E1 dim facts)
  = Ok (customer_profile_query E1 dim facts).
Proof.
  unfold Insert.customer_profile, Insert.not_null, customer_profile_query.
  rewrite !app_nil_l, !LoadFacts.forallb_over_map, !map_map. simpl.
  destruct (forallb _ (group_keys dim)); simpl; [|discriminate].
  destruct (forallb _ (group_keys dim)); simpl; [|discriminate].
  destruct (Insert.unique_keys _); simpl; [|discriminate].
  reflexivity.
Qed.

Lemma profiles_settled (dim : list DimCustomers.row)
  (facts : list FactTransactions.row) (profiles rows : list CustomerProfile.row) :
  (profiles = []
   \/ (profiles = customer_profile_query E1 dim facts
       /\ Insert.customer_profile [] profiles = Ok profiles)) ->
  (Insert.customer_profile [] (customer_profile_query E1 dim facts)
   = Ok (customer_profile_query E1 dim facts) ->
   profiles = customer_profile_query E1 dim facts) ->
  Insert.customer_profile profiles (customer_profile_query E2 dim facts) = Ok rows ->
  rows = profiles.
Proof.
  intros Hshape Hcompl Hins.
  assert (Hp : profiles = customer_profile_query E1 dim facts).
  { destruct Hshape as [->|(-> & _)]; [|reflexivity].
    apply Hcompl. eapply profiles_accepted; eauto. }
  apply StoreFacts.insert_profile_checks in Hins. destruct Hins as (-> & _ & _ & Hnd).
  rewrite Hp in Hnd. unfold customer_profile_query in Hnd.
  rewrite map_app, !map_map in Hnd. simpl in Hnd.
  apply StoreFacts.NoDup_twice, StoreFacts.map_nil_inv in Hnd.
  rewrite Hp. unfold customer_profile_query. rewrite Hnd. reflexivity.
Qed.

End TwoEngines.

End RerunFacts.



(** X10.  A second run over the store that a first run on empty targets
    has left changes no table: every insert of the second run either adds
    no row or collides with the primary key and is refused as a whole.
    The two runs read the same numbers; the clock, the date casts and the
    text functions of the second run may differ from those of the
    first. *)
Theorem X10_second_run_changes_nothing :
  forall (E1 E2 : Engine) (t : Transformer),
    same_numbers E1 E2 ->
    targets_empty (conn t) = true ->
    conn (transform_all E2 (transform_all E1 t)) = conn (transform_all E1 t).
Proof.
  intros E1 E2 t Hsame Hempty.
  destruct (StoreFacts.run_store E1 t Hempty)
    as (dim & facts & profiles & Hs & Hd & Hd' & Hf & Hf' & Hp & Hp').
  remember (transform_all E1 t) as t' eqn:Ht'. clear Ht'.
  unfold transform_all.
  set (t0 := create_tables t').
  assert (H0 : conn t0 = conn t') by (subst t0; simpl; rewrite Hs; reflexivity).
  set (t1 := load_dim_customers E2 t0).
  assert (H1 : conn t1 = conn t').
  { subst t1. unfold load_dim_customers.
    destruct (TransformFacts.step_cases "dim_customers" (insert_dim_customers E2)
                dim_customers t0) as [H|H]; [congruence|].
    apply TransformFacts.insert_dim_customers_Ok in H.
    destruct H as (staged & target & rows & Hrc & Hdim & Hins & ->).
    rewrite H0, Hs in Hrc, Hdim. simpl in Hrc, Hdim. injection Hdim as <-.
    rewrite (RerunFacts.dim_settled E1 E2 Hsame _ _ _ _ Hd Hd' Hrc Hins).
    rewrite H0. apply StoreFacts.set_dim_customers_same. now rewrite Hs. }
  set (t2 := load_fact_transactions E2 t1).
  assert (H2 : conn t2 = conn t').
  { subst t2. unfold load_fact_transactions.
    destruct (TransformFacts.step_cases "fact_transactions" (insert_fact_transactions E2)
                fact_transactions t1) as [H|H]; [congruence|].
    apply TransformFacts.insert_fact_transactions_Ok in H.
    destruct H as (staged & dim' & target & rows & Hrt & Hdim & Hfact & Hins & ->).
    rewrite H1, Hs in Hrt, Hdim, Hfact. simpl in Hrt, Hdim, Hfact.
    injection Hdim as <-. injection Hfact as <-.
    rewrite (RerunFacts.facts_settled E1 E2 Hsame _ _ _ _ _ Hf Hf' Hrt Hins).
    rewrite H1. apply StoreFacts.set_fact_transactions_same. now rewrite Hs. }
  set (t3 := load_fact_sentiment E2 t2).
  assert (H3 : conn t3 = conn t').
  { subst t3. unfold load_fact_sentiment.
    destruct (TransformFacts.step_cases "fact_sentiment" (insert_fact_sentiment E2)
                fact_sentiment t2) as [H|H]; [congruence|].
    remember (conn (step "fact_sentiment" (insert_fact_sentiment E2)
                      fact_sentiment t2)) as s3 eqn:Hs3.
    clear Hs3.
    unfold insert_fact_sentiment, bind, scan_table in H.
    rewrite H2, Hs in H. simpl in H.
    destruct (raw_sentiment (conn t)) as [staged|] eqn:Hr; [|discriminate].
    destruct (Insert.fact_sentiment _ _) as [rows|] eqn:Hrows; [|discriminate].
    apply RerunFacts.posts_settled in Hrows. subst rows.
    injection H as <-. rewrite Hs. reflexivity. }
  unfold load_customer_profile.
  destruct (TransformFacts.step_cases "customer_profile" (insert_customer_profile E2)
              customer_profile t3) as [H|H]; [congruence|].
  remember (conn (step "customer_profile" (insert_customer_profile E2)
                    customer_profile t3)) as s4 eqn:Hs4.
  clear Hs4.
  unfold insert_customer_profile, bind, scan_table in H.
  rewrite H3, Hs in H. simpl in H.
  destruct (Insert.customer_profile profiles (customer_profile_query E2 dim facts))
    as [rows|] eqn:Hrows; [|discriminate].
  apply (RerunFacts.profiles_settled E1 E2 _ _ _ _ Hp Hp') in Hrows. subst rows.
  injection H as <-. rewrite Hs. reflexivity.
Qed.

(** The fixture of X10: the second run records four primary-key errors
    and leaves the four tables of the first. *)
Lemma X10_witness :
  same_numbers Fixture.engine (Calendar.iso 1767312000000000)
  /\ targets_empty Fixture.full_staging = true
  /\ conn (transform_all (Calendar.iso 1767312000000000)
             (transform_all Fixture.engine (Fixture.fresh Fixture.full_staging)))
     = Fixture.run Fixture.full_staging
  /\ List.length (report (transform_all (Calendar.iso 1767312000000000)
                            (transform_all Fixture.engine
                               (Fixture.fresh Fixture.full_staging)))) = 10%nat.
Proof.
  assert (Hsame : same_numbers Fixture.engine (Calendar.iso 1767312000000000))
    by (split; intros; reflexivity).
  split; [exact Hsame|]. split; [reflexivity|]. split; [|vm_compute; reflexivity].
  exact (X10_second_run_changes_nothing Fixture.engine (Calendar.iso 1767312000000000)
           (Fixture.fresh Fixture.full_staging) Hsame eq_refl).
Defined.

(* ===================================================================== *)
(** * Validation after a run                                              *)
(* ===================================================================== *)

Module CheckFacts.

Lemma run_dim_exists (E : Engine) (t : Transformer) :
  dim_customers (conn (transform_all E t)) <> None.
Proof.
  unfold transform_all.
  destruct (RunFacts.load_customer_profile_others E
              (load_fact_sentiment E (load_fact_transactions E
                 (load_dim_customers E (create_tables t)))))
    as (_ & _ & _ & D4 & _).
  destruct (RunFacts.load_fact_sentiment_others E
              (load_fact_transactions E (load_dim_customers E (create_tables t))))
    as (_ & _ & _ & D3 & _).
  destruct (RunFacts.load_fact_transactions_others E
              (load_dim_customers E (create_tables t)))
    as (_ & _ & _ & D2 & _).
  destruct (RunFacts.load_dim_customers_others E (create_tables t))
    as (_ & _ & _ & _ & _ & _ & D1).
  rewrite D4, D3, D2. apply D1. apply RunFacts.create_tables_exist.
Qed.

Lemma non_null_all_present (xs : list (option string)) :
  ~ In None xs -> map Some (non_null xs) = xs.
Proof.
  induction xs as [|x xs IH]; simpl; intro H; [reflexivity|].
  destruct x as [v|]; [|tauto]. simpl. f_equal. tauto.
Qed.

(** [COUNT( * ) = COUNT(DISTINCT key)] on a key column without NULLs and
    without repetitions. *)
Lemma count_distinct_all (xs : list (option string)) :
  ~ In None xs -> NoDup xs ->
  count_distinct xs = Z.of_nat (List.length xs).
Proof.
  intros Hn Hnd. unfold count_distinct.
  rewrite (non_null_all_present xs Hn).
  rewrite ProfileQueryFacts.distinct_keys_unique; [reflexivity|].
  now apply SqlFacts.unique_keys_NoDup.
Qed.

Lemma in_is_not_not_in (x : option string) (l : list (option string)) :
  holds (sql_in x l) = true -> holds (sql_not_in x l) = false.
Proof.
  unfold sql_not_in. now destruct (sql_in x l) as [[|]|].
Qed.

(** [NOT IN] against a subquery with a NULL holds of nothing. *)
Lemma not_in_with_null (x : option string) (l : list (option string)) :
  In None l -> holds (sql_not_in x l) = false.
Proof.
  intro Hin. unfold sql_not_in.
  assert (H : sql_in x l <> Some false).
  { induction l as [|y l IH]; simpl; [contradiction|].
    destruct Hin as [->|Hin].
    - destruct x; simpl; now destruct (sql_in _ l) as [[|]|].
    - specialize (IH Hin).
      destruct (eq_text x y) as [[|]|], (sql_in x l) as [[|]|];
        simpl; congruence. }
  now destruct (sql_in x l) as [[|]|].
Qed.

Lemma filter_none {A} (p : A -> bool) (l : list A) :
  (forall x, In x l -> p x = false) -> filter p l = [].
Proof.
  induction l as [|x l IH]; simpl; intro H; [reflexivity|].
  rewrite (H x (or_introl eq_refl)). apply IH. auto.
Qed.

(** After a run on empty targets every row of [fact_transactions] has its
    customer in [dim_customers]. *)
Lemma run_foreign_keys (E : Engine) (t : Transformer) :
  targets_empty (conn t) = true ->
  Validation._check_foreign_keys (conn (transform_all E t))
  = Validation.Integrity true 0.
Proof.
  intro Hempty.
  destruct (StoreFacts.run_store E t Hempty)
    as (dim & facts & profiles & Hs & _ & _ & Hf & _).
  rewrite Hs.
  unfold Validation._check_foreign_keys, Validation.foreign_key_orphans,
    bind, scan_table. simpl.
  rewrite filter_none; [reflexivity|].
  intros f Hin.
  destruct Hf as [->|(staged & _ & -> & _)]; [contradiction|].
  apply FactFacts.selected_In in Hin. destruct Hin as (r & <- & _ & Hw).
  apply FactFacts.transaction_where_holds in Hw. destruct Hw as (Hc & _).
  apply in_is_not_not_in. simpl. now apply SqlFacts.holds_in.
Qed.

End CheckFacts.

(** X11.  After a run, on whatever store it started, the validation of
    the cleaned tables returns: the table that its unguarded uniqueness
    check reads has been created. *)
Theorem X11_validation_after_a_run_returns :
  forall (E : Engine) (t : Transformer),
    exists v, Validation.validate_transformed_data (conn (transform_all E t)) = Ok v.
Proof.
  intros E t.
  destruct (Validation.validate_transformed_data (conn (transform_all E t)))
    as [v|e] eqn:Hv; [eauto|].
  exfalso. apply (CheckFacts.run_dim_exists E t).
  apply validate_transformed_data_raises. eauto.
Qed.

(** X12.  After a run on empty targets the validation of the cleaned
    tables finds every foreign key valid, with no orphan row, and the
    [customer_id]s of [dim_customers] unique. *)
Theorem X12_cleaned_tables_pass_their_checks :
  forall (E : Engine) (t : Transformer),
    targets_empty (conn t) = true ->
    exists v,
      Validation.validate_transformed_data (conn (transform_all E t)) = Ok v
      /\ Validation.tv_referential_integrity v = Validation.Integrity true 0
      /\ Validation.tv_customer_id_unique v = true.
Proof.
  intros E t Hempty.
  destruct (StoreFacts.run_store E t Hempty)
    as (dim & facts & profiles & Hs & Hd & _ & Hf & _).
  rewrite Hs.
  unfold Validation.validate_transformed_data, bind, scan_table. simpl.
  eexists. split; [reflexivity|]. simpl. split.
  - unfold Validation._check_foreign_keys, Validation.foreign_key_orphans,
      bind, scan_table. simpl.
    rewrite CheckFacts.filter_none; [reflexivity|].
    intros f Hin.
    destruct Hf as [->|(staged & _ & -> & _)]; [contradiction|].
    apply FactFacts.selected_In in Hin. destruct Hin as (r & <- & _ & Hw).
    apply FactFacts.transaction_where_holds in Hw. destruct Hw as (Hc & _).
    apply CheckFacts.in_is_not_not_in. simpl. now apply SqlFacts.holds_in.
  - apply Z.eqb_eq. symmetry.
    rewrite <- (length_map DimCustomers.customer_id).
    destruct Hd as [->|(staged & _ & _ & Hins)]; [reflexivity|].
    apply LoadFacts.insert_dim_checks in Hins. destruct Hins as (_ & Hrows & Hnd).
    apply CheckFacts.count_distinct_all; [|exact Hnd].
    intro Hin. apply in_map_iff in Hin. destruct Hin as (d & Hk & Hd).
    now destruct (Hrows d Hd) as (Hne & _).
Qed.

Lemma X12_witness :
  targets_empty Fixture.full_staging = true
  /\ exists v,
       Validation.validate_transformed_data (Fixture.run Fixture.full_staging) = Ok v
       /\ Validation.tv_referential_integrity v = Validation.Integrity true 0
       /\ Validation.tv_customer_id_unique v = true.
Proof.
  split; [reflexivity|].
  exact (X12_cleaned_tables_pass_their_checks Fixture.engine
           (Fixture.fresh Fixture.full_staging) eq_refl).
Defined.

(* ===================================================================== *)
(** * The duplicate report                                                *)
(* ===================================================================== *)

Module DuplicateFacts.
Import Validation Dedup.

Lemma insert_by_count_In (g x : option string * nat) (l : list (option string * nat)) :
  In x (insert_by_count g l) <-> x = g \/ In x l.
Proof.
  induction l as [|g' l IH]; simpl; [intuition|].
  destruct (snd g' <=? snd g)%nat; simpl; rewrite ?IH; intuition.
Qed.

Lemma by_count_In (x : option string * nat) (l : list (option string * nat)) :
  In x (fold_right insert_by_count [] l) <-> In x l.
Proof.
  induction l as [|g l IH]; simpl; [tauto|].
  rewrite insert_by_count_In, IH. intuition.
Qed.

Lemma insert_by_count_keys (g : option string * nat) (l : list (option string * nat)) :
  Permutation (map fst (insert_by_count g l)) (fst g :: map fst l).
Proof.
  induction l as [|g' l IH]; simpl; [reflexivity|].
  destruct (snd g' <=? snd g)%nat; simpl; [reflexivity|].
  rewrite IH. apply perm_swap.
Qed.

Lemma by_count_keys (l : list (option string * nat)) :
  Permutation (map fst (fold_right insert_by_count [] l)) (map fst l).
Proof.
  induction l as [|g l IH]; simpl; [reflexivity|].
  rewrite insert_by_count_keys. now constructor.
Qed.

(** [ORDER BY cnt DESC]. *)
Lemma insert_by_count_sorted (g : option string * nat) (l : list (option string * nat)) :
  StronglySorted (fun a b => (snd b <= snd a)%nat) l ->
  StronglySorted (fun a b => (snd b <= snd a)%nat) (insert_by_count g l).
Proof.
  induction 1 as [|g' l Hs IH Hall]; simpl; [repeat constructor|].
  destruct (Nat.leb_spec (snd g') (snd g)) as [Hle|Hgt].
  - constructor; [now constructor|].
    constructor; [exact Hle|].
    eapply Forall_impl; [|exact Hall]. simpl. intros a Ha. lia.
  - constructor; [exact IH|].
    apply Forall_forall. intros a Ha. apply insert_by_count_In in Ha.
    destruct Ha as [->|Ha]; [lia|].
    rewrite Forall_forall in Hall. auto.
Qed.

Lemma by_count_sorted (l : list (option string * nat)) :
  StronglySorted (fun a b => (snd b <= snd a)%nat) (fold_right insert_by_count [] l).
Proof.
  induction l; simpl; [constructor | now apply insert_by_count_sorted].
Qed.

Lemma distinct_keys_In (k : option string) (ks : list (option string)) :
  In k (distinct_keys ks) <-> In k ks.
Proof.
  induction ks as [|x ks IH]; simpl; [tauto|].
  destruct (mem x ks) eqn:Hm; simpl; rewrite IH; [|tauto].
  apply DedupFacts.mem_In in Hm. split; [auto|]. intros [<-|H]; auto.
Qed.

Lemma distinct_keys_NoDup (ks : list (option string)) : NoDup (distinct_keys ks).
Proof.
  induction ks as [|x ks IH]; simpl; [constructor|].
  destruct (mem x ks) eqn:Hm; [exact IH|].
  constructor; [|exact IH].
  rewrite distinct_keys_In. now apply DedupFacts.mem_not_In.
Qed.

(** Leaving the NULL keys out does not change how often a key occurs. *)
Lemma occurrences_present (k : option string) (ks : list (option string)) :
  k <> None ->
  occurrences k (filter (fun x => negb (is_null x)) ks) = occurrences k ks.
Proof.
  intro Hk. unfold occurrences. induction ks as [|x ks IH]; simpl; [reflexivity|].
  destruct x as [v|]; simpl.
  - destruct (key_eqb k (Some v)); simpl; now rewrite IH.
  - destruct k; [exact IH | contradiction].
Qed.

Lemma occurrences_positive (k : option string) (ks : list (option string)) :
  (0 < occurrences k ks)%nat <-> In k ks.
Proof.
  unfold occurrences. induction ks as [|x ks IH]; simpl; [split; [lia | tauto]|].
  destruct (key_eqb k x) eqn:Hx; simpl.
  - apply DedupFacts.key_eqb_eq in Hx. split; [auto | lia].
  - apply DedupFacts.key_eqb_neq in Hx. rewrite IH. split; [auto|].
    intros [->|H]; [contradiction | exact H].
Qed.

Lemma occurrences_NoDup (k : option string) (ks : list (option string)) :
  NoDup ks -> (occurrences k ks <= 1)%nat.
Proof.
  unfold occurrences. induction 1 as [|x ks Hx _ IH]; simpl; [lia|].
  destruct (key_eqb k x) eqn:Hk; simpl; [|exact IH].
  apply DedupFacts.key_eqb_eq in Hk. subst x.
  destruct (filter (key_eqb k) ks) as [|y l] eqn:Hf; [simpl; lia|].
  exfalso. apply Hx.
  assert (Hy : In y (filter (key_eqb k) ks)) by (rewrite Hf; now left).
  apply filter_In in Hy. destruct Hy as (Hy & Hky).
  apply DedupFacts.key_eqb_eq in Hky. now subst y.
Qed.

(** The groups of the duplicate query. *)
Lemma duplicate_groups_In (ks : list (option string)) (k : option string) (n : nat) :
  In (k, n) (duplicate_groups ks) <->
  k <> None /\ n = occurrences k ks /\ (1 < n)%nat.
Proof.
  unfold duplicate_groups.
  rewrite by_count_In, filter_In, in_map_iff. simpl. split.
  - intros ((k' & Hp & Hin) & Hn). injection Hp as -> <-.
    apply distinct_keys_In, filter_In in Hin. destruct Hin as (_ & Hk).
    assert (Hne : k <> None) by (now destruct k).
    rewrite occurrences_present in * by exact Hne.
    apply Nat.ltb_lt in Hn. auto.
  - intros (Hne & -> & Hn). split; [|now apply Nat.ltb_lt].
    exists k. rewrite occurrences_present by exact Hne. split; [reflexivity|].
    apply distinct_keys_In, filter_In. split.
    + apply occurrences_positive. lia.
    + now destruct k.
Qed.

Lemma duplicate_groups_keys (ks : list (option string)) :
  NoDup (map fst (duplicate_groups ks)).
Proof.
  unfold duplicate_groups.
  eapply Permutation_NoDup; [symmetry; apply by_count_keys|].
  apply SqlFacts.filtered_keys_NoDup.
  rewrite map_map. simpl. rewrite map_id. apply distinct_keys_NoDup.
Qed.

(** Keys without repetition form no group. *)
Lemma duplicate_groups_NoDup (ks : list (option string)) :
  NoDup ks -> duplicate_groups ks = [].
Proof.
  intro Hnd. destruct (duplicate_groups ks) as [|(k, n) l] eqn:Hg; [reflexivity|].
  assert (Hin : In (k, n) (duplicate_groups ks)) by (rewrite Hg; now left).
  apply duplicate_groups_In in Hin. destruct Hin as (_ & -> & Hn).
  pose proof (occurrences_NoDup k ks Hnd). lia.
Qed.

End DuplicateFacts.

(** X13.  The duplicate report of a table lists a key exactly when the
    key is not NULL and occurs more than once in the key column, with the
    number of its occurrences; it lists no key twice, orders the groups by
    descending number of occurrences, counts the groups, and says
    [found] exactly when there is one. *)
Theorem X13_duplicate_report :
  forall (s : Store) (table_name key_col : string) (ks : list (option string)),
    Validation.key_column s table_name key_col = Ok ks ->
    exists groups,
      Validation._find_duplicates s table_name key_col
      = Validation.Duplicates (0 <? List.length groups)%nat (List.length groups) groups
      /\ (forall k n,
            In (k, n) groups <->
            k <> None /\ n = Validation.occurrences k ks /\ (1 < n)%nat)
      /\ NoDup (map fst groups)
      /\ StronglySorted (fun a b => (snd b <= snd a)%nat) groups.
Proof.
  intros s table_name key_col ks Hks.
  exists (Validation.duplicate_groups ks).
  split; [|split; [|split]].
  - unfold Validation._find_duplicates. rewrite Hks.
    now destruct (Validation.duplicate_groups ks).
  - apply DuplicateFacts.duplicate_groups_In.
  - apply DuplicateFacts.duplicate_groups_keys.
  - apply DuplicateFacts.by_count_sorted.
Qed.

(** The fixture of X13: [CUST-0001] is staged twice, the customer without
    a key is not reported. *)
Lemma X13_witness :
  Validation.key_column Fixture.full_staging "raw_customers" "customer_id"
  = Ok [Some "CUST-0001"; Some "CUST-0002"; None; Some "CUST-0001"]
  /\ Validation._find_duplicates Fixture.full_staging "raw_customers" "customer_id"
     = Validation.Duplicates true 1 [(Some "CUST-0001", 2%nat)]
  /\ (In (Some "CUST-0001", 2%nat) [(Some "CUST-0001", 2%nat)]
      <-> Some "CUST-0001" <> None
          /\ 2%nat = Validation.occurrences (Some "CUST-0001")
                       [Some "CUST-0001"; Some "CUST-0002"; None; Some "CUST-0001"]
          /\ (1 < 2)%nat).
Proof.
  assert (Hk : Validation.key_column Fixture.full_staging "raw_customers" "customer_id"
               = Ok [Some "CUST-0001"; Some "CUST-0002"; None; Some "CUST-0001"])
    by reflexivity.
  destruct (X13_duplicate_report Fixture.full_staging "raw_customers" "customer_id" _ Hk)
    as (groups & Hg & Hin & _).
  assert (Hv : Validation._find_duplicates Fixture.full_staging "raw_customers" "customer_id"
               = Validation.Duplicates true 1 [(Some "CUST-0001", 2%nat)])
    by reflexivity.
  split; [exact Hk|]. split; [exact Hv|].
  rewrite Hv in Hg. injection Hg as _ _ <-.
  apply Hin.
Defined.

(** X14.  A staging table that holds the output of its own deduplication
    has no duplicate to report: on it the duplicate check returns
    [found = false] and [count = 0]. *)
Theorem X14_deduplicated_tables_have_no_duplicates :
  forall (s : Store),
    (forall staged, raw_customers s = Some (deduped_customers staged) ->
       Validation._find_duplicates s "raw_customers" "customer_id"
       = Validation.Duplicates false 0 [])
    /\ (forall staged, raw_transactions s = Some (deduped_transactions staged) ->
          Validation._find_duplicates s "raw_transactions" "transaction_id"
          = Validation.Duplicates false 0 [])
    /\ (forall staged, raw_sentiment s = Some (deduped_sentiment staged) ->
          Validation._find_duplicates s "raw_sentiment" "id"
          = Validation.Duplicates false 0 []).
Proof.
  intro s. repeat split; intros staged Hs;
    unfold Validation._find_duplicates, Validation.key_column, bind, scan_table;
    simpl; rewrite Hs;
    rewrite DuplicateFacts.duplicate_groups_NoDup;
    try reflexivity; apply DedupFacts.deduped_keys.
Qed.

Lemma X14_witness :
  raw_customers (Fixture.staged (deduped_customers
                   [Fixture.cust1_late; Fixture.cust2; Fixture.cust1_early]) [])
  = Some (deduped_customers [Fixture.cust1_late; Fixture.cust2; Fixture.cust1_early])
  /\ Validation._find_duplicates
       (Fixture.staged (deduped_customers
          [Fixture.cust1_late; Fixture.cust2; Fixture.cust1_early]) [])
       "raw_customers" "customer_id"
     = Validation.Duplicates false 0 [].
Proof.
  split; [reflexivity|].
  exact (proj1 (X14_deduplicated_tables_have_no_duplicates
                  (Fixture.staged (deduped_customers
                     [Fixture.cust1_late; Fixture.cust2; Fixture.cust1_early]) []))
           _ eq_refl).
Defined.

(** X15.  When no staging customer has a NULL [customer_id], the raw
    orphan check counts the staging transactions whose [customer_id] is
    not NULL and is the [customer_id] of no staging customer, and says
    [found] exactly when there is one. *)
Theorem X15_orphan_check_without_null_keys :
  forall (s : Store) (customers : list RawCustomers.row)
         (txns : list RawTransactions.row),
    raw_customers s = Some customers ->
    raw_transactions s = Some txns ->
    ~ In None (map RawCustomers.customer_id customers) ->
    exists note,
      Validation._find_orphan_keys s
      = Validation.Orphans (0 <? Spec.orphan_count_spec customers txns)%nat
                           (Spec.orphan_count_spec customers txns) note.
Proof.
  intros s customers txns Hc Ht Hn.
  unfold Validation._find_orphan_keys.
  rewrite (OrphanFacts.orphan_count_without_null_keys s customers txns Hc Ht Hn).
  eauto.
Qed.

Lemma X15_witness :
  raw_customers Fixture.case_staging = Some [Fixture.cust1_early]
  /\ raw_transactions Fixture.case_staging = Some [Fixture.txn_other_case]
  /\ ~ In None (map RawCustomers.customer_id [Fixture.cust1_early])
  /\ Spec.orphan_count_spec [Fixture.cust1_early] [Fixture.txn_other_case] = 1%nat
  /\ exists note,
       Validation._find_orphan_keys Fixture.case_staging
       = Validation.Orphans true 1 note.
Proof.
  assert (Hn : ~ In None (map RawCustomers.customer_id [Fixture.cust1_early]))
    by (simpl; intuition discriminate).
  split; [reflexivity|]. split; [reflexivity|]. split; [exact Hn|].
  split; [reflexivity|].
  exact (X15_orphan_check_without_null_keys Fixture.case_staging _ _
           eq_refl eq_refl Hn).
Defined.

(** X16.  As soon as one staging customer has a NULL [customer_id], the
    raw orphan check reports no orphan at all, whatever the staging
    transactions are. *)
Theorem X16_orphan_check_with_a_null_key :
  forall (s : Store) (customers : list RawCustomers.row)
         (txns : list RawTransactions.row),
    raw_customers s = Some customers ->
    raw_transactions s = Some txns ->
    In None (map RawCustomers.customer_id customers) ->
    Validation._find_orphan_keys s = Validation.Orphans false 0 "None".
Proof.
  intros s customers txns Hc Ht Hn.
  unfold Validation._find_orphan_keys, Validation.orphan_count, bind, scan_table.
  rewrite Hc, Ht.
  rewrite CheckFacts.filter_none; [reflexivity|].
  intros x _. unfold Validation.orphan_where.
  pose proof (CheckFacts.not_in_with_null (RawTransactions.customer_id x) _ Hn) as H.
  destruct (is_not_null (RawTransactions.customer_id x)) as [[|]|],
    (sql_not_in (RawTransactions.customer_id x)
       (map RawCustomers.customer_id customers)) as [[|]|];
    simpl in *; congruence.
Qed.

Lemma X16_witness :
  raw_customers Fixture.full_staging
  = Some [Fixture.cust1_late; Fixture.cust2; Fixture.cust_no_key; Fixture.cust1_early]
  /\ In None (map RawCustomers.customer_id
                  [Fixture.cust1_late; Fixture.cust2; Fixture.cust_no_key;
                   Fixture.cust1_early])
  /\ Spec.orphan_count_spec
       [Fixture.cust1_late; Fixture.cust2; Fixture.cust_no_key; Fixture.cust1_early]
       [Fixture.txn_second_copy; Fixture.txn_later; Fixture.txn_first_copy;
        Fixture.txn_unknown_customer] = 1%nat
  /\ Validation._find_orphan_keys Fixture.full_staging
     = Validation.Orphans false 0 "None".
Proof.
  assert (Hn : In None (map RawCustomers.customer_id
                          [Fixture.cust1_late; Fixture.cust2; Fixture.cust_no_key;
                           Fixture.cust1_early]))
    by (simpl; auto).
  split; [reflexivity|]. split; [exact Hn|]. split; [reflexivity|].
  exact (X16_orphan_check_with_a_null_key Fixture.full_staging _ _ eq_refl eq_refl Hn).
Defined.

(* ===================================================================== *)
(** * The aggregates of the customer profile                              *)
(* ===================================================================== *)

Module AggregateFacts.
Import Dedup.

Lemma count_distinct_none (xs : list (option string)) :
  (forall x, In x xs -> x = None) -> count_distinct xs = 0.
Proof.
  intro H. unfold count_distinct.
  now rewrite (ProfileQueryFacts.non_null_all_null xs H).
Qed.

Lemma present_In (v : string) (xs : list (option string)) :
  In (Some v) (map Some (non_null xs)) <-> In (Some v) xs.
Proof.
  induction xs as [|x xs IH]; simpl; [tauto|].
  destruct x as [w|]; simpl; rewrite IH; [tauto|].
  split; [auto | intros [H|H]; [discriminate | exact H]].
Qed.

Lemma present_all (x : option string) (xs : list (option string)) :
  In x (map Some (non_null xs)) -> exists v, x = Some v.
Proof.
  intro H. apply in_map_iff in H. destruct H as (v & <- & _). eauto.
Qed.

(** [COUNT(DISTINCT CASE WHEN c THEN x END)] is at most
    [COUNT(DISTINCT x)]. *)
Lemma count_distinct_case {A} (f h : A -> option string) (g : list A) :
  (forall j, f j = None \/ f j = h j) ->
  count_distinct (map f g) <= count_distinct (map h g).
Proof.
  intro Hf. unfold count_distinct. apply Nat2Z.inj_le.
  apply NoDup_incl_length; [apply DuplicateFacts.distinct_keys_NoDup|].
  intros x Hx. apply (proj1 (DuplicateFacts.distinct_keys_In _ _)) in Hx.
  apply (proj2 (DuplicateFacts.distinct_keys_In _ _)).
  destruct (present_all _ _ Hx) as (v & ->).
  apply (proj1 (present_In _ _)) in Hx. apply (proj2 (present_In _ _)).
  apply in_map_iff in Hx. destruct Hx as (j & Hj & Hin).
  apply in_map_iff. exists j. split; [|exact Hin].
  destruct (Hf j) as [H|H]; congruence.
Qed.

Lemma count_distinct_nonneg (xs : list (option string)) : 0 <= count_distinct xs.
Proof. unfold count_distinct. lia. Qed.

(** A rounded share of a part in a whole lies between 0 and 1. *)
Lemma rounded_share (part whole : Z) :
  0 <= part <= whole -> 0 < whole ->
  0 <= round_half_away (part * 10 ^ Z.of_nat 2) whole <= 100.
Proof.
  intros Hp Hw. unfold round_half_away.
  destruct (Z.ltb_spec whole 0) as [H|_]; [lia|].
  rewrite Z.abs_eq by lia.
  change (10 ^ Z.of_nat 2) with 100.
  destruct (Z.leb_spec 0 (part * 100)) as [_|H]; [|lia].
  split.
  - apply Z.div_pos; lia.
  - apply Z.lt_succ_r. apply Z.div_lt_upper_bound; lia.
Qed.

Lemma match_ticket_id_cases (j : joined) :
  match_ticket_id j = None
  \/ match_ticket_id j = column FactTransactions.transaction_id j.
Proof.
  unfold match_ticket_id. destruct (holds _); auto.
Qed.

Lemma sports_id_cases (j : joined) :
  sports_id j = None \/ sports_id j = column FactTransactions.transaction_id j.
Proof.
  unfold sports_id. destruct (holds _); auto.
Qed.

(** With a primary key on [dim_customers], the group of a customer is the
    customer's own side of the join. *)
Lemma group_rows_own (dim : list DimCustomers.row) (fact : list FactTransactions.row)
  (c : DimCustomers.row) :
  NoDup (map DimCustomers.customer_id dim) -> In c dim ->
  group_rows dim fact (DimCustomers.customer_id c) = left_join fact c.
Proof.
  intros Hnd Hc. unfold group_rows.
  assert (Hf : filter (fun c' => key_eqb (DimCustomers.customer_id c')
                                        (DimCustomers.customer_id c)) dim = [c]).
  { induction dim as [|d dim IH]; simpl in *; [contradiction|].
    apply NoDup_cons_iff in Hnd. destruct Hnd as (Hd & Hnd).
    destruct Hc as [->|Hc].
    - rewrite DedupFacts.key_eqb_refl. f_equal.
      apply CheckFacts.filter_none. intros x Hx.
      apply DedupFacts.key_eqb_neq. intro Heq. apply Hd. rewrite <- Heq.
      now apply in_map.
    - assert (Hne : key_eqb (DimCustomers.customer_id d) (DimCustomers.customer_id c)
                    = false).
      { apply DedupFacts.key_eqb_neq. intro Heq. apply Hd. rewrite Heq.
        now apply in_map. }
      rewrite Hne. auto. }
  rewrite Hf. simpl. apply app_nil_r.
Qed.

(** An aggregate over the customer's side of the join is the aggregate
    over the customer's transactions. *)
Lemma left_join_column {A} (fact : list FactTransactions.row) (c : DimCustomers.row)
  (col : FactTransactions.row -> option A) :
  non_null (map (column col) (left_join fact c))
  = non_null (map col
       (filter (fun t => holds (eq_text (DimCustomers.customer_id c)
                                        (FactTransactions.customer_id t))) fact)).
Proof.
  unfold left_join.
  destruct (filter _ fact) as [|t ts]; [reflexivity|].
  rewrite map_map. reflexivity.
Qed.

End AggregateFacts.

(** X17.  A customer without a transaction in [fact_transactions] still
    has a profile row: its transaction counts are 0 and its total, its
    average, its last date, its ratio and its interval are NULL. *)
Theorem X17_profile_of_a_customer_without_transactions :
  forall (E : Engine) (dim : list DimCustomers.row)
         (fact : list FactTransactions.row) (c : DimCustomers.row),
    In c dim ->
    (forall t, In t fact ->
       holds (eq_text (DimCustomers.customer_id c)
                      (FactTransactions.customer_id t)) = false) ->
    exists p,
      In p (customer_profile_query E dim fact)
      /\ CustomerProfile.customer_id p = DimCustomers.customer_id c
      /\ CustomerProfile.txn_count p = Some 0
      /\ CustomerProfile.match_ticket_count p = Some 0
      /\ CustomerProfile.total_spend p = None
      /\ CustomerProfile.avg_txn p = None
      /\ CustomerProfile.last_txn_date p = None
      /\ CustomerProfile.sports_affinity_ratio p = QNull
      /\ CustomerProfile.avg_days_between_txns p = QNull.
Proof.
  intros E dim fact c Hc Hnone.
  set (k := DimCustomers.customer_id c).
  set (g := group_rows dim fact k).
  assert (Hg : forall j, In j g -> j = None).
  { intros j Hj. subst g. unfold group_rows in Hj. apply in_flat_map in Hj.
    destruct Hj as (c' & Hc' & Hj). apply filter_In in Hc'.
    destruct Hc' as (_ & Hk). apply DedupFacts.key_eqb_eq in Hk.
    unfold left_join in Hj. rewrite Hk in Hj. fold k in Hnone.
    rewrite (CheckFacts.filter_none _ fact Hnone) in Hj.
    destruct Hj as [<-|[]]. reflexivity. }
  assert (Hcol : forall (A : Type) (f : joined -> option A),
             f None = None -> forall x, In x (map f g) -> x = None).
  { intros A f Hf x Hx. apply in_map_iff in Hx. destruct Hx as (j & <- & Hj).
    now rewrite (Hg j Hj). }
  exists (profile_of E k g). split.
  - unfold customer_profile_query. apply in_map_iff. exists k. split; [reflexivity|].
    apply DuplicateFacts.distinct_keys_In. now apply in_map.
  - unfold profile_of.
    cbn [CustomerProfile.customer_id CustomerProfile.txn_count
         CustomerProfile.match_ticket_count CustomerProfile.total_spend
         CustomerProfile.avg_txn CustomerProfile.last_txn_date
         CustomerProfile.sports_affinity_ratio CustomerProfile.avg_days_between_txns].
    rewrite !(AggregateFacts.count_distinct_none
                (map (column FactTransactions.transaction_id) g))
      by (apply Hcol; reflexivity).
    rewrite (AggregateFacts.count_distinct_none (map match_ticket_id g))
      by (apply Hcol; reflexivity).
    unfold date_span, sum, avg, maximum, minimum.
    rewrite (ProfileQueryFacts.non_null_all_null
               (map (column FactTransactions.amount_eur) g))
      by (apply Hcol; reflexivity).
    rewrite (ProfileQueryFacts.non_null_all_null (map txn_day g))
      by (apply Hcol; reflexivity).
    repeat split; reflexivity.
Qed.

Lemma X17_witness :
  In (select_customer Fixture.engine Fixture.cust2)
     [select_customer Fixture.engine Fixture.cust1_early;
      select_customer Fixture.engine Fixture.cust2]
  /\ holds (eq_text (Some "CUST-0002")
              (FactTransactions.customer_id
                 (select_transaction Fixture.engine Fixture.txn_below))) = false
  /\ exists p,
       In p (customer_profile_query Fixture.engine
               [select_customer Fixture.engine Fixture.cust1_early;
                select_customer Fixture.engine Fixture.cust2]
               [select_transaction Fixture.engine Fixture.txn_below])
       /\ CustomerProfile.customer_id p = Some "CUST-0002"
       /\ CustomerProfile.txn_count p = Some 0
       /\ CustomerProfile.total_spend p = None.
Proof.
  assert (Hc : In (select_customer Fixture.engine Fixture.cust2)
                 [select_customer Fixture.engine Fixture.cust1_early;
                  select_customer Fixture.engine Fixture.cust2])
    by (simpl; auto).
  split; [exact Hc|]. split; [reflexivity|].
  destruct (X17_profile_of_a_customer_without_transactions Fixture.engine
              _ [select_transaction Fixture.engine Fixture.txn_below] _ Hc)
    as (p & Hp & Hk & Hn & _ & Hs & _).
  - intros t [<-|[]]. reflexivity.
  - exists p. auto.
Defined.

(** X18.  In every profile row the count of match-ticket transactions is
    between 0 and the count of transactions, and a sports-affinity ratio
    that is not NULL lies between 0 and 1.00. *)
Theorem X18_profile_counts_are_bounded :
  forall (E : Engine) (dim : list DimCustomers.row)
         (fact : list FactTransactions.row) (p : CustomerProfile.row),
    In p (customer_profile_query E dim fact) ->
    (exists n m,
       CustomerProfile.txn_count p = Some n
       /\ CustomerProfile.match_ticket_count p = Some m
       /\ 0 <= m <= n)
    /\ (forall v, CustomerProfile.sports_affinity_ratio p = QValue v ->
                  0 <= v <= 100).
Proof.
  intros E dim fact p Hp. unfold customer_profile_query in Hp.
  apply in_map_iff in Hp. destruct Hp as (k & <- & _).
  set (g := group_rows dim fact k). unfold profile_of.
  cbn [CustomerProfile.txn_count CustomerProfile.match_ticket_count
       CustomerProfile.sports_affinity_ratio].
  pose proof (AggregateFacts.count_distinct_case match_ticket_id
                (column FactTransactions.transaction_id) g
                AggregateFacts.match_ticket_id_cases) as Hm.
  pose proof (AggregateFacts.count_distinct_case sports_id
                (column FactTransactions.transaction_id) g
                AggregateFacts.sports_id_cases) as Hsp.
  pose proof (AggregateFacts.count_distinct_nonneg (map match_ticket_id g)) as Hm0.
  pose proof (AggregateFacts.count_distinct_nonneg (map sports_id g)) as Hs0.
  split.
  - do 2 eexists. split; [reflexivity|]. split; [reflexivity|]. lia.
  - intros v Hv. unfold divide_round, nullif in Hv.
    destruct (Z.eqb_spec (count_distinct
                (map (column FactTransactions.transaction_id) g)) 0) as [|Hn];
      [discriminate|].
    destruct (Z.eqb_spec (count_distinct
                (map (column FactTransactions.transaction_id) g)) 0);
      [contradiction|].
    injection Hv as <-.
    apply AggregateFacts.rounded_share; lia.
Qed.

Lemma X18_witness :
  In (profile_of Fixture.engine (Some "CUST-0001")
        (group_rows [select_customer Fixture.engine Fixture.cust1_early]
                    [select_transaction Fixture.engine Fixture.txn_first_copy;
                     select_transaction Fixture.engine Fixture.txn_later]
                    (Some "CUST-0001")))
     (customer_profile_query Fixture.engine
        [select_customer Fixture.engine Fixture.cust1_early]
        [select_transaction Fixture.engine Fixture.txn_first_copy;
         select_transaction Fixture.engine Fixture.txn_later])
  /\ CustomerProfile.sports_affinity_ratio
       (profile_of Fixture.engine (Some "CUST-0001")
          (group_rows [select_customer Fixture.engine Fixture.cust1_early]
                      [select_transaction Fixture.engine Fixture.txn_first_copy;
                       select_transaction Fixture.engine Fixture.txn_later]
                      (Some "CUST-0001"))) = QValue 50
  /\ 0 <= 50 <= 100.
Proof.
  assert (Hp : In (profile_of Fixture.engine (Some "CUST-0001")
                     (group_rows [select_customer Fixture.engine Fixture.cust1_early]
                        [select_transaction Fixture.engine Fixture.txn_first_copy;
                         select_transaction Fixture.engine Fixture.txn_later]
                        (Some "CUST-0001")))
                 (customer_profile_query Fixture.engine
                    [select_customer Fixture.engine Fixture.cust1_early]
                    [select_transaction Fixture.engine Fixture.txn_first_copy;
                     select_transaction Fixture.engine Fixture.txn_later]))
    by (left; reflexivity).
  assert (Hv : CustomerProfile.sports_affinity_ratio
                 (profile_of Fixture.engine (Some "CUST-0001")
                    (group_rows [select_customer Fixture.engine Fixture.cust1_early]
                       [select_transaction Fixture.engine Fixture.txn_first_copy;
                        select_transaction Fixture.engine Fixture.txn_later]
                       (Some "CUST-0001"))) = QValue 50)
    by (vm_compute; reflexivity).
  split; [exact Hp|]. split; [exact Hv|].
  exact (proj2 (X18_profile_counts_are_bounded Fixture.engine _ _ _ Hp) 50 Hv).
Defined.

(** X19.  Over a [dim_customers] with pairwise different [customer_id]s
    and a [fact_transactions] with pairwise different, non-null
    [transaction_id]s (their primary keys), the join neither loses nor
    repeats a transaction: the profile row of a customer counts exactly the
    customer's rows of [fact_transactions], and its total and its last date
    are the sum and the maximum over these rows. *)
Theorem X19_profile_aggregates_the_customers_transactions :
  forall (E : Engine) (dim : list DimCustomers.row)
         (fact : list FactTransactions.row) (c : DimCustomers.row),
    NoDup (map DimCustomers.customer_id dim) ->
    NoDup (map FactTransactions.transaction_id fact) ->
    (forall t, In t fact -> FactTransactions.transaction_id t <> None) ->
    In c dim ->
    let own := filter (fun t => holds (eq_text (DimCustomers.customer_id c)
                                               (FactTransactions.customer_id t))) fact in
    exists p,
      In p (customer_profile_query E dim fact)
      /\ CustomerProfile.customer_id p = DimCustomers.customer_id c
      /\ CustomerProfile.txn_count p = Some (Z.of_nat (List.length own))
      /\ CustomerProfile.total_spend p = sum (map FactTransactions.amount_eur own)
      /\ CustomerProfile.last_txn_date p
         = maximum (map (fun t => option_map Calendar.date_of_timestamp
                                    (FactTransactions.transaction_date t)) own).
Proof.
  intros E dim fact c Hdim Hfact Hid Hc own.
  set (k := DimCustomers.customer_id c).
  exists (profile_of E k (group_rows dim fact k)). split.
  - unfold customer_profile_query. apply in_map_iff. exists k. split; [reflexivity|].
    apply DuplicateFacts.distinct_keys_In. now apply in_map.
  - subst k. rewrite (AggregateFacts.group_rows_own dim fact c Hdim Hc).
    unfold profile_of.
    cbn [CustomerProfile.customer_id CustomerProfile.txn_count
         CustomerProfile.total_spend CustomerProfile.last_txn_date].
    split; [reflexivity|]. split; [|split].
    + f_equal. unfold count_distinct.
      rewrite (AggregateFacts.left_join_column fact c FactTransactions.transaction_id).
      fold own.
      assert (Hown : ~ In None (map FactTransactions.transaction_id own)).
      { intro H. apply in_map_iff in H. destruct H as (t & Ht & Hin).
        apply filter_In in Hin. now apply (Hid t (proj1 Hin)). }
      rewrite (CheckFacts.non_null_all_present _ Hown).
      rewrite ProfileQueryFacts.distinct_keys_unique.
      * now rewrite length_map.
      * apply SqlFacts.unique_keys_NoDup. unfold own.
        now apply SqlFacts.filtered_keys_NoDup.
    + unfold sum.
      now rewrite (AggregateFacts.left_join_column fact c FactTransactions.amount_eur).
    + unfold maximum.
      assert (Hday : map txn_day (left_join fact c)
                     = map (column (fun t => option_map Calendar.date_of_timestamp
                                               (FactTransactions.transaction_date t)))
                           (left_join fact c)).
      { apply map_ext. intros [t|]; reflexivity. }
      rewrite Hday.
      now rewrite (AggregateFacts.left_join_column fact c
                     (fun t => option_map Calendar.date_of_timestamp
                                 (FactTransactions.transaction_date t))).
Qed.

Lemma X19_witness :
  NoDup [Some "CUST-0001"; Some "CUST-0002"]
  /\ NoDup [Some "TXN-000010"; Some "TXN-000011"]
  /\ exists p,
       In p (customer_profile_query Fixture.engine
               [select_customer Fixture.engine Fixture.cust1_early;
                select_customer Fixture.engine Fixture.cust2]
               [select_transaction Fixture.engine Fixture.txn_first_copy;
                select_transaction Fixture.engine Fixture.txn_later])
       /\ CustomerProfile.customer_id p = Some "CUST-0001"
       /\ CustomerProfile.txn_count p = Some 2
       /\ CustomerProfile.total_spend p = Some 5550.
Proof.
  assert (Hd : NoDup (map DimCustomers.customer_id
                        [select_customer Fixture.engine Fixture.cust1_early;
                         select_customer Fixture.engine Fixture.cust2])).
  { simpl. repeat constructor; simpl; intuition discriminate. }
  assert (Hf : NoDup (map FactTransactions.transaction_id
                        [select_transaction Fixture.engine Fixture.txn_first_copy;
                         select_transaction Fixture.engine Fixture.txn_later])).
  { simpl. repeat constructor; simpl; intuition discriminate. }
  split; [exact Hd|]. split; [exact Hf|].
  destruct (X19_profile_aggregates_the_customers_transactions Fixture.engine
              _ _ (select_customer Fixture.engine Fixture.cust1_early) Hd Hf)
    as (p & Hp & Hk & Hn & Hs & _).
  - intros t [<-|[<-|[]]]; discriminate.
  - simpl. auto.
  - exists p. repeat split; auto.
Defined.

(* ===================================================================== *)
(** * The shape of a table profile                                        *)
(* ===================================================================== *)

Module ReportFacts.
Import Validation.

(** The loop lists column names in the order of the table, each at most
    once. *)
Lemma null_rates_names (rel : relation) (m i : nat) (cols : list string) (col : string) :
  In col (map fst (null_rates rel m i cols)) -> In col cols.
Proof.
  intro H. apply in_map_iff in H. destruct H as ((c & e) & Hc & He).
  simpl in Hc. subst c. apply (proj1 (ProfileFacts.null_rates_In _ _ _ _ _ _)) in He.
  destruct He as (j & Hj & _). exact (nth_error_In _ _ Hj).
Qed.

Lemma null_rates_NoDup (rel : relation) (m i : nat) (cols : list string) :
  NoDup cols -> NoDup (map fst (null_rates rel m i cols)).
Proof.
  revert i. induction cols as [|c cols IH]; intros i Hnd; simpl; [constructor|].
  apply NoDup_cons_iff in Hnd. destruct Hnd as (Hc & Hnd).
  destruct (is_internal c); [now apply IH|].
  destruct (exceeds_threshold (null_count rel i) m); [|now apply IH].
  simpl. constructor; [|now apply IH].
  intro Hin. apply Hc. exact (null_rates_names _ _ _ _ _ Hin).
Qed.

Lemma null_count_le (rel : relation) (i : nat) :
  (null_count rel i <= List.length (null_cells rel))%nat.
Proof. unfold null_count. apply filter_length_le. Qed.

End ReportFacts.

(** X20.  In the profile that [_validate_table] returns for a table, the
    entries of [high_null_columns] are columns of the table whose name does
    not start with an underscore, no column is listed twice, the table has
    at least one row, and the null count of an entry is at most the row
    count and more than three tenths of it. *)
Theorem X20_high_null_columns_are_well_formed :
  forall (s : Store) (table_name : string) (n : nat) (cols : list string)
         (high : list (string * Validation.high_null)),
    Validation._validate_table s table_name = Validation.Profile n cols high ->
    NoDup (map fst high)
    /\ forall col e, In (col, e) high ->
         In col cols
         /\ Validation.is_internal col = false
         /\ (0 < n)%nat
         /\ (Validation.hn_null_count e <= n)%nat
         /\ (3 * n < 10 * Validation.hn_null_count e)%nat.
Proof.
  intros s table_name n cols high. unfold Validation._validate_table.
  destruct (Validation.describe s table_name) as [rel|] eqn:Hd; [|discriminate].
  unfold Validation.profile_relation. intro H. injection H as <- <- <-.
  split.
  - apply ReportFacts.null_rates_NoDup.
    exact (ProfileFacts.describe_columns _ _ _ Hd).
  - intros col e He.
    apply (proj1 (ProfileFacts.null_rates_In _ _ _ _ _ _)) in He.
    destruct He as (j & Hj & Hint & Hx & ->). simpl in Hx |- *.
    apply ProfileFacts.exceeds_threshold_iff in Hx. destruct Hx as (Hm & Hx).
    split; [exact (nth_error_In _ _ Hj)|]. split; [exact Hint|].
    split; [exact Hm|]. split; [apply ReportFacts.null_count_le | exact Hx].
Qed.

Lemma X20_witness :
  exists high,
    Validation._validate_table Fixture.clean_staging "raw_customers"
    = Validation.Profile 3
        ["_row_id"; "customer_id"; "name"; "email"; "age"; "city"; "country";
         "signup_date"; "favorite_team"; "membership_tier"; "gender";
         "_load_timestamp"] high
    /\ In "email" (map fst high)
    /\ NoDup (map fst high).
Proof.
  eexists. split; [reflexivity|]. split; [vm_compute; auto|].
  exact (proj1 (X20_high_null_columns_are_well_formed Fixture.clean_staging
                  "raw_customers" _ _ _ eq_refl)).
Defined.

(* ===================================================================== *)
(** * Amounts at the bounds                                               *)
(* ===================================================================== *)

(** C1, with the condition under which a row is loaded.  After a
    transform run on empty target tables every row of [fact_transactions]
    has an amount strictly between -1000 and 50000 (in cents: -100000 and
    5000000) and a non-null [customer_id] that equals the [customer_id] of
    exactly one row of [dim_customers].  The cleaned form of a staging row
    whose amount casts to 50000 or more is never in the table.  A
    representative whose amount casts to a value strictly between the
    bounds, 49999.99 for one, and whose [customer_id] is in [dim_customers]
    is in the table when no representative that passes the filter has a
    NULL category; when one has, the table is empty. *)
Theorem C1_fact_amount_open_interval_and_fk :
  forall (E : Engine) (t : Transformer)
         (dim : list DimCustomers.row) (facts : list FactTransactions.row),
    targets_empty (conn t) = true ->
    dim_customers (conn (transform_all E t)) = Some dim ->
    fact_transactions (conn (transform_all E t)) = Some facts ->
    (forall f, In f facts ->
       (exists a, FactTransactions.amount_eur f = Some a
                  /\ -1000 * 100 < a < 50000 * 100)
       /\ FactTransactions.customer_id f <> None
       /\ List.length
            (filter (fun d => holds (eq_text (FactTransactions.customer_id f)
                                             (DimCustomers.customer_id d))) dim)
          = 1%nat)
    /\ (forall r a, amount_cast E (RawTransactions.amount r) = Some a ->
                    50000 * 100 <= a ->
                    ~ In (select_transaction E r) facts)
    /\ (forall staged,
          raw_transactions (conn t) = Some staged ->
          ((forall x, In x (deduped_transactions staged) ->
                      holds (transaction_where E (map DimCustomers.customer_id dim) x)
                      = true ->
                      RawTransactions.category x <> None) ->
           forall r a,
             In r (deduped_transactions staged) ->
             amount_cast E (RawTransactions.amount r) = Some a ->
             -1000 * 100 < a < 50000 * 100 ->
             holds (sql_in (RawTransactions.customer_id r)
                           (map DimCustomers.customer_id dim)) = true ->
             In (select_transaction E r) facts)
          /\ ((exists x, In x (deduped_transactions staged)
                         /\ holds (transaction_where E
                                     (map DimCustomers.customer_id dim) x) = true
                         /\ RawTransactions.category x = None) ->
              facts = [])).
Proof.
  intros E t dim facts Hempty Hdim Hfacts.
  destruct (TransformFacts.transform_all_tables E t Hempty)
    as (dim' & facts' & Hd & Hf & Hdim_shape & _ & Hfact_shape & Hfact_ok).
  rewrite Hdim in Hd. injection Hd as <-.
  rewrite Hfacts in Hf. injection Hf as <-.
  assert (Hrows : forall f, In f facts ->
            (exists a, FactTransactions.amount_eur f = Some a
                       /\ -1000 * 100 < a < 50000 * 100)
            /\ FactTransactions.customer_id f <> None
            /\ List.length
                 (filter (fun d => holds (eq_text (FactTransactions.customer_id f)
                                                  (DimCustomers.customer_id d))) dim)
               = 1%nat).
  { intros f Hin.
    destruct Hfact_shape as [->|(staged & _ & -> & _)]; [contradiction|].
    apply FactFacts.selected_In in Hin. destruct Hin as (r & <- & Hr & Hw).
    apply FactFacts.transaction_where_holds in Hw.
    destruct Hw as ((c & Hc & Hin) & a & Ha & Hrange).
    split; [exists a; split; [now apply FactFacts.select_amount | exact Hrange]|].
    simpl. rewrite Hc. split; [discriminate|].
    apply SqlFacts.matches_once; [|exact Hin].
    destruct Hdim_shape as [->|(rc & _ & _ & Hins)]; [contradiction|].
    apply TransformFacts.insert_dim_Ok in Hins.
    apply SqlFacts.unique_keys_NoDup. tauto. }
  split; [exact Hrows|]. split.
  - intros r a Ha Hhigh Hin. apply Hrows in Hin.
    destruct Hin as ((a' & Ha' & Hrange) & _).
    rewrite (FactFacts.select_amount E r a Ha) in Ha'. injection Ha' as <-. lia.
  - intros staged Hst. split.
    + intros Hcat r a Hr Ha Hrange Hfk.
      rewrite (Hfact_ok staged Hst).
      * apply FactFacts.selected_In. exists r. split; [reflexivity|].
        split; [exact Hr|].
        apply FactFacts.transaction_where_holds. split.
        -- now apply SqlFacts.holds_in.
        -- exists a. auto.
      * now apply FactFacts.insert_selected.
    + intros (x & Hx & Hw & Hnone).
      destruct Hfact_shape as [->|(staged' & Hst' & -> & Hins)]; [reflexivity|].
      rewrite Hst in Hst'. injection Hst' as <-.
      apply LoadFacts.insert_fact_checks in Hins. destruct Hins as (_ & Hchk & _).
      assert (Hin : In (select_transaction E x) (selected_transactions E dim staged))
        by (apply FactFacts.selected_In; eauto).
      destruct (Hchk _ Hin) as (_ & _ & _ & _ & Hc). simpl in Hc.
      rewrite Hnone in Hc. now destruct Hc.
Qed.

(** The fixture of C1: of the two transactions of [CUST-0001], the one of
    49999.99 is loaded and the one of 50000 is not. *)
Lemma C1_witness :
  targets_empty Fixture.clean_staging = true
  /\ dim_customers (Fixture.run Fixture.clean_staging)
     = Some [select_customer Fixture.engine Fixture.cust1_early;
             select_customer Fixture.engine Fixture.cust2]
  /\ fact_transactions (Fixture.run Fixture.clean_staging)
     = Some [select_transaction Fixture.engine Fixture.txn_below]
  /\ amount_cast Fixture.engine (Some "50000") = Some 5000000
  /\ amount_cast Fixture.engine (Some "49999.99") = Some 4999999
  /\ ~ In (select_transaction Fixture.engine Fixture.txn_boundary)
          [select_transaction Fixture.engine Fixture.txn_below]
  /\ In (select_transaction Fixture.engine Fixture.txn_below)
        [select_transaction Fixture.engine Fixture.txn_below].
Proof.
  assert (He : targets_empty (conn (Fixture.fresh Fixture.clean_staging)) = true)
    by reflexivity.
  assert (Hd : dim_customers
                 (conn (transform_all Fixture.engine (Fixture.fresh Fixture.clean_staging)))
               = Some [select_customer Fixture.engine Fixture.cust1_early;
                       select_customer Fixture.engine Fixture.cust2])
    by (vm_compute; reflexivity).
  assert (Hf : fact_transactions
                 (conn (transform_all Fixture.engine (Fixture.fresh Fixture.clean_staging)))
               = Some [select_transaction Fixture.engine Fixture.txn_below])
    by (vm_compute; reflexivity).
  destruct (C1_fact_amount_open_interval_and_fk Fixture.engine
              (Fixture.fresh Fixture.clean_staging) _ _ He Hd Hf)
    as (Hrows & Hout & Hin).
  split; [exact He|]. split; [exact Hd|]. split; [exact Hf|].
  split; [reflexivity|]. split; [reflexivity|]. split.
  - apply (Hout Fixture.txn_boundary 5000000); [reflexivity | lia].
  - destruct (Hin [Fixture.txn_boundary; Fixture.txn_below] eq_refl) as (Hload & _).
    apply (Hload) with (a := 4999999).
    + intros x Hx _. vm_compute in Hx.
      destruct Hx as [<-|[<-|[]]]; discriminate.
    + vm_compute. auto.
    + reflexivity.
    + lia.
    + vm_compute. reflexivity.
Defined.

(** C1 without the condition fails: the transaction of 49999.99 is its
    key's representative and its customer is in [dim_customers], and it is
    not loaded, because another selected row has no category and the
    NOT NULL constraint refuses the insert as a whole. *)
Lemma C1_counterexample :
  targets_empty Fixture.null_category_staging = true
  /\ raw_transactions Fixture.null_category_staging
     = Some [Fixture.txn_below; Fixture.txn_no_category]
  /\ In Fixture.txn_below
        (deduped_transactions [Fixture.txn_below; Fixture.txn_no_category])
  /\ RawTransactions.amount Fixture.txn_below = Some "49999.99"
  /\ amount_cast Fixture.engine (RawTransactions.amount Fixture.txn_below)
     = Some 4999999
  /\ dim_customers (Fixture.run Fixture.null_category_staging)
     = Some [select_customer Fixture.engine Fixture.cust1_early]
  /\ holds (transaction_where Fixture.engine
              (map DimCustomers.customer_id
                   [select_customer Fixture.engine Fixture.cust1_early])
              Fixture.txn_below) = true
  /\ fact_transactions (Fixture.run Fixture.null_category_staging) = Some []
  /\ ~ In (select_transaction Fixture.engine Fixture.txn_below) [].
Proof.
  repeat split; try reflexivity; vm_compute; auto.
Qed.

(* ===================================================================== *)
(** * An age out of range                                                 *)
(* ===================================================================== *)

(** C4 fails on the code.  Of two staging customers, one has the age 200
    and the other the age n/a.  The select list keeps 200 as it is, the
    CHECK constraint of [dim_customers] refuses the insert, the step
    records the error, and neither customer reaches the table: not the one
    whose age is out of range, and not the one whose age does not parse. *)
Theorem C4_out_of_range_age_rejects_every_row :
  targets_empty Fixture.age_200_staging = true
  /\ raw_customers Fixture.age_200_staging
     = Some [Fixture.cust_age_200; Fixture.cust2]
  /\ deduped_customers [Fixture.cust_age_200; Fixture.cust2]
     = [Fixture.cust_age_200; Fixture.cust2]
  /\ RawCustomers.age Fixture.cust_age_200 = Some "200"
  /\ DimCustomers.age (select_customer Fixture.engine Fixture.cust_age_200) = Some 200
  /\ RawCustomers.age Fixture.cust2 = Some "n/a"
  /\ DimCustomers.age (select_customer Fixture.engine Fixture.cust2) = None
  /\ (exists what,
        insert_dim_customers Fixture.engine
          (conn (create_tables (Fixture.fresh Fixture.age_200_staging)))
        = Raise (ConstraintError "dim_customers" what))
  /\ dim_customers (Fixture.run Fixture.age_200_staging) = Some []
  /\ (exists e,
        report (transform_all Fixture.engine (Fixture.fresh Fixture.age_200_staging))
        = [TablesCreated; Failed "dim_customers" e;
           Loaded "fact_transactions" 0; Loaded "fact_sentiment" 0;
           Loaded "customer_profile" 0]).
Proof.
  split; [reflexivity|]. split; [reflexivity|]. split; [reflexivity|].
  split; [reflexivity|]. split; [reflexivity|]. split; [reflexivity|].
  split; [reflexivity|]. split; [eexists; reflexivity|].
  split; [reflexivity|]. eexists. reflexivity.
Qed.

(* ===================================================================== *)
(** * Customer ids that differ by case or blanks                          *)
(* ===================================================================== *)

(** C7, as the code has it.  On empty targets, a staging transaction that
    the raw orphan check counts is not loaded: no row of
    [fact_transactions] carries its [customer_id], and its cleaned form is
    not in the table.  The transform compares the raw texts as the raw
    check does: every [customer_id] of [dim_customers] is the [customer_id]
    of a staging customer as it was staged.  The cleaned check of the
    foreign keys then finds no orphan. *)
Theorem C7_raw_orphans_are_not_loaded :
  forall (E : Engine) (t : Transformer) (staged : list RawCustomers.row)
         (txn : RawTransactions.row) (dim : list DimCustomers.row)
         (facts : list FactTransactions.row),
    targets_empty (conn t) = true ->
    raw_customers (conn t) = Some staged ->
    holds (Validation.orphan_where (map RawCustomers.customer_id staged) txn) = true ->
    dim_customers (conn (transform_all E t)) = Some dim ->
    fact_transactions (conn (transform_all E t)) = Some facts ->
    (forall f, In f facts ->
               FactTransactions.customer_id f <> RawTransactions.customer_id txn)
    /\ ~ In (select_transaction E txn) facts
    /\ (forall k, In k (map DimCustomers.customer_id dim) ->
                  In k (map RawCustomers.customer_id staged))
    /\ Validation._check_foreign_keys (conn (transform_all E t))
       = Validation.Integrity true 0.
Proof.
  intros E t staged txn dim facts Hempty Hst Horphan Hdim Hfacts.
  assert (H : forall f, In f facts ->
                FactTransactions.customer_id f <> RawTransactions.customer_id txn)
    by (intros f Hf; eapply KeyFacts.orphan_not_loaded; eauto).
  split; [exact H|]. split; [intro Hin; exact (H _ Hin eq_refl)|]. split.
  - intros k Hk. eapply KeyFacts.dim_ids_are_staged; eauto.
  - now apply CheckFacts.run_foreign_keys.
Qed.

(** The fixture of C7: the transaction of [ cust-0001], which differs from
    the staging customer [CUST-0001] by case and a blank, is counted by the
    raw check, is not loaded, and the cleaned check finds nothing. *)
Lemma C7_witness :
  targets_empty Fixture.case_staging = true
  /\ raw_customers Fixture.case_staging = Some [Fixture.cust1_early]
  /\ lower Fixture.engine (trim Fixture.engine " cust-0001")
     = lower Fixture.engine (trim Fixture.engine "CUST-0001")
  /\ Validation._find_orphan_keys Fixture.case_staging
     = Validation.Orphans true 1 "Transactions with non-existent customer_id"
  /\ fact_transactions (Fixture.run Fixture.case_staging) = Some []
  /\ Validation._check_foreign_keys (Fixture.run Fixture.case_staging)
     = Validation.Integrity true 0
  /\ ~ In (select_transaction Fixture.engine Fixture.txn_other_case) [].
Proof.
  destruct (C7_raw_orphans_are_not_loaded Fixture.engine
              (Fixture.fresh Fixture.case_staging) [Fixture.cust1_early]
              Fixture.txn_other_case
              [select_customer Fixture.engine Fixture.cust1_early] []
              eq_refl eq_refl eq_refl eq_refl eq_refl)
    as (_ & Hout & _ & Hfk).
  split; [reflexivity|]. split; [reflexivity|]. split; [reflexivity|].
  split; [reflexivity|]. split; [reflexivity|]. split; [exact Hfk | exact Hout].
Defined.

(** C7 with a loaded orphan has no instance: in no staging state is a
    transaction both counted by the raw orphan check and loaded into
    [fact_transactions], whether or not its [customer_id] differs from a
    staging customer's by case or blanks only. *)
Lemma C7_counterexample :
  ~ (exists (E : Engine) (t : Transformer) (staged_customers : list RawCustomers.row)
            (staged_transactions : list RawTransactions.row)
            (txn : RawTransactions.row) (cust : RawCustomers.row)
            (a b : string) (facts : list FactTransactions.row),
       targets_empty (conn t) = true
       /\ raw_customers (conn t) = Some staged_customers
       /\ raw_transactions (conn t) = Some staged_transactions
       /\ In txn staged_transactions
       /\ In cust staged_customers
       /\ RawTransactions.customer_id txn = Some a
       /\ RawCustomers.customer_id cust = Some b
       /\ a <> b
       /\ lower E (trim E a) = lower E (trim E b)
       /\ holds (Validation.orphan_where
                   (map RawCustomers.customer_id staged_customers) txn) = true
       /\ fact_transactions (conn (transform_all E t)) = Some facts
       /\ In (select_transaction E txn) facts).
Proof.
  intros (E & t & sc & st & txn & cust & a & b & facts
          & Hempty & Hsc & _ & _ & _ & _ & _ & _ & _ & Horphan & Hfacts & Hin).
  exact (KeyFacts.orphan_not_loaded E t sc txn facts _ Hempty Hsc Horphan Hfacts Hin
           eq_refl).
Qed.

(* ===================================================================== *)
(** * A profile that does not fit its column                              *)
(* ===================================================================== *)

(** C9 fails on the code.  [CUST-0001] has two transactions, of 1990-01-01
    and of 2025-08-01, and [CUST-0002] has none.  Both customers and both
    transactions are loaded.  The aggregation yields a row for each
    customer, with a NULL ratio and a NULL interval for [CUST-0002]; the
    interval of [CUST-0001] is 12996.0 days, which the column
    [avg_days_between_txns DECIMAL(5, 1)] cannot hold.  The insert is
    refused as a whole: the step records an error and [customer_profile]
    has no row, for neither customer. *)
Theorem C9_profile_load_is_refused :
  targets_empty Fixture.long_gap_staging = true
  /\ dim_customers (Fixture.run Fixture.long_gap_staging)
     = Some [select_customer Fixture.engine Fixture.cust1_early;
             select_customer Fixture.engine Fixture.cust2]
  /\ fact_transactions (Fixture.run Fixture.long_gap_staging)
     = Some [select_transaction Fixture.engine Fixture.txn_1990;
             select_transaction Fixture.engine Fixture.txn_2025]
  /\ map (fun p => (CustomerProfile.customer_id p, CustomerProfile.txn_count p,
                    CustomerProfile.sports_affinity_ratio p,
                    CustomerProfile.avg_days_between_txns p))
         (customer_profile_query Fixture.engine
            [select_customer Fixture.engine Fixture.cust1_early;
             select_customer Fixture.engine Fixture.cust2]
            [select_transaction Fixture.engine Fixture.txn_1990;
             select_transaction Fixture.engine Fixture.txn_2025])
     = [(Some "CUST-0001", Some 2, QValue 0, QValue 129960);
        (Some "CUST-0002", Some 0, QNull, QNull)]
  /\ Insert.quotient_fits 5 (QValue 129960) = false
  /\ (exists what,
        insert_customer_profile Fixture.engine
          (conn (load_fact_sentiment Fixture.engine
                   (load_fact_transactions Fixture.engine
                      (load_dim_customers Fixture.engine
                         (create_tables (Fixture.fresh Fixture.long_gap_staging))))))
        = Raise (ConversionError "customer_profile" what))
  /\ customer_profile (Fixture.run Fixture.long_gap_staging) = Some []
  /\ (exists e,
        report (transform_all Fixture.engine (Fixture.fresh Fixture.long_gap_staging))
        = [TablesCreated; Loaded "dim_customers" 2; Loaded "fact_transactions" 2;
           Loaded "fact_sentiment" 0; Failed "customer_profile" e]).
Proof.
  split; [reflexivity|]. split; [vm_compute; reflexivity|].
  split; [vm_compute; reflexivity|]. split; [vm_compute; reflexivity|].
  split; [reflexivity|]. split; [eexists; vm_compute; reflexivity|].
  split; [vm_compute; reflexivity|]. eexists. vm_compute. reflexivity.
Qed.
